(** * Book catalogue backend: routes/auth.js, routes/books.js,
      middleware/auth.js and utils/imageProcessor.js

    A shallow embedding of the request handlers.  Every handler is a
    function from the request, the outcome of the external calls it makes
    (the MongoDB driver, sharp, the file system, the clock) and the state
    of the world before the request, to the state after it and the HTTP
    response that was sent.

    A JavaScript number is a double; a finite double is a rational, and
    numbers are modelled by the rationals they denote.  The two arithmetic
    operations of the handlers, [acc + cur.grade] and the division of the
    sum by the length, are the exact operations followed by the rounding
    [fl] to the nearest double. *)

From Stdlib Require Import List String Ascii Bool Arith ZArith QArith Qround Lia.
From Stdlib Require Import Sorting.Sorted Sorting.Permutation.
From Stdlib Require Import DecimalString.
Import ListNotations.

Local Close Scope Q_scope.
Local Open Scope string_scope.
Local Open Scope list_scope.

(** ** Values *)

Abbreviation number := Q (only parsing).

(** [a < b] on numbers, as a boolean. *)
Definition num_ltb (a b : number) : bool := negb (Qle_bool b a).

(** *** Rounding to the nearest double

    [fl q] is the double nearest to [q], ties to the even significand:
    53 significant bits above [2^-1022], multiples of [2^-1074] below.
    Results beyond the largest finite double, which JavaScript turns into
    [Infinity], are outside the rationals and are not modelled. *)

Definition pow2 (e : Z) : Q :=
  match e with
  | Z0 => 1%Q
  | Zpos p => inject_Z (2 ^ Zpos p)
  | Zneg p => (1 # (2 ^ p))%Q
  end.

(** The nearest integer, ties to even. *)
Definition round_half_even (x : Q) : Z :=
  let f := Qfloor x in
  match Qcompare (x - inject_Z f) (1 # 2) with
  | Lt => f
  | Gt => (f + 1)%Z
  | Eq => if Z.even f then f else (f + 1)%Z
  end.

(** For [q > 0], the exponent [e] with [2^e <= q < 2^(e+1)]. *)
Definition binade (q : Q) : Z :=
  let e0 := (Z.log2 (Qnum q) - Z.log2 (Zpos (Qden q)))%Z in
  if Qle_bool (pow2 e0) q then e0 else (e0 - 1)%Z.

(** Rounding of a positive rational. *)
Definition round53 (q : Q) : Q :=
  let e := Z.max (binade q - 52) (-1074) in
  (inject_Z (round_half_even (q / pow2 e)) * pow2 e)%Q.

Definition fl (q : Q) : Q :=
  let c := Qred q in
  match Qnum c with
  | Z0 => 0%Q
  | Zpos _ => Qred (round53 c)
  | Zneg _ => Qred (- round53 (- c))
  end.

(** The value of an optional numeric body field such as [req.body.rating]:
    the key is missing, or it holds a number (the documented request
    schema declares [rating] with type number). *)
Inductive jsval :=
| JUndefined
| JNum (n : number).

(** An error value carried by a rejected promise or a thrown exception. *)
Definition Error := string.

(** The settlement of a promise; a [try] block around a synchronous call
    sees the same two outcomes. *)
Inductive Promise (A : Type) :=
| Resolved (a : A)
| Rejected (e : Error).
Arguments Resolved {A} a.
Arguments Rejected {A} e.

(** ** Documents (the schema published in app.js) *)

Module Rating.
Record t := mk { userId : string; grade : number }.
End Rating.

Module Book.
Record t := mk {
  _id : string;
  userId : string;
  title : option string;
  author : option string;
  genre : option string;
  year : option number;
  imageUrl : string;
  averageRating : number;
  ratings : list Rating.t
}.
End Book.

Module User.
Record t := mk { _id : string; email : string; password : string }.
End User.

(** The token payload and registered claims of [jwt.sign]; [key] stands
    for the signature, which is determined by the signing secret. *)
Record Token := {
  tok_userId : string;
  iat : Z;
  exp : Z;
  key : string
}.

(** ** The world *)

Record World := {
  books : list Book.t;      (* the [Book] collection, in natural order *)
  users : list User.t;      (* the [User] collection *)
  images : list string;     (* names of the files in the images directory *)
  console : list string     (* lines written by console.log / console.error *)
}.

(** Outcome of the external calls of one request.  [None] means that the
    call goes through; [Some e] that it rejects or throws [e].  A query the
    driver cannot cast (an identifier that is not an ObjectId, a field of
    the wrong type, a document refused by schema validation) is a
    rejection of the corresponding call. *)
Record Env := {
  Date_now : Z;                            (* Date.now(), milliseconds *)
  dirname : list string;                   (* __dirname of routes/books.js, by segments *)
  new_id : string;                         (* the ObjectId of [new Book] *)
  find_rejects : option Error;             (* find / findOne *)
  save_rejects : option Error;             (* document.save *)
  updateOne_rejects : option Error;
  deleteOne_rejects : option Error;
  startSession_rejects : option Error;
  startTransaction_throws : option Error;
  commitTransaction_rejects : option Error;
  unlink_fails : option Error;             (* fs.unlink calls back with err *)
  sharp_fails : option Error               (* sharp(...).toFile rejects *)
}.

(** ** HTTP responses *)

Inductive Json :=
| Message (message : string)                 (* { message } *)
| ErrorBody (error : Error)                  (* { error } *)
| BookBody (book : Book.t)
| BooksBody (l : list Book.t)
| LoginBody (userId : string) (token : Token). (* { userId, token } *)

Record Response := { status : nat; json : Json }.

Definition res_status_json (s : nat) (j : Json) : Response :=
  {| status := s; json := j |}.

(** The error taxonomy attached to status codes. *)
Inductive ErrorClass :=
| ValidationError | UnauthorizedError | ForbiddenError | NotFoundError | IOError.

Definition error_class (s : nat) : option ErrorClass :=
  match s with
  | 400 => Some ValidationError
  | 401 => Some UnauthorizedError
  | 403 => Some ForbiddenError
  | 404 => Some NotFoundError
  | 500 => Some IOError
  | _ => None
  end.

(** ** Setters for the world *)

Definition with_books (l : list Book.t) (w : World) : World :=
  {| books := l; users := users w; images := images w; console := console w |}.

Definition with_images (l : list string) (w : World) : World :=
  {| books := books w; users := users w; images := l; console := console w |}.

Definition console_error (line : string) (w : World) : World :=
  {| books := books w; users := users w; images := images w;
     console := console w ++ [line] |}.

(** ** The MongoDB collection of books *)

(** Query filters of the handlers. *)
Definition by_id (id : string) (b : Book.t) : bool := Book._id b =? id.

Definition by_id_and_user (id uid : string) (b : Book.t) : bool :=
  (Book._id b =? id) && (Book.userId b =? uid).

(** [Book.find()]. *)
Definition Book_find (env : Env) (w : World) : Promise (list Book.t) :=
  match find_rejects env with
  | Some e => Rejected e
  | None => Resolved (books w)
  end.

(** [Book.findOne(filter)]: the first matching document, or null. *)
Definition Book_findOne (env : Env) (filter : Book.t -> bool) (w : World)
  : Promise (option Book.t) :=
  match find_rejects env with
  | Some e => Rejected e
  | None => Resolved (find filter (books w))
  end.

(** Replace the first document that satisfies [filter]. *)
Fixpoint replace_first (filter : Book.t -> bool) (b' : Book.t) (l : list Book.t)
  : list Book.t :=
  match l with
  | [] => []
  | b :: tl => if filter b then b' :: tl else b :: replace_first filter b' tl
  end.

(** Remove the first document that satisfies [filter]. *)
Fixpoint remove_first (filter : Book.t -> bool) (l : list Book.t) : list Book.t :=
  match l with
  | [] => []
  | b :: tl => if filter b then tl else b :: remove_first filter tl
  end.

(** [book.save()] on a document loaded from the collection: the stored
    document with the same [_id] takes the new field values; the promise
    resolves with the saved document. *)
Definition Book_save (env : Env) (book : Book.t) (w : World)
  : Promise (World * Book.t) :=
  match save_rejects env with
  | Some e => Rejected e
  | None => Resolved (with_books (replace_first (by_id (Book._id book)) book (books w)) w, book)
  end.

(** [book.save()] on a document made by [new Book]: an insertion, which the
    unique index on [_id] refuses when the identifier is taken. *)
Definition Book_insert (env : Env) (book : Book.t) (w : World) : Promise World :=
  match save_rejects env with
  | Some e => Rejected e
  | None =>
      if existsb (by_id (Book._id book)) (books w)
      then Rejected "E11000 duplicate key error"
      else Resolved (with_books (books w ++ [book]) w)
  end.

(** The update document handed to [Book.updateOne], after Mongoose has
    dropped the keys that are not paths of the schema: a path that is
    [Some v] is set to [v], a path that is [None] is left alone.  The same
    record represents the value of [JSON.parse(req.body.book)]. *)
Record UpdateDoc := {
  set_userId : option string;
  set_title : option string;
  set_author : option string;
  set_genre : option string;
  set_year : option number;
  set_imageUrl : option string;
  set_averageRating : option number;
  set_ratings : option (list Rating.t)
}.

Definition or_else {A : Type} (o : option A) (d : A) : A :=
  match o with Some a => a | None => d end.

Definition or_keep {A : Type} (o : option A) (d : option A) : option A :=
  match o with Some a => Some a | None => d end.

Definition apply_update (doc : UpdateDoc) (b : Book.t) : Book.t :=
  {| Book._id := Book._id b;
     Book.userId := or_else (set_userId doc) (Book.userId b);
     Book.title := or_keep (set_title doc) (Book.title b);
     Book.author := or_keep (set_author doc) (Book.author b);
     Book.genre := or_keep (set_genre doc) (Book.genre b);
     Book.year := or_keep (set_year doc) (Book.year b);
     Book.imageUrl := or_else (set_imageUrl doc) (Book.imageUrl b);
     Book.averageRating := or_else (set_averageRating doc) (Book.averageRating b);
     Book.ratings := or_else (set_ratings doc) (Book.ratings b) |}.

(** [{ ...parsedBook, imageUrl }]. *)
Definition spread_with_imageUrl (parsedBook : UpdateDoc) (imageUrl : string)
  : UpdateDoc :=
  {| set_userId := set_userId parsedBook;
     set_title := set_title parsedBook;
     set_author := set_author parsedBook;
     set_genre := set_genre parsedBook;
     set_year := set_year parsedBook;
     set_imageUrl := Some imageUrl;
     set_averageRating := set_averageRating parsedBook;
     set_ratings := set_ratings parsedBook |}.

(** Equality of stored values, by which the server decides whether an
    update modifies a document; numbers are compared by value. *)
Definition option_eqb {A : Type} (eqb : A -> A -> bool) (x y : option A) : bool :=
  match x, y with
  | Some a, Some b => eqb a b
  | None, None => true
  | _, _ => false
  end.

Fixpoint list_eqb {A : Type} (eqb : A -> A -> bool) (x y : list A) : bool :=
  match x, y with
  | [], [] => true
  | a :: x', b :: y' => eqb a b && list_eqb eqb x' y'
  | _, _ => false
  end.

Definition Rating_eqb (r s : Rating.t) : bool :=
  (Rating.userId r =? Rating.userId s) && Qeq_bool (Rating.grade r) (Rating.grade s).

Definition Book_eqb (a b : Book.t) : bool :=
  (Book._id a =? Book._id b)
  && (Book.userId a =? Book.userId b)
  && option_eqb String.eqb (Book.title a) (Book.title b)
  && option_eqb String.eqb (Book.author a) (Book.author b)
  && option_eqb String.eqb (Book.genre a) (Book.genre b)
  && option_eqb Qeq_bool (Book.year a) (Book.year b)
  && (Book.imageUrl a =? Book.imageUrl b)
  && Qeq_bool (Book.averageRating a) (Book.averageRating b)
  && list_eqb Rating_eqb (Book.ratings a) (Book.ratings b).

(** The write result read by the update handler. *)
Record UpdateResult := { n : nat; nModified : nat }.

(** [Book.updateOne(filter, doc)]: the first matching document takes the
    fields of [doc]; [nModified] counts the documents whose stored value
    changed. *)
Definition Book_updateOne (env : Env) (filter : Book.t -> bool) (doc : UpdateDoc)
  (w : World) : Promise (World * UpdateResult) :=
  match updateOne_rejects env with
  | Some e => Rejected e
  | None =>
      match find filter (books w) with
      | None => Resolved (w, {| n := 0; nModified := 0 |})
      | Some b =>
          let b' := apply_update doc b in
          if Book_eqb b b'
          then Resolved (w, {| n := 1; nModified := 0 |})
          else Resolved (with_books (replace_first filter b' (books w)) w,
                         {| n := 1; nModified := 1 |})
      end
  end.

(** [Book.deleteOne(filter).session(session)]: resolves with the collection
    as the transaction sees it; the caller installs it on commit. *)
Definition Book_deleteOne (env : Env) (filter : Book.t -> bool) (w : World)
  : Promise (list Book.t) :=
  match deleteOne_rejects env with
  | Some e => Rejected e
  | None => Resolved (remove_first filter (books w))
  end.

(** ** The collection of users *)

Definition User_findOne (env : Env) (email : string) (w : World)
  : Promise (option User.t) :=
  match find_rejects env with
  | Some e => Rejected e
  | None => Resolved (find (fun u => User.email u =? email) (users w))
  end.

(** ** Strings and files *)

(** The decimal text of an integer, as a template literal prints it. *)
Definition string_of_Z (z : Z) : string := NilZero.string_of_int (Z.to_int z).

(** [s.split(sep)[1]] for a non-empty separator: the text between the
    first and the second occurrence of [sep], undefined when [sep] does not
    occur. *)
Definition split_1 (sep s : string) : option string :=
  match index 0 sep s with
  | None => None
  | Some i =>
      let from := i + String.length sep in
      let rest := substring from (String.length s - from) s in
      match index 0 sep rest with
      | None => Some rest
      | Some j => Some (substring 0 j rest)
      end
  end.

(** Truthiness of a string. *)
Definition truthy (s : string) : bool := negb (s =? "").

(** [s.split(c)] for a separator of one character. *)
Fixpoint split_char (c : ascii) (s : string) : list string :=
  match s with
  | EmptyString => [EmptyString]
  | String x tl =>
      match split_char c tl with
      | [] => [EmptyString]
      | hd :: rest =>
          if Ascii.eqb x c then EmptyString :: hd :: rest
          else String x hd :: rest
      end
  end.

(** The text ends with the character. *)
Fixpoint ends_with (c : ascii) (s : string) : bool :=
  match s with
  | EmptyString => false
  | String x EmptyString => Ascii.eqb x c
  | String _ tl => ends_with c tl
  end.

(** [path.normalize] on the segments of an absolute path: empty and ["."]
    segments are dropped, [".."] drops the segment before it (and nothing
    at the root).  [kept] holds the segments kept so far, last first. *)
Fixpoint normalize (kept : list string) (segments : list string) : list string :=
  match segments with
  | [] => rev kept
  | seg :: tl =>
      if (seg =? "") || (seg =? ".") then normalize kept tl
      else if seg =? ".." then normalize (List.tl kept) tl
      else normalize (seg :: kept) tl
  end.

(** The images directory, [path.join(__dirname, "..", "images")]. *)
Definition images_directory (env : Env) : list string :=
  normalize [] (dirname env ++ [".."; "images"]).

(** [path.join(__dirname, "..", "images", filename)]. *)
Definition path_join_images (env : Env) (filename : string) : list string :=
  normalize [] (dirname env ++ [".."; "images"] ++ split_char "/" filename).

(** [l] without its prefix [pre]. *)
Fixpoint strip_prefix (pre l : list string) : option (list string) :=
  match pre, l with
  | [], _ => Some l
  | p :: pre', x :: l' => if p =? x then strip_prefix pre' l' else None
  | _ :: _, [] => None
  end.

(** What a path designates, seen from the images directory: a file name
    directly in it, something that cannot be unlinked (the directory, one
    of its ancestors, a path with a trailing separator), or a path
    elsewhere, about which the model knows nothing. *)
Inductive Target :=
| InImages (name : string)
| NotAFile
| Elsewhere.

Definition unlink_target (env : Env) (filename : string) : Target :=
  if ends_with "/" filename then NotAFile
  else
    match strip_prefix (images_directory env) (path_join_images env filename) with
    | Some [name] => InImages name
    | Some [] => NotAFile
    | Some (_ :: _ :: _) => Elsewhere
    | None =>
        match strip_prefix (path_join_images env filename) (images_directory env) with
        | Some _ => NotAFile
        | None => Elsewhere
        end
    end.

(** [fs.unlink(path.join(__dirname, "..", "images", filename), callback)]
    with the callback of the delete handler, which only logs the error.
    The effect of the callback is recorded at the point of the call.  The
    images directory holds files only: unlinking a name that is not in it,
    the directory itself or one of its ancestors fails, and the error is
    logged.  A path that [path.join] resolves outside the images directory
    designates a file the world does not hold: its unlink leaves the world
    as it is unless [unlink_fails] tells that it fails. *)
Definition fs_unlink (env : Env) (filename : string) (w : World) : World :=
  match unlink_fails env with
  | Some e => console_error "Erreur lors de la suppression de l'image :" w
  | None =>
      match unlink_target env filename with
      | InImages name =>
          if existsb (String.eqb name) (images w)
          then with_images (filter (fun f => negb (f =? name)) (images w)) w
          else console_error "Erreur lors de la suppression de l'image :" w
      | NotAFile => console_error "Erreur lors de la suppression de l'image :" w
      | Elsewhere => w
      end
  end.

(** An uploaded file, as multer's memory storage presents it:
    [req.file.originalname] and [req.file.buffer]. *)
Record File := { originalname : string; buffer : string }.

(** utils/imageProcessor.js, at the default width and quality: the
    re-encoded image is written to [images/filename] and that path is
    returned; a failure of sharp is logged and thrown again. *)
Definition compressImage (env : Env) (fileBuffer filename : string) (w : World)
  : World * Promise string :=
  let outputFilePath := ("images/" ++ filename)%string in
  match sharp_fails env with
  | None =>
      (if existsb (String.eqb filename) (images w) then w
       else with_images (images w ++ [filename]) w,
       Resolved outputFilePath)
  | Some error =>
      (console_error "Erreur lors de la compression de l'image :" w,
       Rejected error)
  end.

(** ** routes/auth.js and middleware/auth.js *)

Definition RANDOM_TOKEN_SECRET : string := "RANDOM_TOKEN_SECRET".

(** Seconds in the ["24h"] of [expiresIn]. *)
Definition expiresIn_24h : Z := 24 * 60 * 60.

(** [jwt.sign({ userId }, secret, { expiresIn })] at clock [now_ms]. *)
Definition jwt_sign (userId secret : string) (expiresIn now_ms : Z) : Token :=
  let issued := (now_ms / 1000)%Z in
  {| tok_userId := userId; iat := issued; exp := (issued + expiresIn)%Z;
     key := secret |}.

(** [jwt.verify(token, secret)] at clock [now_ms]: the payload, unless the
    signature is not the secret's or the token has expired. *)
Definition jwt_verify (token : Token) (secret : string) (now_ms : Z)
  : option string :=
  if (key token =? secret) && (now_ms / 1000 <? exp token)%Z
  then Some (tok_userId token)
  else None.

(** The middleware: [Some userId] stands for [req.userData] followed by
    [next()], [None] for the 401 response.  The argument is the token found
    after the space of the Authorization header, if there is one. *)
Definition auth (env : Env) (authorization : option Token) : option string :=
  match authorization with
  | None => None
  | Some token => jwt_verify token RANDOM_TOKEN_SECRET (Date_now env)
  end.

Definition unauthorized : Response :=
  res_status_json 401 (Message "Unauthorized request!").

Section Login.

(** [bcrypt.compare(password, hash)]. *)
Variable bcrypt_compare : string -> string -> bool.

(** POST /api/auth/login.  Neither promise of the handler has a catch:
    when the query rejects no response is sent ([None]). *)
Definition login (env : Env) (email password : string) (w : World)
  : option Response :=
  match User_findOne env email w with
  | Rejected _ => None
  | Resolved None => Some (res_status_json 401 (Message "User not found!"))
  | Resolved (Some user) =>
      let valid := bcrypt_compare password (User.password user) in
      if negb valid
      then Some (res_status_json 401 (Message "Incorrect password!"))
      else
        let token :=
          jwt_sign (User._id user) RANDOM_TOKEN_SECRET expiresIn_24h (Date_now env) in
        Some (res_status_json 200 (LoginBody (User._id user) token))
  end.

End Login.

(** ** routes/books.js *)

(** The parts of a multipart request read by the create and update
    handlers.  [body_book] is [JSON.parse(req.body.book)], [None] when the
    call throws; [book_null] tells that the parsed value is [null], whose
    spread is the empty document, which [body_book] then holds; [body] is
    [req.body] seen as an update document. *)
Record BookRequest := {
  params_id : string;
  protocol : string;
  host : string;
  file : option File;
  body_book : option UpdateDoc;
  book_null : bool;
  body : UpdateDoc
}.

Definition invalid_json : Json :=
  Message "Les détails du livre doivent être un JSON valide.".

(** GET /api/books *)
Definition get_books (env : Env) (w : World) : Response :=
  match Book_find env w with
  | Resolved books => res_status_json 200 (BooksBody books)
  | Rejected error => res_status_json 400 (ErrorBody error)
  end.

(** [.sort({ averageRating: -1 })]: descending on the key; documents with
    the same key stay in natural order. *)
Fixpoint insert_desc (b : Book.t) (l : list Book.t) : list Book.t :=
  match l with
  | [] => [b]
  | x :: tl =>
      if Qle_bool (Book.averageRating x) (Book.averageRating b)
      then b :: x :: tl
      else x :: insert_desc b tl
  end.

Definition sort_averageRating_desc (l : list Book.t) : list Book.t :=
  fold_right insert_desc [] l.

(** [.limit(n)] *)
Definition limit (n : nat) (l : list Book.t) : list Book.t := firstn n l.

(** GET /api/books/bestrating *)
Definition get_bestrating (env : Env) (w : World) : Response :=
  match Book_find env w with
  | Resolved all =>
      res_status_json 200 (BooksBody (limit 3 (sort_averageRating_desc all)))
  | Rejected error => res_status_json 400 (ErrorBody error)
  end.

(** GET /api/books/:id *)
Definition get_book (env : Env) (id : string) (w : World) : Response :=
  match Book_findOne env (by_id id) w with
  | Resolved None => res_status_json 404 (Message "Livre non trouvé !")
  | Resolved (Some book) => res_status_json 200 (BookBody book)
  | Rejected error => res_status_json 400 (ErrorBody error)
  end.

(** The stored name and the public URL of an upload. *)
Definition upload_filename (env : Env) (f : File) : string :=
  (string_of_Z (Date_now env) ++ "-" ++ originalname f)%string.

Definition image_url (req : BookRequest) (imagePath : string) : string :=
  (protocol req ++ "://" ++ host req ++ "/" ++ imagePath)%string.

(** POST /api/books, behind [auth]; [uid] is [req.userData.userId].  When
    the book field parses to [null], reading [bookDetails.title] throws
    outside every [try] of the handler: no response is sent ([None]). *)
Definition post_book (env : Env) (uid : string) (req : BookRequest) (w : World)
  : World * option Response :=
  match body_book req with
  | None => (w, Some (res_status_json 400 invalid_json))
  | Some bookDetails =>
      let '(w1, imageUrl) :=
        match file req with
        | Some f =>
            match compressImage env (buffer f) (upload_filename env f) w with
            | (w1, Resolved imagePath) => (w1, Resolved (image_url req imagePath))
            | (w1, Rejected error) => (w1, Rejected error)
            end
        | None => (w, Resolved "")
        end in
      match imageUrl with
      | Rejected error => (w1, Some (res_status_json 400 (ErrorBody error)))
      | Resolved imageUrl =>
          if book_null req then (w1, None)
          else
            let book :=
              {| Book._id := new_id env;
                 Book.userId := uid;
                 Book.title := set_title bookDetails;
                 Book.author := set_author bookDetails;
                 Book.genre := set_genre bookDetails;
                 Book.year := set_year bookDetails;
                 Book.imageUrl := imageUrl;
                 Book.averageRating := 0%Q;
                 Book.ratings := [] |} in
            match Book_insert env book w1 with
            | Resolved w2 =>
                (w2, Some (res_status_json 201 (Message "Livre créé avec succès !")))
            | Rejected error => (w1, Some (res_status_json 400 (ErrorBody error)))
            end
      end
  end.

(** The first half of PUT /api/books/:id: the update document, or the
    response of the early return. *)
Definition put_book_data (env : Env) (req : BookRequest) (w : World)
  : World * (Response + UpdateDoc) :=
  match file req with
  | Some f =>
      match body_book req with
      | None =>
          (console_error "SyntaxError" w, inl (res_status_json 400 invalid_json))
      | Some parsedBook =>
          match compressImage env (buffer f) (upload_filename env f) w with
          | (w1, Resolved imagePath) =>
              (w1, inr (spread_with_imageUrl parsedBook (image_url req imagePath)))
          | (w1, Rejected err) =>
              (console_error err w1, inl (res_status_json 400 invalid_json))
          end
      end
  | None =>
      match body_book req with
      | Some parsedBook => (w, inr parsedBook)
      | None => (w, inr (body req))
      end
  end.

(** PUT /api/books/:id, behind [auth]. *)
Definition put_book (env : Env) (uid : string) (req : BookRequest) (w : World)
  : World * Response :=
  let bookId := params_id req in
  match put_book_data env req w with
  | (w1, inl early) => (w1, early)
  | (w1, inr bookData) =>
      match Book_updateOne env (by_id_and_user bookId uid) bookData w1 with
      | Resolved (w2, result) =>
          if (nModified result =? 0)%nat
          then (w2, res_status_json 403
                  (Message "Requête non autorisée ou aucune modification détectée."))
          else (w2, res_status_json 200 (Message "Livre mis à jour avec succès !"))
      | Rejected error => (w1, res_status_json 400 (ErrorBody error))
      end
  end.

(** [book.imageUrl ? book.imageUrl.split("/images/")[1] : null] *)
Definition image_filename (book : Book.t) : option string :=
  if truthy (Book.imageUrl book)
  then split_1 "/images/" (Book.imageUrl book)
  else None.

(** [if (filename) { fs.unlink(...) }] *)
Definition unlink_image (env : Env) (filename : option string) (w : World) : World :=
  match filename with
  | Some filename => if truthy filename then fs_unlink env filename w else w
  | None => w
  end.

(** The transaction of the session, as the driver tracks it. *)
Inductive TxnState :=
| NoTransaction
| InProgress
| Committed.

(** [session.abortTransaction()]: the driver ignores the errors of the
    abort command itself, and throws when no transaction was started and
    after [commitTransaction] was called, whatever its outcome was. *)
Definition abortTransaction (s : TxnState) : option Error :=
  match s with
  | InProgress => None
  | NoTransaction => Some "No transaction started"
  | Committed => Some "Cannot call abortTransaction after calling commitTransaction"
  end.

(** The catch block of the delete handler.  The abort is awaited first:
    when it throws, the handler ends there and no response is sent;
    otherwise the transaction is aborted, so the collection stays as it
    was, the error is logged and the answer is 500. *)
Definition delete_catch (s : TxnState) (error : Error) (w : World)
  : World * option Response :=
  match abortTransaction s with
  | Some _ => (w, None)
  | None =>
      (console_error "Erreur lors de la suppression du livre :" w,
       Some (res_status_json 500 (ErrorBody error)))
  end.

(** DELETE /api/books/:id, behind [auth].  [startSession] is awaited
    outside the [try]: when it rejects no response is sent. *)
Definition delete_book (env : Env) (uid : string) (bookId : string) (w : World)
  : World * option Response :=
  match startSession_rejects env with
  | Some _ => (w, None)
  | None =>
      match startTransaction_throws env with
      | Some error => delete_catch NoTransaction error w
      | None =>
          match Book_findOne env (by_id_and_user bookId uid) w with
          | Rejected error => delete_catch InProgress error w
          | Resolved None =>
              match abortTransaction InProgress with
              | Some error => delete_catch InProgress error w
              | None =>
                  (w, Some (res_status_json 403
                              (Message "Requête non autorisée ou livre non trouvé.")))
              end
          | Resolved (Some book) =>
              let filename := image_filename book in
              let w1 := unlink_image env filename w in
              match Book_deleteOne env (by_id bookId) w1 with
              | Rejected error => delete_catch InProgress error w1
              | Resolved remaining =>
                  match commitTransaction_rejects env with
                  | Some error => delete_catch Committed error w1
                  | None =>
                      (with_books remaining w1,
                       Some (res_status_json 200
                               (Message "Livre et image supprimés avec succès !")))
                  end
              end
          end
      end
  end.

(** The mean computed by the rating handler:
    [ratings.reduce((acc, cur) => acc + cur.grade, 0) / ratings.length]. *)
Definition reduce_grades (ratings : list Rating.t) : number :=
  fold_left (fun acc cur => fl (acc + Rating.grade cur)) ratings 0%Q.

Definition number_of_nat (k : nat) : number := inject_Z (Z.of_nat k).

(** POST /api/books/:id/rating, behind [auth]. *)
Definition post_rating (env : Env) (uid : string) (id : string) (rating : jsval)
  (w : World) : World * Response :=
  let out_of_range :=
    (w, res_status_json 400 (Message "La note doit être comprise entre 0 et 5.")) in
  match rating with
  | JUndefined => out_of_range
  | JNum r =>
      if num_ltb r 0%Q || num_ltb 5%Q r then out_of_range
      else
        match Book_findOne env (by_id id) w with
        | Rejected error => (w, res_status_json 400 (ErrorBody error))
        | Resolved None => (w, res_status_json 404 (Message "Livre non trouvé !"))
        | Resolved (Some book) =>
            let existingRating :=
              find (fun r => Rating.userId r =? uid) (Book.ratings book) in
            match existingRating with
            | Some _ =>
                (w, res_status_json 403 (Message "Vous avez déjà noté ce livre."))
            | None =>
                let ratings :=
                  Book.ratings book ++ [ {| Rating.userId := uid; Rating.grade := r |} ] in
                let totalRatings := List.length ratings in
                let averageRating :=
                  fl (reduce_grades ratings / number_of_nat totalRatings) in
                let book' :=
                  {| Book._id := Book._id book;
                     Book.userId := Book.userId book;
                     Book.title := Book.title book;
                     Book.author := Book.author book;
                     Book.genre := Book.genre book;
                     Book.year := Book.year book;
                     Book.imageUrl := Book.imageUrl book;
                     Book.averageRating := averageRating;
                     Book.ratings := ratings |} in
                match Book_save env book' w with
                | Resolved (w', updatedBook) =>
                    (w', res_status_json 200 (BookBody updatedBook))
                | Rejected error => (w, res_status_json 400 (ErrorBody error))
                end
            end
        end
  end.

(** ** The routes behind the middleware *)

(** POST /api/books/:id/rating with its middleware. *)
Definition route_post_rating (env : Env) (authorization : option Token)
  (id : string) (rating : jsval) (w : World) : World * Response :=
  match auth env authorization with
  | Some uid => post_rating env uid id rating w
  | None => (w, unauthorized)
  end.

(** PUT /api/books/:id with its middleware. *)
Definition route_put_book (env : Env) (authorization : option Token)
  (req : BookRequest) (w : World) : World * Response :=
  match auth env authorization with
  | Some uid => put_book env uid req w
  | None => (w, unauthorized)
  end.

(** DELETE /api/books/:id with its middleware. *)
Definition route_delete_book (env : Env) (authorization : option Token)
  (id : string) (w : World) : World * option Response :=
  match auth env authorization with
  | Some uid => delete_book env uid id w
  | None => (w, Some unauthorized)
  end.

(** ** Names for the responses of the handlers *)

Definition forbidden_update : Response :=
  res_status_json 403
    (Message "Requête non autorisée ou aucune modification détectée.").

Definition forbidden_delete : Response :=
  res_status_json 403 (Message "Requête non autorisée ou livre non trouvé.").

Definition bad_rating : Response :=
  res_status_json 400 (Message "La note doit être comprise entre 0 et 5.").

Definition already_rated : Response :=
  res_status_json 403 (Message "Vous avez déjà noté ce livre.").

Definition book_not_found : Response :=
  res_status_json 404 (Message "Livre non trouvé !").

Definition deleted : Response :=
  res_status_json 200 (Message "Livre et image supprimés avec succès !").

Definition unlink_error_line : string :=
  "Erreur lors de la suppression de l'image :".

(** ** Sample data *)

Module Sample.

Definition env_ok : Env :=
  {| Date_now := 1700000000000;
     dirname := ["srv"; "app"; "routes"];
     new_id := "B";
     find_rejects := None;
     save_rejects := None;
     updateOne_rejects := None;
     deleteOne_rejects := None;
     startSession_rejects := None;
     startTransaction_throws := None;
     commitTransaction_rejects := None;
     unlink_fails := None;
     sharp_fails := None |}.

(** The same environment with a failing [fs.unlink]. *)
Definition env_unlink_fails : Env :=
  {| Date_now := 1700000000000;
     dirname := ["srv"; "app"; "routes"];
     new_id := "B";
     find_rejects := None;
     save_rejects := None;
     updateOne_rejects := None;
     deleteOne_rejects := None;
     startSession_rejects := None;
     startTransaction_throws := None;
     commitTransaction_rejects := None;
     unlink_fails := Some "EPERM";
     sharp_fails := None |}.

(** The same environment with a failing commit. *)
Definition env_commit_fails : Env :=
  {| Date_now := 1700000000000;
     dirname := ["srv"; "app"; "routes"];
     new_id := "B";
     find_rejects := None;
     save_rejects := None;
     updateOne_rejects := None;
     deleteOne_rejects := None;
     startSession_rejects := None;
     startTransaction_throws := None;
     commitTransaction_rejects := Some "TransientTransactionError";
     unlink_fails := None;
     sharp_fails := None |}.

(** The same environment with a failing [deleteOne]. *)
Definition env_delete_fails : Env :=
  {| Date_now := 1700000000000;
     dirname := ["srv"; "app"; "routes"];
     new_id := "B";
     find_rejects := None;
     save_rejects := None;
     updateOne_rejects := None;
     deleteOne_rejects := Some "MongoNetworkError";
     startSession_rejects := None;
     startTransaction_throws := None;
     commitTransaction_rejects := None;
     unlink_fails := None;
     sharp_fails := None |}.

Definition bookA : Book.t :=
  {| Book._id := "A";
     Book.userId := "u1";
     Book.title := Some "Le Petit Prince";
     Book.author := Some "Antoine de Saint-Exupery";
     Book.genre := Some "Fiction";
     Book.year := Some (1943 # 1)%Q;
     Book.imageUrl := "http://localhost:3000/images/1609459200000-lepetitprince.jpg";
     Book.averageRating := 0%Q;
     Book.ratings := [] |}.

(** Book A after user u2 has rated it 4. *)
Definition bookA_rated : Book.t :=
  {| Book._id := "A";
     Book.userId := "u1";
     Book.title := Some "Le Petit Prince";
     Book.author := Some "Antoine de Saint-Exupery";
     Book.genre := Some "Fiction";
     Book.year := Some (1943 # 1)%Q;
     Book.imageUrl := "http://localhost:3000/images/1609459200000-lepetitprince.jpg";
     Book.averageRating := (4 # 1)%Q;
     Book.ratings := [ {| Rating.userId := "u2"; Rating.grade := (4 # 1)%Q |} ] |}.

(** Book A after users u2 and u3 have both rated it 1. *)
Definition bookA_ones : Book.t :=
  {| Book._id := "A";
     Book.userId := "u1";
     Book.title := Some "Le Petit Prince";
     Book.author := Some "Antoine de Saint-Exupery";
     Book.genre := Some "Fiction";
     Book.year := Some (1943 # 1)%Q;
     Book.imageUrl := "http://localhost:3000/images/1609459200000-lepetitprince.jpg";
     Book.averageRating := (1 # 1)%Q;
     Book.ratings := [ {| Rating.userId := "u2"; Rating.grade := (1 # 1)%Q |};
                       {| Rating.userId := "u3"; Rating.grade := (1 # 1)%Q |} ] |}.

(** Book A with an image URL that holds a dot segment, as its owner can
    store it through an update. *)
Definition bookA_dot : Book.t :=
  {| Book._id := "A";
     Book.userId := "u1";
     Book.title := Some "Le Petit Prince";
     Book.author := Some "Antoine de Saint-Exupery";
     Book.genre := Some "Fiction";
     Book.year := Some (1943 # 1)%Q;
     Book.imageUrl := "http://localhost:3000/images/./1609459200000-lepetitprince.jpg";
     Book.averageRating := 0%Q;
     Book.ratings := [] |}.

Definition user1 : User.t :=
  {| User._id := "u1"; User.email := "user@example.com"; User.password := "$2a$10$password123" |}.

Definition world0 : World :=
  {| books := [bookA];
     users := [user1];
     images := ["1609459200000-lepetitprince.jpg"];
     console := [] |}.

Definition world_dot : World :=
  {| books := [bookA_dot];
     users := [user1];
     images := ["1609459200000-lepetitprince.jpg"];
     console := [] |}.

Definition world_rated : World :=
  {| books := [bookA_rated];
     users := [user1];
     images := ["1609459200000-lepetitprince.jpg"];
     console := [] |}.

Definition world_ones : World :=
  {| books := [bookA_ones];
     users := [user1];
     images := ["1609459200000-lepetitprince.jpg"];
     console := [] |}.

Definition empty_doc : UpdateDoc :=
  {| set_userId := None; set_title := None; set_author := None;
     set_genre := None; set_year := None; set_imageUrl := None;
     set_averageRating := None; set_ratings := None |}.

(** [{ "title": "Vol de nuit" }] *)
Definition doc_title : UpdateDoc :=
  {| set_userId := None; set_title := Some "Vol de nuit"; set_author := None;
     set_genre := None; set_year := None; set_imageUrl := None;
     set_averageRating := None; set_ratings := None |}.

(** [{ "averageRating": 5 }] *)
Definition doc_average5 : UpdateDoc :=
  {| set_userId := None; set_title := None; set_author := None;
     set_genre := None; set_year := None; set_imageUrl := None;
     set_averageRating := Some (5 # 1)%Q; set_ratings := None |}.

Definition cover : File := {| originalname := "cover.png"; buffer := "PNG" |}.

(** A JSON request: no file and no [book] field, the document is the
    body. *)
Definition req_json (d : UpdateDoc) : BookRequest :=
  {| params_id := "A"; protocol := "http"; host := "localhost:3000";
     file := None; body_book := None; book_null := false; body := d |}.

(** A multipart request with a file and a [book] field that does not
    parse. *)
Definition req_file_bad_json : BookRequest :=
  {| params_id := "A"; protocol := "http"; host := "localhost:3000";
     file := Some cover; body_book := None; book_null := false; body := empty_doc |}.

(** A multipart request without a file whose [book] field is the text
    [null]. *)
Definition req_null : BookRequest :=
  {| params_id := ""; protocol := "http"; host := "localhost:3000";
     file := None; body_book := Some empty_doc; book_null := true;
     body := empty_doc |}.

(** A token of user u2, issued at the clock of [env_ok]. *)
Definition token_u2 : Token :=
  jwt_sign "u2" RANDOM_TOKEN_SECRET expiresIn_24h 1700000000000.

(** A stand-in for bcrypt: the hash is the password behind a fixed
    prefix. *)
Definition toy_compare (password hash : string) : bool :=
  hash =? ("$2a$10$" ++ password)%string.

End Sample.

(** ** The rating invariant, in the words of the specification *)

Fixpoint sum_grades (l : list number) : number :=
  match l with
  | [] => 0%Q
  | x :: tl => (x + sum_grades tl)%Q
  end.

(** The arithmetic mean of a list of grades, 0 for the empty list. *)
Definition mean (l : list number) : number :=
  match l with
  | [] => 0%Q
  | _ :: _ => (sum_grades l / inject_Z (Z.of_nat (List.length l)))%Q
  end.

Definition grades (b : Book.t) : list number := map Rating.grade (Book.ratings b).

(** The mean as the rating handler computes it: the grades are added from
    the left, each addition rounded to a double, and the sum is divided by
    their number, the quotient rounded to a double; 0 for the empty
    list. *)
Definition double_sum (l : list number) : number :=
  fold_left (fun acc g => fl (acc + g)) l 0%Q.

Definition double_mean (l : list number) : number :=
  match l with
  | [] => 0%Q
  | _ :: _ => fl (double_sum l / inject_Z (Z.of_nat (List.length l)))
  end.

(** The stored average is the mean of the stored grades in double
    arithmetic. *)
Definition average_computed (b : Book.t) : Prop :=
  (Book.averageRating b == double_mean (grades b))%Q.

Definition all_average_computed (w : World) : Prop :=
  Forall average_computed (books w).

(** No addition of the left-to-right sum rounds, starting from the
    accumulator [acc]. *)
Fixpoint exact_sum (acc : number) (l : list number) : Prop :=
  match l with
  | [] => True
  | g :: tl => (fl (acc + g) == acc + g)%Q /\ exact_sum (fl (acc + g)) tl
  end.

(** Neither the sum nor the division rounds. *)
Definition computed_exactly (l : list number) : Prop :=
  exact_sum 0%Q l
  /\ (fl (double_sum l / inject_Z (Z.of_nat (List.length l)))
      == double_sum l / inject_Z (Z.of_nat (List.length l)))%Q.

(** The array of ratings of the book is shorter than [2^32], the bound of
    the length of a JavaScript array. *)
Definition ratings_fit (b : Book.t) : Prop :=
  (Z.of_nat (List.length (Book.ratings b)) < 2 ^ 32)%Z.

Definition average_ok (b : Book.t) : Prop :=
  (Book.averageRating b == mean (grades b))%Q.

Definition all_average_ok (w : World) : Prop := Forall average_ok (books w).

(** The update document leaves the two rating paths alone. *)
Definition no_rating_fields (d : UpdateDoc) : Prop :=
  set_averageRating d = None /\ set_ratings d = None.

(** Some stored book has this identifier and this owner. *)
Definition owns (w : World) (uid id : string) : Prop :=
  exists b, In b (books w) /\ Book._id b = id /\ Book.userId b = uid.

(** Some stored book has this identifier. *)
Definition book_exists (w : World) (id : string) : Prop :=
  exists b, In b (books w) /\ Book._id b = id.

(** The user has an entry in the ratings of the book. *)
Definition has_rated (uid : string) (b : Book.t) : Prop :=
  exists r, In r (Book.ratings b) /\ Rating.userId r = uid.

(** Identifiers are unique in the collection (the index on [_id]). *)
Definition unique_ids (w : World) : Prop := NoDup (map Book._id (books w)).

(** Descending order on the sort key. *)
Definition rating_ge (a b : Book.t) : Prop :=
  (Book.averageRating b <= Book.averageRating a)%Q.

(** ** The rest of routes/auth.js and of the middleware *)

Definition with_users (l : list User.t) (w : World) : World :=
  {| books := books w; users := l; images := images w; console := console w |}.

(** [user.save()] on a document made by [new User]: an insertion, refused
    when the identifier is taken. *)
Definition User_insert (env : Env) (user : User.t) (w : World) : Promise World :=
  match save_rejects env with
  | Some e => Rejected e
  | None =>
      if existsb (fun u => User._id u =? User._id user) (users w)
      then Rejected "E11000 duplicate key error"
      else Resolved (with_users (users w ++ [user]) w)
  end.

Section Signup.

(** [bcrypt.hash(password, 10)], as a function of the password and of the
    salt that the call draws. *)
Variable bcrypt_hash : string -> string -> string.

(** POST /api/auth/signup; [salt] is the salt drawn for this request. *)
Definition signup (env : Env) (salt email password : string) (w : World)
  : World * Response :=
  let hash := bcrypt_hash password salt in
  let user :=
    {| User._id := new_id env; User.email := email; User.password := hash |} in
  match User_insert env user w with
  | Resolved w' => (w', res_status_json 201 (Message "User created!"))
  | Rejected error => (w, res_status_json 400 (ErrorBody error))
  end.

End Signup.

Section Header.

(** The token that a compact JWT text encodes, [None] when the text is
    not one. *)
Variable jwt_decode : string -> option Token.

(** The middleware on the text of the Authorization header:
    [req.headers.authorization.split(" ")[1]] is handed to [jwt.verify];
    every exception (no header, no second word, a text that is not a
    token, a bad signature, an expired token) ends in the 401 ([None]). *)
Definition auth_header (env : Env) (authorization : option string)
  : option string :=
  match authorization with
  | None => None
  | Some header =>
      match split_1 " " header with
      | None => None
      | Some text =>
          match jwt_decode text with
          | None => None
          | Some token => auth env (Some token)
          end
      end
  end.

End Header.

(** POST /api/books with its middleware. *)
Definition route_post_book (env : Env) (authorization : option Token)
  (req : BookRequest) (w : World) : World * option Response :=
  match auth env authorization with
  | Some uid => post_book env uid req w
  | None => (w, Some unauthorized)
  end.

(** ** Requests and their effect on the world (the mounting of app.js) *)

Inductive Request :=
| Signup (salt email password : string)
| Login (email password : string)
| GetBooks
| GetBestRating
| GetBook (id : string)
| PostBook (authorization : option Token) (req : BookRequest)
| PutBook (authorization : option Token) (req : BookRequest)
| DeleteBook (authorization : option Token) (id : string)
| PostRating (authorization : option Token) (id : string) (rating : jsval).

Section Serve.

Variable bcrypt_hash : string -> string -> string.

(** The world after one request. *)
Definition serve (env : Env) (r : Request) (w : World) : World :=
  match r with
  | Signup salt email password => fst (signup bcrypt_hash env salt email password w)
  | Login _ _ => w
  | GetBooks => w
  | GetBestRating => w
  | GetBook _ => w
  | PostBook authorization req => fst (route_post_book env authorization req w)
  | PutBook authorization req => fst (route_put_book env authorization req w)
  | DeleteBook authorization id => fst (route_delete_book env authorization id w)
  | PostRating authorization id rating =>
      fst (route_post_rating env authorization id rating w)
  end.

(** The world after a sequence of requests, each with the outcome of its
    external calls. *)
Fixpoint serve_all (l : list (Env * Request)) (w : World) : World :=
  match l with
  | [] => w
  | (env, r) :: tl => serve_all tl (serve env r w)
  end.

End Serve.

(** The number of signups in a sequence of requests. *)
Definition is_signup (r : Request) : bool :=
  match r with
  | Signup _ _ _ => true
  | _ => false
  end.

Definition signups (l : list (Env * Request)) : nat :=
  List.length (filter (fun er => is_signup (snd er)) l).

(** ** More predicates on documents and strings *)

(** The character occurs in the string. *)
Fixpoint contains_char (c : ascii) (s : string) : bool :=
  match s with
  | EmptyString => false
  | String x tl => Ascii.eqb x c || contains_char c tl
  end.

(** No user has two entries in the ratings of the book. *)
Definition ratings_unique (b : Book.t) : Prop :=
  NoDup (map Rating.userId (Book.ratings b)).

(** Every grade of the book lies in [0,5]. *)
Definition grades_in_range (b : Book.t) : Prop :=
  Forall (fun r => (0 <= Rating.grade r)%Q /\ (Rating.grade r <= 5)%Q) (Book.ratings b).

(** The update document leaves the ratings alone. *)
Definition keeps_ratings (d : UpdateDoc) : Prop := set_ratings d = None.

(** A request whose update document, if it is an update, carries neither
    rating path. *)
Definition no_rating_update (r : Request) : Prop :=
  match r with
  | PutBook _ req =>
      no_rating_fields (body req)
      /\ (forall d, body_book req = Some d -> no_rating_fields d)
  | _ => True
  end.

(** The three facts about ratings, for every stored book: the average is
    the mean of the grades in double arithmetic, no user has two entries,
    every grade lies in [0,5]. *)
Definition ratings_consistent (w : World) : Prop :=
  all_average_computed w
  /\ Forall ratings_unique (books w)
  /\ Forall grades_in_range (books w).

(** A predicate on books that only looks at the two rating paths. *)
Definition rating_paths_only (P : Book.t -> Prop) : Prop :=
  forall b b', Book.ratings b' = Book.ratings b ->
               Book.averageRating b' = Book.averageRating b -> P b -> P b'.

(** ** Lemmas on the collection *)

Lemma by_id_true (id : string) (b : Book.t) : by_id id b = true <-> Book._id b = id.
Proof. unfold by_id. apply String.eqb_eq. Qed.

Lemma by_id_and_user_true (id uid : string) (b : Book.t) :
  by_id_and_user id uid b = true <-> Book._id b = id /\ Book.userId b = uid.
Proof.
  unfold by_id_and_user. rewrite andb_true_iff, !String.eqb_eq. tauto.
Qed.

Lemma find_none_iff {A : Type} (f : A -> bool) (l : list A) :
  find f l = None <-> (forall x, In x l -> f x = false).
Proof.
  split.
  - intros H x Hx. exact (find_none f l H x Hx).
  - induction l as [|a tl IH]; intros H; simpl; [reflexivity|].
    rewrite (H a (or_introl eq_refl)). apply IH.
    intros x Hx. apply H. now right.
Qed.

Lemma not_owns_find (w : World) (uid id : string) :
  ~ owns w uid id <-> find (by_id_and_user id uid) (books w) = None.
Proof.
  rewrite find_none_iff. unfold owns. split.
  - intros H b Hb. destruct (by_id_and_user id uid b) eqn:E; [|reflexivity].
    exfalso. apply H. exists b. split; [assumption|]. now apply by_id_and_user_true.
  - intros H [b [Hb Hm]]. apply by_id_and_user_true in Hm.
    rewrite (H b Hb) in Hm. discriminate.
Qed.

Lemma not_exists_find (w : World) (id : string) :
  ~ book_exists w id <-> find (by_id id) (books w) = None.
Proof.
  rewrite find_none_iff. unfold book_exists. split.
  - intros H b Hb. destruct (by_id id b) eqn:E; [|reflexivity].
    exfalso. apply H. exists b. split; [assumption|]. now apply by_id_true.
  - intros H [b [Hb Hm]]. apply by_id_true in Hm.
    rewrite (H b Hb) in Hm. discriminate.
Qed.

Lemma has_rated_find (uid : string) (b : Book.t) :
  has_rated uid b <->
  exists r, find (fun r => Rating.userId r =? uid) (Book.ratings b) = Some r.
Proof.
  unfold has_rated. split.
  - intros [r [Hin Hu]].
    destruct (find (fun r => Rating.userId r =? uid) (Book.ratings b)) as [r'|] eqn:E.
    + now exists r'.
    + apply find_none with (x := r) in E; [|assumption].
      apply String.eqb_neq in E. contradiction.
  - intros [r Hr]. apply find_some in Hr. exists r.
    destruct Hr as [Hin Hu]. apply String.eqb_eq in Hu. auto.
Qed.

Lemma replace_first_Forall (P : Book.t -> Prop) f b' l :
  Forall P l -> P b' -> Forall P (replace_first f b' l).
Proof.
  intros Hl Hb. induction Hl as [|x tl Hx Htl IH]; simpl; [constructor|].
  destruct (f x); constructor; assumption.
Qed.

Lemma replace_first_find f b' l b :
  find f l = Some b -> f b' = true -> find f (replace_first f b' l) = Some b'.
Proof.
  intros Hfind Hb'. induction l as [|x tl IH]; simpl in *; [discriminate|].
  destruct (f x) eqn:E; simpl.
  - now rewrite Hb'.
  - rewrite E. now apply IH.
Qed.

Lemma replace_first_absent f b' l :
  find f l = None -> replace_first f b' l = l.
Proof.
  induction l as [|x tl IH]; simpl; [reflexivity|].
  destruct (f x); [discriminate|]. intros H. now rewrite IH.
Qed.

Lemma remove_first_Forall (P : Book.t -> Prop) f l :
  Forall P l -> Forall P (remove_first f l).
Proof.
  intros Hl. induction Hl as [|x tl Hx Htl IH]; simpl; [constructor|].
  destruct (f x); [assumption|now constructor].
Qed.

Lemma remove_first_absent f l : find f l = None -> remove_first f l = l.
Proof.
  induction l as [|x tl IH]; simpl; [reflexivity|].
  destruct (f x); [discriminate|]. intros H. now rewrite IH.
Qed.

Lemma remove_first_In f l x : In x (remove_first f l) -> In x l.
Proof.
  induction l as [|a tl IH]; simpl; [tauto|].
  destruct (f a); simpl; intuition.
Qed.

(** With unique identifiers, removing the first document of an identifier
    removes every document of that identifier. *)
Lemma remove_first_by_id_gone (id : string) (l : list Book.t) :
  NoDup (map Book._id l) -> find (by_id id) (remove_first (by_id id) l) = None.
Proof.
  induction l as [|a tl IH]; simpl; intros Hnd; [reflexivity|].
  inversion Hnd as [|? ? Hnotin Hnd']; subst.
  destruct (by_id id a) eqn:E; simpl.
  - apply by_id_true in E. apply find_none_iff. intros x Hx.
    destruct (by_id id x) eqn:Ex; [|reflexivity].
    apply by_id_true in Ex. exfalso. apply Hnotin.
    rewrite E, <- Ex. now apply in_map.
  - rewrite E. now apply IH.
Qed.

(** ** Lemmas on the mean *)

Lemma reduce_grades_double_sum (l : list Rating.t) :
  reduce_grades l = double_sum (map Rating.grade l).
Proof.
  unfold reduce_grades, double_sum. generalize 0%Q.
  induction l as [|r tl IH]; intros a; simpl; [reflexivity|apply IH].
Qed.

Lemma handler_mean (l : list Rating.t) :
  l <> [] ->
  fl (reduce_grades l / number_of_nat (List.length l))
  = double_mean (map Rating.grade l).
Proof.
  intros Hne. destruct l as [|r tl]; [contradiction|].
  rewrite reduce_grades_double_sum. unfold double_mean, number_of_nat.
  simpl map. rewrite <- (length_map Rating.grade (r :: tl)). reflexivity.
Qed.

(** When no addition rounds, the left-to-right sum is the exact sum. *)
Lemma exact_sum_fold (l : list number) (a : number) :
  exact_sum a l ->
  (fold_left (fun acc g => fl (acc + g)) l a == a + sum_grades l)%Q.
Proof.
  revert a. induction l as [|g tl IH]; intros a H; simpl.
  - ring.
  - destruct H as [Hg Htl]. rewrite (IH _ Htl), Hg. ring.
Qed.

(** When nothing rounds, the mean in double arithmetic is the arithmetic
    mean. *)
Lemma exact_double_mean (l : list number) :
  computed_exactly l -> (double_mean l == mean l)%Q.
Proof.
  intros [Hs Hd]. destruct l as [|g tl]; [reflexivity|].
  unfold double_mean, mean. rewrite Hd. unfold double_sum, number_of_nat.
  rewrite (exact_sum_fold _ _ Hs), Qplus_0_l. reflexivity.
Qed.

(** ** What the handlers leave alone *)

Lemma compressImage_books env buf name w :
  books (fst (compressImage env buf name w)) = books w.
Proof.
  unfold compressImage. destruct (sharp_fails env); simpl; [reflexivity|].
  destruct (existsb (String.eqb name) (images w)); reflexivity.
Qed.

Lemma put_book_data_books env req w :
  books (fst (put_book_data env req w)) = books w.
Proof.
  unfold put_book_data.
  destruct (file req) as [f|], (body_book req) as [d|]; simpl; try reflexivity.
  pose proof (compressImage_books env (buffer f) (upload_filename env f) w) as H.
  destruct (compressImage env (buffer f) (upload_filename env f) w) as [w1 [p|e]];
    simpl in *; assumption.
Qed.

Lemma fs_unlink_books env f w : books (fs_unlink env f w) = books w.
Proof.
  unfold fs_unlink. destruct (unlink_fails env); [reflexivity|].
  destruct (unlink_target env f) as [name| |]; try reflexivity.
  destruct (existsb (String.eqb name) (images w)); reflexivity.
Qed.

Lemma fs_unlink_users env f w : users (fs_unlink env f w) = users w.
Proof.
  unfold fs_unlink. destruct (unlink_fails env); [reflexivity|].
  destruct (unlink_target env f) as [name| |]; try reflexivity.
  destruct (existsb (String.eqb name) (images w)); reflexivity.
Qed.

Lemma unlink_image_books env filename w :
  books (unlink_image env filename w) = books w.
Proof.
  unfold unlink_image. destruct filename as [f|]; [|reflexivity].
  destruct (truthy f); [apply fs_unlink_books|reflexivity].
Qed.

Lemma unlink_image_users env filename w :
  users (unlink_image env filename w) = users w.
Proof.
  unfold unlink_image. destruct filename as [f|]; [|reflexivity].
  destruct (truthy f); [apply fs_unlink_users|reflexivity].
Qed.

Lemma apply_update_average_computed (d : UpdateDoc) (b : Book.t) :
  no_rating_fields d -> average_computed b -> average_computed (apply_update d b).
Proof.
  intros [Ha Hr] Hb. unfold average_computed, grades, apply_update in *. simpl.
  rewrite Ha, Hr. exact Hb.
Qed.

Lemma updateOne_average_computed env f d w w' r :
  no_rating_fields d -> all_average_computed w ->
  Book_updateOne env f d w = Resolved (w', r) -> all_average_computed w'.
Proof.
  unfold Book_updateOne, all_average_computed. intros Hd Hw.
  destruct (updateOne_rejects env); [discriminate|].
  destruct (find f (books w)) as [b|] eqn:Hf.
  - destruct (Book_eqb b (apply_update d b)); intros H; inversion H; subst;
      [assumption|].
    simpl. apply replace_first_Forall; [assumption|].
    apply apply_update_average_computed; [assumption|].
    apply find_some in Hf. destruct Hf as [Hin _].
    rewrite Forall_forall in Hw. now apply Hw.
  - intros H; inversion H; subst. assumption.
Qed.

(** A successful rating stores the recomputed mean. *)
Lemma rated_average_computed (b : Book.t) (uid : string) (r : number) :
  let ratings := Book.ratings b ++ [ {| Rating.userId := uid; Rating.grade := r |} ] in
  average_computed
    {| Book._id := Book._id b;
       Book.userId := Book.userId b;
       Book.title := Book.title b;
       Book.author := Book.author b;
       Book.genre := Book.genre b;
       Book.year := Book.year b;
       Book.imageUrl := Book.imageUrl b;
       Book.averageRating :=
         fl (reduce_grades ratings / number_of_nat (List.length ratings));
       Book.ratings := ratings |}.
Proof.
  intros ratings. unfold average_computed, grades. simpl.
  rewrite handler_mean; [reflexivity|].
  unfold ratings. destruct (Book.ratings b); discriminate.
Qed.

Lemma post_rating_average_computed env uid id rating w :
  all_average_computed w -> all_average_computed (fst (post_rating env uid id rating w)).
Proof.
  intros Hw. unfold post_rating.
  destruct rating as [|r]; [exact Hw|].
  destruct (num_ltb r 0 || num_ltb 5 r); [exact Hw|].
  unfold Book_findOne. destruct (find_rejects env); [exact Hw|].
  destruct (find (by_id id) (books w)) as [b|]; [|exact Hw].
  destruct (find _ (Book.ratings b)); [exact Hw|].
  unfold Book_save. destruct (save_rejects env); [exact Hw|].
  simpl. unfold all_average_computed. simpl.
  apply replace_first_Forall; [exact Hw|]. apply rated_average_computed.
Qed.

Lemma post_book_average_computed env uid req w :
  all_average_computed w -> all_average_computed (fst (post_book env uid req w)).
Proof.
  intros Hw. unfold post_book.
  destruct (body_book req) as [d|]; [|exact Hw].
  assert (Hpre : forall w1 p,
             match file req with
             | Some f =>
                 match compressImage env (buffer f) (upload_filename env f) w with
                 | (w1, Resolved imagePath) => (w1, Resolved (image_url req imagePath))
                 | (w1, Rejected error) => (w1, Rejected error)
                 end
             | None => (w, Resolved "")
             end = (w1, p) -> books w1 = books w).
  { intros w1 p. destruct (file req) as [f|].
    - pose proof (compressImage_books env (buffer f) (upload_filename env f) w) as H.
      destruct (compressImage env (buffer f) (upload_filename env f) w) as [w0 [q|e]];
        intros E; inversion E; subst; exact H.
    - intros E; inversion E; subst. reflexivity. }
  destruct (match file req with Some _ => _ | None => _ end) as [w1 p].
  specialize (Hpre w1 p eq_refl).
  assert (Hw1 : all_average_computed w1) by (unfold all_average_computed; now rewrite Hpre).
  destruct p as [url|e]; [|exact Hw1].
  destruct (book_null req); [exact Hw1|].
  unfold Book_insert. destruct (save_rejects env); [exact Hw1|].
  destruct (existsb _ (books w1)); [exact Hw1|].
  simpl. unfold all_average_computed. simpl.
  apply Forall_app. split; [exact Hw1|].
  constructor; [|constructor]. unfold average_computed, grades. simpl. reflexivity.
Qed.

Lemma put_book_average_computed env uid req w :
  (forall w1 d, put_book_data env req w = (w1, inr d) -> no_rating_fields d) ->
  all_average_computed w -> all_average_computed (fst (put_book env uid req w)).
Proof.
  intros Hd Hw. unfold put_book.
  pose proof (put_book_data_books env req w) as Hb.
  destruct (put_book_data env req w) as [w1 [early|d]]; simpl in Hb.
  - simpl. unfold all_average_computed. now rewrite Hb.
  - assert (Hw1 : all_average_computed w1) by (unfold all_average_computed; now rewrite Hb).
    specialize (Hd w1 d eq_refl).
    destruct (Book_updateOne env _ d w1) as [[w2 r]|e] eqn:E; [|exact Hw1].
    apply updateOne_average_computed in E; [|assumption|assumption].
    destruct (nModified r =? 0)%nat; exact E.
Qed.

Lemma post_book_created env uid req w w' r :
  post_book env uid req w = (w', Some r) -> status r = 201 ->
  exists b, books w' = books w ++ [b]
            /\ Book.userId b = uid
            /\ Book.ratings b = []
            /\ Book.averageRating b = 0%Q.
Proof.
  unfold post_book.
  destruct (body_book req) as [d|];
    [|intros E; inversion E; subst; discriminate].
  destruct (file req) as [f|].
  - pose proof (compressImage_books env (buffer f) (upload_filename env f) w) as Hb.
    destruct (compressImage env (buffer f) (upload_filename env f) w) as [w1 [p|e]];
      simpl in Hb; [|intros E; inversion E; subst; discriminate].
    destruct (book_null req); [intros E; discriminate|].
    unfold Book_insert. destruct (save_rejects env);
      [intros E; inversion E; subst; discriminate|].
    destruct (existsb _ (books w1));
      intros E; inversion E; subst; [discriminate|].
    intros _. eexists. simpl. rewrite Hb. repeat split.
  - destruct (book_null req); [intros E; discriminate|].
    unfold Book_insert. destruct (save_rejects env);
      [intros E; inversion E; subst; discriminate|].
    destruct (existsb _ (books w));
      intros E; inversion E; subst; [discriminate|].
    intros _. eexists. simpl. repeat split.
Qed.

Lemma in_range_passes (r : number) :
  (0 <= r)%Q -> (r <= 5)%Q -> num_ltb r 0 || num_ltb 5 r = false.
Proof.
  intros H0 H5. unfold num_ltb.
  apply Qle_bool_iff in H0. apply Qle_bool_iff in H5.
  now rewrite H0, H5.
Qed.

Lemma out_of_range_fails (r : number) :
  (r < 0)%Q \/ (5 < r)%Q -> num_ltb r 0 || num_ltb 5 r = true.
Proof.
  unfold num_ltb. intros [H|H].
  - destruct (Qle_bool 0 r) eqn:E; [|reflexivity].
    apply Qle_bool_iff in E. exfalso. exact (Qlt_not_le _ _ H E).
  - destruct (Qle_bool r 5) eqn:E; [|apply orb_true_r].
    apply Qle_bool_iff in E. exfalso. exact (Qlt_not_le _ _ H E).
Qed.

(** With unique identifiers, a query that selects on the identifier finds
    the stored document itself. *)
Lemma find_unique (f : Book.t -> bool) (l : list Book.t) (b : Book.t) :
  NoDup (map Book._id l) -> In b l -> f b = true ->
  (forall x, f x = true -> Book._id x = Book._id b) ->
  find f l = Some b.
Proof.
  intros Hnd Hin Hb Hid. induction l as [|a tl IH]; [contradiction|].
  simpl. inversion Hnd as [|? ? Hnotin Hnd']; subst.
  destruct Hin as [->|Hin]; [now rewrite Hb|].
  destruct (f a) eqn:E.
  - exfalso. apply Hnotin. rewrite (Hid a E). now apply in_map.
  - now apply IH.
Qed.

Lemma find_by_id_unique (w : World) (b : Book.t) :
  unique_ids w -> In b (books w) -> find (by_id (Book._id b)) (books w) = Some b.
Proof.
  intros Hu Hin. apply find_unique; try assumption.
  - now apply by_id_true.
  - intros x Hx. now apply by_id_true in Hx.
Qed.

Lemma find_owned_unique (w : World) (b : Book.t) :
  unique_ids w -> In b (books w) ->
  find (by_id_and_user (Book._id b) (Book.userId b)) (books w) = Some b.
Proof.
  intros Hu Hin. apply find_unique; try assumption.
  - now apply by_id_and_user_true.
  - intros x Hx. now apply by_id_and_user_true in Hx.
Qed.

(** ** Unique identifiers are kept by every handler *)

Lemma replace_first_ids f b' l :
  (forall b, In b l -> f b = true -> Book._id b = Book._id b') ->
  map Book._id (replace_first f b' l) = map Book._id l.
Proof.
  induction l as [|x tl IH]; simpl; intros H; [reflexivity|].
  destruct (f x) eqn:E; simpl.
  - now rewrite (H x (or_introl eq_refl) E).
  - rewrite IH; [reflexivity|]. intros b Hb. apply H. now right.
Qed.

Lemma remove_first_NoDup f l :
  NoDup (map Book._id l) -> NoDup (map Book._id (remove_first f l)).
Proof.
  induction l as [|x tl IH]; simpl; intros H; [constructor|].
  inversion H as [|? ? Hnotin Hnd]; subst.
  destruct (f x); [assumption|]. simpl. constructor; [|now apply IH].
  intros Hin. apply Hnotin. apply in_map_iff in Hin.
  destruct Hin as [y [Hy Hin]]. apply in_map_iff. exists y.
  split; [assumption|]. now apply remove_first_In in Hin.
Qed.

Lemma post_rating_unique_ids env uid id rating w :
  unique_ids w -> unique_ids (fst (post_rating env uid id rating w)).
Proof.
  intros Hw. unfold post_rating.
  destruct rating as [|r]; [exact Hw|].
  destruct (num_ltb r 0 || num_ltb 5 r); [exact Hw|].
  unfold Book_findOne. destruct (find_rejects env); [exact Hw|].
  destruct (find (by_id id) (books w)) as [b|]; [|exact Hw].
  destruct (find _ (Book.ratings b)); [exact Hw|].
  unfold Book_save. destruct (save_rejects env); [exact Hw|].
  simpl. unfold unique_ids. simpl. rewrite replace_first_ids; [exact Hw|].
  intros x _ Hx. now apply by_id_true in Hx.
Qed.

Lemma put_book_unique_ids env uid req w :
  unique_ids w -> unique_ids (fst (put_book env uid req w)).
Proof.
  intros Hw. unfold put_book.
  pose proof (put_book_data_books env req w) as Hb.
  destruct (put_book_data env req w) as [w1 [early|d]]; simpl in Hb.
  - simpl. unfold unique_ids. now rewrite Hb.
  - assert (Hw1 : unique_ids w1) by (unfold unique_ids; now rewrite Hb).
    unfold Book_updateOne. destruct (updateOne_rejects env); [exact Hw1|].
    destruct (find _ (books w1)) as [b|] eqn:Hf; [|exact Hw1].
    destruct (Book_eqb b (apply_update d b)); [exact Hw1|].
    simpl. unfold unique_ids. simpl. rewrite replace_first_ids; [exact Hw1|].
    intros x _ Hx. apply by_id_and_user_true in Hx. destruct Hx as [Hx _].
    apply find_some in Hf. destruct Hf as [_ Hf].
    apply by_id_and_user_true in Hf. destruct Hf as [Hf _].
    simpl. congruence.
Qed.

Lemma delete_book_unique_ids env uid id w :
  unique_ids w -> unique_ids (fst (delete_book env uid id w)).
Proof.
  intros Hw. unfold delete_book, delete_catch, Book_findOne, Book_deleteOne.
  destruct (startSession_rejects env); [exact Hw|].
  destruct (startTransaction_throws env); [exact Hw|].
  destruct (find_rejects env); [exact Hw|].
  destruct (find _ (books w)) as [b|]; [|exact Hw].
  assert (Hw1 : unique_ids (unlink_image env (image_filename b) w))
    by (unfold unique_ids; now rewrite unlink_image_books).
  destruct (deleteOne_rejects env); [exact Hw1|].
  destruct (commitTransaction_rejects env); [exact Hw1|].
  simpl. unfold unique_ids. simpl. rewrite unlink_image_books.
  now apply remove_first_NoDup.
Qed.

(** The books after a create: the same, or one more with a new
    identifier, no rating and average 0. *)
Lemma post_book_books env uid req w :
  books (fst (post_book env uid req w)) = books w
  \/ exists b,
       books (fst (post_book env uid req w)) = books w ++ [b]
       /\ Book._id b = new_id env
       /\ existsb (by_id (new_id env)) (books w) = false
       /\ Book.userId b = uid
       /\ Book.ratings b = []
       /\ Book.averageRating b = 0%Q.
Proof.
  unfold post_book.
  destruct (body_book req) as [d|]; [|now left].
  destruct (file req) as [f|].
  - pose proof (compressImage_books env (buffer f) (upload_filename env f) w) as Hb.
    destruct (compressImage env (buffer f) (upload_filename env f) w) as [w1 [p|e]];
      simpl in Hb; [|now left].
    destruct (book_null req); [now left|].
    unfold Book_insert. destruct (save_rejects env); [now left|].
    match goal with
    | |- context [existsb ?f ?l] => destruct (existsb f l) eqn:E
    end; [now left|].
    right. eexists. simpl. rewrite Hb in *. repeat split. exact E.
  - destruct (book_null req); [now left|].
    unfold Book_insert. destruct (save_rejects env); [now left|].
    destruct (existsb _ (books w)) eqn:E; [now left|].
    right. eexists. simpl. repeat split.
Qed.

Lemma post_book_unique_ids env uid req w :
  unique_ids w -> unique_ids (fst (post_book env uid req w)).
Proof.
  intros Hw. unfold unique_ids.
  destruct (post_book_books env uid req w) as [H|[b [H [Hid [E _]]]]]; rewrite H;
    [exact Hw|].
  rewrite map_app. simpl.
  apply NoDup_app; [exact Hw|constructor; [intros []|constructor]|].
  intros x Hx [<-|[]]. apply in_map_iff in Hx. destruct Hx as [y [Hy Hin]].
  assert (Hex : existsb (by_id (new_id env)) (books w) = true).
  { apply existsb_exists. exists y. split; [assumption|].
    apply by_id_true. congruence. }
  rewrite Hex in E. discriminate.
Qed.

(** ** Theorems *)

(** C1 (amended).  Call the mean in double arithmetic of a list of grades
    the quotient, rounded to a double, of their left-to-right sum, each
    addition rounded to a double, by their number (0 for no grade).
    Whenever every stored book has [averageRating] equal to the mean in
    double arithmetic of its grades, the same holds after a create and
    after a rate; a created book is stored with [ratings = []] and
    [averageRating = 0]; and the same holds after an update whose update
    document carries neither [averageRating] nor [ratings].  For a book
    whose sum and quotient do not round, that value is the arithmetic
    mean. *)
Theorem C1_average_rating_invariant (env : Env) (uid : string) (w : World)
  (Hw : all_average_computed w) :
  (forall req, all_average_computed (fst (post_book env uid req w)))
  /\ (forall req w' r,
         post_book env uid req w = (w', Some r) -> status r = 201 ->
         exists b, books w' = books w ++ [b]
                   /\ Book.ratings b = [] /\ Book.averageRating b = 0%Q)
  /\ (forall id rating, all_average_computed (fst (post_rating env uid id rating w)))
  /\ (forall req,
         (forall w1 d, put_book_data env req w = (w1, inr d) -> no_rating_fields d) ->
         all_average_computed (fst (put_book env uid req w)))
  /\ (forall b, average_computed b -> computed_exactly (grades b) -> average_ok b).
Proof.
  split; [|split; [|split; [|split]]].
  - intros req. now apply post_book_average_computed.
  - intros req w' r E Hs.
    destruct (post_book_created env uid req w w' r E Hs) as [b [H1 [_ [H2 H3]]]].
    exists b. auto.
  - intros id rating. now apply post_rating_average_computed.
  - intros req Hd. now apply put_book_average_computed.
  - intros b Hb Hex. unfold average_ok. unfold average_computed in Hb.
    rewrite Hb. now apply exact_double_mean.
Qed.

Lemma C1_average_rating_invariant_witness :
  all_average_computed Sample.world0
  /\ all_average_computed
       (fst (post_rating Sample.env_ok "u2" "A" (JNum (4 # 1)%Q) Sample.world0))
  /\ all_average_computed
       (fst (put_book Sample.env_ok "u1" (Sample.req_json Sample.doc_title) Sample.world0))
  /\ average_ok Sample.bookA_rated.
Proof.
  assert (H0 : all_average_computed Sample.world0).
  { repeat constructor. }
  split; [exact H0|].
  destruct (C1_average_rating_invariant Sample.env_ok "u2" Sample.world0 H0)
    as [_ [_ [Hrate [_ Hexact]]]].
  destruct (C1_average_rating_invariant Sample.env_ok "u1" Sample.world0 H0)
    as [_ [_ [_ [Hput _]]]].
  split; [apply Hrate|]. split.
  - apply Hput. intros w1 d E. vm_compute in E. inversion E; subst.
    split; reflexivity.
  - apply Hexact.
    + vm_compute. reflexivity.
    + split; [split; [vm_compute; reflexivity|exact I]|vm_compute; reflexivity].
Defined.

(** C1, as stated, fails: the owner's update with the document
    [{ "averageRating": 5 }] is applied as it is, and leaves a book without
    ratings whose average is 5.  It fails after a rate as well: on a book
    rated 1 and 1, whose average 1 is the mean, a rating of 2 stores the
    double nearest to 4/3, which is not the mean 4/3. *)
Lemma C1_update_overwrites_average :
  all_average_ok Sample.world0
  /\ status (snd (put_book Sample.env_ok "u1" (Sample.req_json Sample.doc_average5)
                    Sample.world0)) = 200
  /\ ~ all_average_ok
         (fst (put_book Sample.env_ok "u1" (Sample.req_json Sample.doc_average5)
                 Sample.world0))
  /\ all_average_ok Sample.world_ones
  /\ status (snd (post_rating Sample.env_ok "u4" "A" (JNum (2 # 1)%Q)
                    Sample.world_ones)) = 200
  /\ ~ all_average_ok
         (fst (post_rating Sample.env_ok "u4" "A" (JNum (2 # 1)%Q)
                 Sample.world_ones)).
Proof.
  split; [repeat constructor|]. split; [reflexivity|]. split.
  { intros H. vm_compute in H. inversion H as [|b l Hb Hl]; subst.
    vm_compute in Hb. discriminate. }
  split; [repeat constructor|]. split; [reflexivity|].
  intros H. vm_compute in H. inversion H as [|b l Hb Hl]; subst.
  vm_compute in Hb. discriminate.
Qed.

Lemma updateOne_no_match env f d w :
  find f (books w) = None ->
  Book_updateOne env f d w =
  match updateOne_rejects env with
  | Some e => Rejected e
  | None => Resolved (w, {| n := 0; nModified := 0 |})
  end.
Proof. intros H. unfold Book_updateOne. now rewrite H. Qed.

Lemma put_book_not_owner env uid req w :
  ~ owns w uid (params_id req) ->
  books (fst (put_book env uid req w)) = books w
  /\ (status (snd (put_book env uid req w)) = 403
      \/ status (snd (put_book env uid req w)) = 400)
  /\ (file req = None \/ (body_book req <> None /\ sharp_fails env = None) ->
      updateOne_rejects env = None ->
      snd (put_book env uid req w) = forbidden_update).
Proof.
  intros Hno. apply not_owns_find in Hno. unfold put_book.
  pose proof (put_book_data_books env req w) as Hb.
  assert (Hdata : file req = None \/ (body_book req <> None /\ sharp_fails env = None) ->
                  exists w1 d, put_book_data env req w = (w1, inr d)).
  { unfold put_book_data, compressImage.
    intros [Hf|[Hp Hs]].
    - rewrite Hf. destruct (body_book req); eauto.
    - rewrite Hs. destruct (file req), (body_book req); try contradiction; eauto. }
  destruct (put_book_data env req w) as [w1 [early|d]] eqn:Edata; simpl in Hb.
  - simpl. split; [exact Hb|]. split.
    + right. unfold put_book_data in Edata.
      destruct (file req) as [f|], (body_book req) as [p|];
        try (inversion Edata; subst; reflexivity).
      destruct (compressImage env (buffer f) (upload_filename env f) w) as [w0 [q|e]];
        inversion Edata; subst; reflexivity.
    + intros Hc _. destruct (Hdata Hc) as [w2 [d E]]. discriminate.
  - rewrite updateOne_no_match by (now rewrite Hb).
    destruct (updateOne_rejects env); simpl.
    + split; [exact Hb|]. split; [now right|]. intros _ H; discriminate.
    + split; [exact Hb|]. split; [now left|]. reflexivity.
Qed.

Lemma delete_book_not_owner env uid id w :
  ~ owns w uid id ->
  books (fst (delete_book env uid id w)) = books w
  /\ (forall r, snd (delete_book env uid id w) = Some r ->
                status r = 403 \/ status r = 500)
  /\ (startSession_rejects env = None -> startTransaction_throws env = None ->
      find_rejects env = None ->
      delete_book env uid id w = (w, Some forbidden_delete)).
Proof.
  intros Hno. apply not_owns_find in Hno.
  unfold delete_book, Book_findOne, delete_catch. rewrite Hno.
  destruct (startSession_rejects env), (startTransaction_throws env),
    (find_rejects env); simpl;
    (split; [reflexivity|]); split;
    try (intros r E; inversion E; subst; simpl; auto; fail);
    try (intros; discriminate); reflexivity.
Qed.

(** C2 (amended).  When no stored book has both the identifier of the
    request and the requester as owner (the requester is not the owner, or
    the book does not exist), an update and a delete change no stored
    book.  An update is answered 403 (ForbiddenError) whenever the store
    call goes through and the request either carries no file or carries a
    file with a parseable book field and an image that sharp accepts; it
    is answered 400 with the validation message when it carries a file and
    the book field does not parse or sharp refuses the image, and 400 with
    the error of the store when the store call is rejected; so it is always
    answered 403 or 400.  A delete that is answered is answered 403 or
    500: 403 (ForbiddenError) whenever the session, the start of the
    transaction and the lookup go through, 500 when the lookup is
    rejected. *)
Theorem C2_not_owner_denied (env : Env) (uid : string) (req : BookRequest)
  (w : World) (Hno : ~ owns w uid (params_id req)) :
  books (fst (put_book env uid req w)) = books w
  /\ books (fst (delete_book env uid (params_id req) w)) = books w
  /\ (status (snd (put_book env uid req w)) = 403
      \/ status (snd (put_book env uid req w)) = 400)
  /\ (file req = None \/ (body_book req <> None /\ sharp_fails env = None) ->
      updateOne_rejects env = None ->
      snd (put_book env uid req w) = forbidden_update
      /\ error_class (status (snd (put_book env uid req w))) = Some ForbiddenError)
  /\ (file req <> None -> body_book req = None ->
      snd (put_book env uid req w) = res_status_json 400 invalid_json)
  /\ (file req <> None -> sharp_fails env <> None ->
      snd (put_book env uid req w) = res_status_json 400 invalid_json)
  /\ (file req = None \/ (body_book req <> None /\ sharp_fails env = None) ->
      forall e, updateOne_rejects env = Some e ->
                snd (put_book env uid req w) = res_status_json 400 (ErrorBody e))
  /\ (forall r, snd (delete_book env uid (params_id req) w) = Some r ->
                status r = 403 \/ status r = 500)
  /\ (startSession_rejects env = None -> startTransaction_throws env = None ->
      find_rejects env = None ->
      delete_book env uid (params_id req) w = (w, Some forbidden_delete)
      /\ error_class (status forbidden_delete) = Some ForbiddenError)
  /\ (startSession_rejects env = None -> startTransaction_throws env = None ->
      forall e, find_rejects env = Some e ->
                snd (delete_book env uid (params_id req) w)
                = Some (res_status_json 500 (ErrorBody e))).
Proof.
  destruct (put_book_not_owner env uid req w Hno) as [P1 [P2 P3]].
  destruct (delete_book_not_owner env uid (params_id req) w Hno) as [D1 [D2 D3]].
  split; [exact P1|]. split; [exact D1|]. split; [exact P2|].
  split; [intros Hc Hu; rewrite (P3 Hc Hu); split; reflexivity|].
  split; [|split; [|split; [|split; [exact D2|split]]]].
  - intros Hf Hb. unfold put_book, put_book_data.
    destruct (file req) as [f|]; [|congruence]. now rewrite Hb.
  - intros Hf Hs. unfold put_book, put_book_data, compressImage.
    destruct (file req) as [f|]; [|congruence].
    destruct (body_book req) as [d|]; [|reflexivity].
    destruct (sharp_fails env) as [e|]; [reflexivity|congruence].
  - intros Hc e He. unfold put_book, put_book_data, compressImage, Book_updateOne.
    destruct (file req) as [f|].
    + destruct Hc as [Hc|[Hb Hs]]; [discriminate|].
      destruct (body_book req) as [d|]; [|congruence].
      now rewrite Hs, He.
    + destruct (body_book req) as [d|]; now rewrite He.
  - intros H1 H2 H3. split; [now apply D3|reflexivity].
  - intros H1 H2 e He. unfold delete_book, Book_findOne, delete_catch.
    now rewrite H1, H2, He.
Qed.

Lemma C2_not_owner_denied_witness :
  ~ owns Sample.world0 "u2" "A"
  /\ snd (put_book Sample.env_ok "u2" (Sample.req_json Sample.doc_title) Sample.world0)
     = forbidden_update
  /\ delete_book Sample.env_ok "u2" "A" Sample.world0
     = (Sample.world0, Some forbidden_delete).
Proof.
  assert (Hno : ~ owns Sample.world0 "u2" (params_id (Sample.req_json Sample.doc_title))).
  { apply not_owns_find. reflexivity. }
  split; [exact Hno|].
  destruct (C2_not_owner_denied Sample.env_ok "u2" (Sample.req_json Sample.doc_title)
              Sample.world0 Hno) as [_ [_ [_ [Hput [_ [_ [_ [_ [Hdel _]]]]]]]]].
  split.
  - apply Hput; [left|]; reflexivity.
  - apply Hdel; reflexivity.
Defined.

(** C2, as stated, fails: an update by a requester who is not the owner,
    carrying an image file and a book field that does not parse, is
    answered 400 and not 403. *)
Lemma C2_not_owner_bad_json_400 :
  ~ owns Sample.world0 "u2" (params_id Sample.req_file_bad_json)
  /\ status (snd (put_book Sample.env_ok "u2" Sample.req_file_bad_json Sample.world0))
     = 400
  /\ error_class
       (status (snd (put_book Sample.env_ok "u2" Sample.req_file_bad_json Sample.world0)))
     <> Some ForbiddenError.
Proof.
  split; [apply not_owns_find; reflexivity|].
  split; [reflexivity|]. vm_compute. discriminate.
Qed.

Lemma post_rating_already_rated env uid id rating w book :
  find (by_id id) (books w) = Some book -> has_rated uid book ->
  fst (post_rating env uid id rating w) = w
  /\ (status (snd (post_rating env uid id rating w)) = 403
      \/ status (snd (post_rating env uid id rating w)) = 400).
Proof.
  intros Hf Hr. apply has_rated_find in Hr. destruct Hr as [x Hx].
  unfold post_rating, Book_findOne.
  destruct rating as [|r]; [simpl; auto|].
  destruct (num_ltb r 0 || num_ltb 5 r); [simpl; auto|].
  destruct (find_rejects env); [simpl; auto|].
  rewrite Hf, Hx. simpl. auto.
Qed.

(** C3 (amended).  For a stored book and a user who already has an entry
    in its ratings, a rate call by that user for that book never changes
    the world (so the length of the ratings is unchanged) and is answered
    403 or 400; with a grade in [0,5] and a store lookup that goes through
    it is answered 403 (ForbiddenError); with a grade outside [0,5] it is
    answered 400. *)
Theorem C3_second_rating_denied (env : Env) (uid : string) (w : World)
  (book : Book.t) (Hu : unique_ids w) (Hin : In book (books w))
  (Hr : has_rated uid book) :
  (forall rating,
      fst (post_rating env uid (Book._id book) rating w) = w
      /\ (status (snd (post_rating env uid (Book._id book) rating w)) = 403
          \/ status (snd (post_rating env uid (Book._id book) rating w)) = 400))
  /\ (forall r, find_rejects env = None -> (0 <= r)%Q -> (r <= 5)%Q ->
                post_rating env uid (Book._id book) (JNum r) w = (w, already_rated)
                /\ error_class (status already_rated) = Some ForbiddenError)
  /\ (forall r, (r < 0)%Q \/ (5 < r)%Q ->
                post_rating env uid (Book._id book) (JNum r) w = (w, bad_rating)).
Proof.
  pose proof (find_by_id_unique w book Hu Hin) as Hf.
  split; [|split].
  - intros rating. now apply post_rating_already_rated with (book := book).
  - intros r He H0 H5. split; [|reflexivity].
    apply has_rated_find in Hr. destruct Hr as [x Hx].
    unfold post_rating, Book_findOne.
    rewrite (in_range_passes r H0 H5), He, Hf, Hx. reflexivity.
  - intros r Hout. unfold post_rating.
    rewrite (out_of_range_fails r Hout). reflexivity.
Qed.

Lemma C3_second_rating_denied_witness :
  unique_ids Sample.world_rated
  /\ In Sample.bookA_rated (books Sample.world_rated)
  /\ has_rated "u2" Sample.bookA_rated
  /\ post_rating Sample.env_ok "u2" "A" (JNum (5 # 1)%Q) Sample.world_rated
     = (Sample.world_rated, already_rated).
Proof.
  assert (Hu : unique_ids Sample.world_rated).
  { unfold unique_ids. simpl. constructor; [simpl; tauto|constructor]. }
  assert (Hin : In Sample.bookA_rated (books Sample.world_rated)).
  { simpl. left. reflexivity. }
  assert (Hr : has_rated "u2" Sample.bookA_rated).
  { apply has_rated_find. eexists. reflexivity. }
  split; [exact Hu|]. split; [exact Hin|]. split; [exact Hr|].
  destruct (C3_second_rating_denied Sample.env_ok "u2" Sample.world_rated
              Sample.bookA_rated Hu Hin Hr) as [_ [H _]].
  apply (H (5 # 1)%Q); [reflexivity| |]; unfold Qle; simpl; lia.
Defined.

(** C3, as stated, fails: a second rate call by the same user with the
    grade 7 is answered 400 (ValidationError), not 403. *)
Lemma C3_second_rating_out_of_range_400 :
  has_rated "u2" Sample.bookA_rated
  /\ find (by_id "A") (books Sample.world_rated) = Some Sample.bookA_rated
  /\ post_rating Sample.env_ok "u2" "A" (JNum (7 # 1)%Q) Sample.world_rated
     = (Sample.world_rated, bad_rating)
  /\ error_class (status bad_rating) <> Some ForbiddenError.
Proof.
  split; [apply has_rated_find; eexists; reflexivity|].
  split; [reflexivity|]. split; [reflexivity|]. vm_compute. discriminate.
Qed.




(** C5 (amended).  When the user query goes through: if no user has the
    supplied email the login is answered 401 with "User not found!" (an
    UnauthorizedError, not a NotFoundError); if a user matches and bcrypt
    rejects the password it is answered 401 with "Incorrect password!"; if
    bcrypt accepts it, it is answered 200 with the user's id and a token
    for that id, signed with the secret, that expires 24 hours after it
    was issued and verifies until then. *)
Theorem C5_login_outcomes (bcrypt_compare : string -> string -> bool)
  (env : Env) (email password : string) (w : World)
  (Hq : find_rejects env = None) :
  ((forall u, In u (users w) -> User.email u <> email) ->
   login bcrypt_compare env email password w
   = Some (res_status_json 401 (Message "User not found!"))
   /\ error_class 401 = Some UnauthorizedError)
  /\ (forall user,
         find (fun u => User.email u =? email) (users w) = Some user ->
         bcrypt_compare password (User.password user) = false ->
         login bcrypt_compare env email password w
         = Some (res_status_json 401 (Message "Incorrect password!")))
  /\ (forall user,
         find (fun u => User.email u =? email) (users w) = Some user ->
         bcrypt_compare password (User.password user) = true ->
         exists token,
           login bcrypt_compare env email password w
           = Some (res_status_json 200 (LoginBody (User._id user) token))
           /\ tok_userId token = User._id user
           /\ key token = RANDOM_TOKEN_SECRET
           /\ iat token = (Date_now env / 1000)%Z
           /\ exp token = (iat token + 24 * 3600)%Z
           /\ (forall later,
                  (Date_now later / 1000 < iat token + 24 * 3600)%Z ->
                  auth later (Some token) = Some (User._id user))
           /\ (forall later,
                  (iat token + 24 * 3600 <= Date_now later / 1000)%Z ->
                  auth later (Some token) = None)).
Proof.
  unfold login, User_findOne. rewrite Hq. split; [|split].
  - intros Hnone. split; [|reflexivity].
    assert (E : find (fun u => User.email u =? email) (users w) = None).
    { apply find_none_iff. intros u Hu. apply String.eqb_neq. now apply Hnone. }
    now rewrite E.
  - intros user E Hc. now rewrite E, Hc.
  - intros user E Hc. rewrite E, Hc. simpl.
    eexists. split; [reflexivity|]. simpl.
    repeat (split; [reflexivity|]).
    unfold auth, jwt_verify, expiresIn_24h. simpl key. simpl exp.
    rewrite String.eqb_refl. simpl andb. split; intros later Hn.
    + match goal with
      | |- context [(?a <? ?b)%Z] => destruct (Z.ltb_spec a b)
      end; [reflexivity|lia].
    + match goal with
      | |- context [(?a <? ?b)%Z] => destruct (Z.ltb_spec a b)
      end; [lia|reflexivity].
Qed.

Lemma C5_login_outcomes_witness :
  login Sample.toy_compare Sample.env_ok "user@example.com" "wrong" Sample.world0
  = Some (res_status_json 401 (Message "Incorrect password!"))
  /\ exists token,
       login Sample.toy_compare Sample.env_ok "user@example.com" "password123"
         Sample.world0
       = Some (res_status_json 200 (LoginBody "u1" token))
       /\ exp token = (iat token + 24 * 3600)%Z.
Proof.
  destruct (C5_login_outcomes Sample.toy_compare Sample.env_ok "user@example.com"
              "wrong" Sample.world0 eq_refl) as [_ [Hbad _]].
  destruct (C5_login_outcomes Sample.toy_compare Sample.env_ok "user@example.com"
              "password123" Sample.world0 eq_refl) as [_ [_ Hgood]].
  split.
  - apply (Hbad Sample.user1); reflexivity.
  - destruct (Hgood Sample.user1 eq_refl eq_refl) as [token [E [_ [_ [_ [Hexp _]]]]]].
    exists token. split; assumption.
Defined.

(** C5, as stated, fails: a login with an email that no user has is
    answered 401, which is an UnauthorizedError and not a NotFoundError. *)
Lemma C5_unknown_email_401 :
  (forall u, In u (users Sample.world0) -> User.email u <> "nobody@example.com")
  /\ exists r,
       login Sample.toy_compare Sample.env_ok "nobody@example.com" "password123"
         Sample.world0 = Some r
       /\ status r = 401
       /\ error_class (status r) <> Some NotFoundError.
Proof.
  split.
  - intros u [<-|[]]. discriminate.
  - eexists. split; [reflexivity|]. split; [reflexivity|]. vm_compute. discriminate.
Qed.

(** ** The sort of the best-rating query *)

Lemma insert_desc_perm (b : Book.t) (l : list Book.t) :
  Permutation (insert_desc b l) (b :: l).
Proof.
  induction l as [|x tl IH]; simpl; [apply Permutation_refl|].
  destruct (Qle_bool (Book.averageRating x) (Book.averageRating b)).
  - apply Permutation_refl.
  - apply perm_trans with (x :: b :: tl); [now apply perm_skip|apply perm_swap].
Qed.

Lemma sort_desc_perm (l : list Book.t) :
  Permutation (sort_averageRating_desc l) l.
Proof.
  induction l as [|b tl IH]; simpl; [constructor|].
  apply perm_trans with (b :: sort_averageRating_desc tl).
  - apply insert_desc_perm.
  - now apply perm_skip.
Qed.

Lemma insert_desc_sorted (b : Book.t) (l : list Book.t) :
  StronglySorted rating_ge l -> StronglySorted rating_ge (insert_desc b l).
Proof.
  intros Hs. induction Hs as [|x tl Hs IH Hall]; simpl.
  - constructor; constructor.
  - destruct (Qle_bool (Book.averageRating x) (Book.averageRating b)) eqn:E.
    + apply Qle_bool_iff in E.
      constructor; [now constructor|].
      constructor; [exact E|].
      rewrite Forall_forall in *. intros y Hy. unfold rating_ge in *.
      apply Qle_trans with (Book.averageRating x); [now apply Hall|exact E].
    + constructor; [exact IH|].
      assert (Hlt : (Book.averageRating b < Book.averageRating x)%Q).
      { apply Qnot_le_lt. intros Hle. apply Qle_bool_iff in Hle.
        rewrite Hle in E. discriminate. }
      rewrite Forall_forall in *. intros y Hy.
      apply (Permutation_in _ (insert_desc_perm b tl)) in Hy.
      destruct Hy as [<-|Hy]; [now apply Qlt_le_weak|now apply Hall].
Qed.

Lemma sort_desc_sorted (l : list Book.t) :
  StronglySorted rating_ge (sort_averageRating_desc l).
Proof.
  induction l as [|b tl IH]; simpl; [constructor|].
  now apply insert_desc_sorted.
Qed.

Lemma StronglySorted_app_inv {A : Type} (R : A -> A -> Prop) (l1 l2 : list A) :
  StronglySorted R (l1 ++ l2) ->
  StronglySorted R l1 /\ (forall x y, In x l1 -> In y l2 -> R x y).
Proof.
  induction l1 as [|a tl IH]; simpl; intros Hs.
  - split; [constructor|intros x y []].
  - inversion Hs as [|? ? Hs' Hall]; subst.
    destruct (IH Hs') as [Htl Hcross].
    rewrite Forall_forall in Hall. split.
    + constructor; [exact Htl|].
      apply Forall_forall. intros y Hy. apply Hall. apply in_or_app. now left.
    + intros x y [<-|Hx] Hy.
      * apply Hall. apply in_or_app. now right.
      * now apply Hcross.
Qed.

(** C6.  When the query goes through, GET /api/books/bestrating is
    answered 200 with at most 3 books, in descending order of
    [averageRating]; they are stored books, and no stored book that is left
    out has a higher average than a returned one.  When the query is
    rejected the answer is 400. *)
Theorem C6_bestrating_top3_sorted (env : Env) (w : World) :
  match find_rejects env with
  | Some error => get_bestrating env w = res_status_json 400 (ErrorBody error)
  | None =>
      exists l rest,
        get_bestrating env w = res_status_json 200 (BooksBody l)
        /\ List.length l <= 3
        /\ StronglySorted rating_ge l
        /\ Permutation (l ++ rest) (books w)
        /\ (forall x y, In x l -> In y rest -> rating_ge x y)
  end.
Proof.
  unfold get_bestrating, Book_find. destruct (find_rejects env); [reflexivity|].
  exists (limit 3 (sort_averageRating_desc (books w))),
    (skipn 3 (sort_averageRating_desc (books w))).
  unfold limit. split; [reflexivity|]. split; [apply firstn_le_length|].
  pose proof (sort_desc_sorted (books w)) as Hs.
  rewrite <- (firstn_skipn 3 (sort_averageRating_desc (books w))) in Hs.
  apply StronglySorted_app_inv in Hs. destruct Hs as [H1 H2].
  split; [exact H1|]. split; [|exact H2].
  rewrite firstn_skipn. apply sort_desc_perm.
Qed.

(** C7.  A rate call with a grade below 0 or above 5 is answered 400
    (ValidationError) whatever the store holds; a rate call with a grade in
    [0,5] for an identifier that no stored book has, the lookup going
    through, is answered 404 (NotFoundError); in both cases the world is
    left as it was. *)
Theorem C7_rate_validation_and_absence (env : Env) (uid id : string)
  (r : number) (w : World) :
  ((r < 0)%Q \/ (5 < r)%Q ->
   post_rating env uid id (JNum r) w = (w, bad_rating)
   /\ error_class (status bad_rating) = Some ValidationError)
  /\ ((0 <= r)%Q -> (r <= 5)%Q -> find_rejects env = None -> ~ book_exists w id ->
      post_rating env uid id (JNum r) w = (w, book_not_found)
      /\ error_class (status book_not_found) = Some NotFoundError).
Proof.
  split.
  - intros Hout. split; [|reflexivity].
    unfold post_rating. now rewrite (out_of_range_fails r Hout).
  - intros H0 H5 Hq Hno. split; [|reflexivity].
    apply not_exists_find in Hno.
    unfold post_rating, Book_findOne.
    now rewrite (in_range_passes r H0 H5), Hq, Hno.
Qed.

Lemma C7_rate_validation_and_absence_witness :
  post_rating Sample.env_ok "u2" "A" (JNum (6 # 1)%Q) Sample.world0
  = (Sample.world0, bad_rating)
  /\ post_rating Sample.env_ok "u2" "Z" (JNum (3 # 1)%Q) Sample.world0
     = (Sample.world0, book_not_found).
Proof.
  split.
  - destruct (C7_rate_validation_and_absence Sample.env_ok "u2" "A" (6 # 1)%Q
                Sample.world0) as [H _].
    apply H. right. unfold Qlt. simpl. lia.
  - destruct (C7_rate_validation_and_absence Sample.env_ok "u2" "Z" (3 # 1)%Q
                Sample.world0) as [_ H].
    apply H.
    + unfold Qle. simpl. lia.
    + unfold Qle. simpl. lia.
    + reflexivity.
    + apply not_exists_find. reflexivity.
Defined.

(** C9.  A rating request whose body has no [rating] field is answered 400
    with the range message, whatever the store holds and whatever a lookup
    would have returned, and the world is left as it was; in particular
    this is the answer to every such request that passes the middleware. *)
Theorem C9_missing_rating_400 (env : Env) (uid id : string) (w : World) :
  post_rating env uid id JUndefined w = (w, bad_rating)
  /\ status bad_rating = 400
  /\ (forall authorization,
         auth env authorization = Some uid ->
         route_post_rating env authorization id JUndefined w = (w, bad_rating)).
Proof.
  split; [reflexivity|]. split; [reflexivity|].
  intros authorization Ha. unfold route_post_rating. now rewrite Ha.
Qed.

Lemma C9_missing_rating_400_witness :
  auth Sample.env_ok (Some Sample.token_u2) = Some "u2"
  /\ route_post_rating Sample.env_ok (Some Sample.token_u2) "A" JUndefined Sample.world0
     = (Sample.world0, bad_rating).
Proof.
  split; [reflexivity|].
  destruct (C9_missing_rating_400 Sample.env_ok "u2" "A" Sample.world0) as [_ [_ H]].
  apply H. reflexivity.
Defined.

(** ** Lemmas on strings: [index], [substring] and [split_1] *)

Lemma string_app_assoc (a b c : string) :
  ((a ++ b) ++ c = a ++ (b ++ c))%string.
Proof. induction a as [|x a IH]; simpl; [reflexivity|now rewrite IH]. Qed.

Lemma string_length_app (a b : string) :
  String.length (a ++ b)%string = String.length a + String.length b.
Proof. induction a as [|x a IH]; simpl; [reflexivity|now rewrite IH]. Qed.

Lemma string_app_nil (a : string) : (a ++ "")%string = a.
Proof. induction a as [|x a IH]; simpl; [reflexivity|now rewrite IH]. Qed.

Lemma prefix_cons (a b : ascii) (s1 s2 : string) :
  prefix (String a s1) (String b s2)
  = if ascii_dec a b then prefix s1 s2 else false.
Proof. reflexivity. Qed.

Lemma prefix_nil (s : string) : prefix "" s = true.
Proof. destruct s; reflexivity. Qed.

Lemma prefix_app (s r : string) : prefix s (s ++ r)%string = true.
Proof.
  induction s as [|a s IH]; simpl; [apply prefix_nil|].
  destruct (ascii_dec a a); [exact IH|contradiction].
Qed.

Lemma index_0_cons (sep : string) (x : ascii) (s : string) :
  index 0 sep (String x s)
  = if prefix sep (String x s) then Some 0
    else match index 0 sep s with Some k => Some (S k) | None => None end.
Proof. reflexivity. Qed.

Lemma contains_char_app (c : ascii) (a b : string) :
  contains_char c (a ++ b)%string = contains_char c a || contains_char c b.
Proof.
  induction a as [|x a IH]; simpl; [reflexivity|].
  now rewrite IH, orb_assoc.
Qed.

(** A prefix without the first character of the separator is skipped. *)
Lemma index_skip (c : ascii) (sep' p r : string) :
  contains_char c p = false ->
  index 0 (String c sep') (p ++ r)%string
  = match index 0 (String c sep') r with
    | Some k => Some (String.length p + k)
    | None => None
    end.
Proof.
  induction p as [|x p IH]; intros H.
  - simpl append. destruct (index 0 (String c sep') r); reflexivity.
  - simpl in H. apply orb_false_iff in H. destruct H as [Hx Hp].
    simpl append. simpl String.length. rewrite index_0_cons, prefix_cons.
    destruct (ascii_dec c x) as [->|_];
      [rewrite Ascii.eqb_refl in Hx; discriminate|].
    rewrite (IH Hp). destruct (index 0 (String c sep') r); reflexivity.
Qed.

Lemma index_none (c : ascii) (sep' s : string) :
  contains_char c s = false -> index 0 (String c sep') s = None.
Proof.
  intros H. rewrite <- (string_app_nil s).
  rewrite (index_skip c sep' s "" H). reflexivity.
Qed.

Lemma index_here (c : ascii) (sep' r : string) :
  index 0 (String c sep') (String c sep' ++ r)%string = Some 0.
Proof.
  simpl append. rewrite index_0_cons.
  change (String c (sep' ++ r)%string) with (String c sep' ++ r)%string.
  now rewrite prefix_app.
Qed.

Lemma substring_all (s : string) : substring 0 (String.length s) s = s.
Proof. induction s as [|x s IH]; simpl; [reflexivity|now rewrite IH]. Qed.

Lemma substring_skip (p r : string) (m : nat) :
  substring (String.length p) m (p ++ r)%string = substring 0 m r.
Proof. induction p as [|x p IH]; simpl; [reflexivity|exact IH]. Qed.

(** [split(sep)[1]] of a text with exactly one separator, at a known
    place, is what follows the separator. *)
Lemma split_1_once (c : ascii) (sep' p f : string) :
  index 0 (String c sep') (p ++ String c sep' ++ f)%string = Some (String.length p) ->
  index 0 (String c sep') f = None ->
  split_1 (String c sep') (p ++ String c sep' ++ f)%string = Some f.
Proof.
  intros Hfirst Hnone. unfold split_1. rewrite Hfirst.
  assert (Hrest :
            substring (String.length p + String.length (String c sep'))
              (String.length (p ++ String c sep' ++ f)%string
               - (String.length p + String.length (String c sep')))
              (p ++ String c sep' ++ f)%string = f).
  { rewrite <- string_length_app, <- string_app_assoc.
    rewrite substring_skip, string_length_app.
    replace (String.length (p ++ String c sep')%string + String.length f
             - String.length (p ++ String c sep')%string)
      with (String.length f) by lia.
    apply substring_all. }
  rewrite Hrest, Hnone. reflexivity.
Qed.

(** A word and a text that both stop at the same character are equal as
    soon as one is a prefix of the other. *)
Lemma prefix_word_sep (c : ascii) (word text t : string) :
  contains_char c text = false -> contains_char c word = false ->
  prefix (word ++ String c "")%string (text ++ String c t)%string = true ->
  text = word.
Proof.
  revert text. induction word as [|a word IH]; intros text Ht Hw Hp.
  - destruct text as [|x text]; [reflexivity|].
    simpl in Ht. apply orb_false_iff in Ht. destruct Ht as [Hx _].
    simpl append in Hp. rewrite prefix_cons in Hp.
    destruct (ascii_dec c x) as [->|_]; [|discriminate].
    rewrite Ascii.eqb_refl in Hx. discriminate.
  - simpl in Hw. apply orb_false_iff in Hw. destruct Hw as [Ha Hw].
    destruct text as [|x text].
    + simpl append in Hp. rewrite prefix_cons in Hp.
      destruct (ascii_dec a c) as [->|_]; [|discriminate].
      rewrite Ascii.eqb_refl in Ha. discriminate.
    + simpl in Ht. apply orb_false_iff in Ht. destruct Ht as [_ Ht].
      simpl append in Hp. rewrite prefix_cons in Hp.
      destruct (ascii_dec a x) as [->|_]; [|discriminate].
      f_equal. now apply IH.
Qed.

Lemma split_1_word (c : ascii) (p f : string) :
  contains_char c p = false -> contains_char c f = false ->
  split_1 (String c "") (p ++ String c "" ++ f)%string = Some f.
Proof.
  intros Hp Hf. apply split_1_once.
  - rewrite (index_skip c "" p _ Hp), index_here. f_equal. lia.
  - now apply index_none.
Qed.

(** With more words after it, the second word is still what comes out. *)
Lemma split_1_second_word (c : ascii) (p f rest : string) :
  contains_char c p = false -> contains_char c f = false ->
  split_1 (String c "") (p ++ String c "" ++ f ++ String c "" ++ rest)%string
  = Some f.
Proof.
  intros Hp Hf. unfold split_1.
  rewrite (index_skip c "" p _ Hp), index_here.
  replace (String.length p + 0 + String.length (String c ""))
    with (String.length (p ++ String c "")%string)
    by (rewrite string_length_app; simpl; lia).
  rewrite <- string_app_assoc, substring_skip.
  replace (String.length ((p ++ String c "") ++ f ++ String c "" ++ rest)%string
           - String.length (p ++ String c "")%string)
    with (String.length (f ++ String c "" ++ rest)%string)
    by (rewrite (string_length_app (p ++ String c "")); lia).
  rewrite substring_all.
  rewrite (index_skip c "" f _ Hf), index_here, Nat.add_0_r.
  clear Hp. induction f as [|x f IH]; [reflexivity|].
  simpl in Hf. apply orb_false_iff in Hf. destruct Hf as [_ Hf].
  simpl. f_equal. specialize (IH Hf). now injection IH as ->.
Qed.

Lemma uint_no_slash (d : Decimal.uint) :
  contains_char "/" (NilEmpty.string_of_uint d) = false.
Proof. induction d; simpl; auto. Qed.

Lemma string_of_Z_no_slash (z : Z) : contains_char "/" (string_of_Z z) = false.
Proof.
  unfold string_of_Z, NilZero.string_of_int, NilZero.string_of_uint.
  destruct (Z.to_int z) as [d|d]; destruct d; simpl;
    try reflexivity; apply uint_no_slash.
Qed.

Lemma upload_filename_no_slash (env : Env) (f : File) :
  contains_char "/" (originalname f) = false ->
  contains_char "/" (upload_filename env f) = false.
Proof.
  intros H. unfold upload_filename.
  rewrite !contains_char_app, string_of_Z_no_slash, H. reflexivity.
Qed.

Lemma upload_filename_truthy (env : Env) (f : File) :
  truthy (upload_filename env f) = true.
Proof.
  unfold upload_filename, truthy.
  destruct (string_of_Z (Date_now env)); reflexivity.
Qed.

(** The place of ["/images/"] in the URL that the upload builds. *)
Lemma image_url_index (proto hostname fn : string) :
  contains_char "/" proto = false -> contains_char "/" hostname = false ->
  hostname <> "images" ->
  index 0 "/images/" ((proto ++ "://" ++ hostname) ++ "/images/" ++ fn)%string
  = Some (String.length (proto ++ "://" ++ hostname)%string).
Proof.
  intros Hp Hh Hne.
  rewrite !string_app_assoc.
  remember ("/images/" ++ fn)%string as tail eqn:Etail.
  rewrite (index_skip "/" "images/" proto _ Hp).
  change ("://" ++ hostname ++ tail)%string
    with (String ":" (String "/" (String "/" (hostname ++ tail)%string))).
  rewrite index_0_cons, prefix_cons.
  destruct (ascii_dec "/" ":") as [E|_]; [discriminate E|].
  rewrite index_0_cons, !prefix_cons.
  destruct (ascii_dec "/" "/") as [_|N]; [|contradiction].
  destruct (ascii_dec "i" "/") as [E|_]; [discriminate E|].
  rewrite index_0_cons, prefix_cons.
  destruct (ascii_dec "/" "/") as [_|N]; [|contradiction].
  destruct (prefix "images/" (hostname ++ tail)%string) eqn:Epre.
  { exfalso. apply Hne. subst tail.
    apply (prefix_word_sep "/" "images" hostname ("images/" ++ fn)%string Hh);
      [reflexivity|exact Epre]. }
  rewrite (index_skip "/" "images/" hostname _ Hh). subst tail.
  rewrite index_here.
  rewrite !string_length_app. simpl String.length. f_equal. lia.
Qed.

(** The file name that the delete handler reads back from the URL of an
    upload is the name under which the upload was stored. *)
Lemma image_filename_of_upload (req : BookRequest) (fn : string) (b : Book.t) :
  contains_char "/" (protocol req) = false ->
  contains_char "/" (host req) = false ->
  host req <> "images" ->
  contains_char "/" fn = false ->
  Book.imageUrl b = image_url req ("images/" ++ fn)%string ->
  image_filename b = Some fn.
Proof.
  intros Hp Hh Hne Hf Hurl. unfold image_filename. rewrite Hurl.
  assert (Hshape : image_url req ("images/" ++ fn)%string
                   = ((protocol req ++ "://" ++ host req) ++ "/images/" ++ fn)%string).
  { unfold image_url. rewrite !string_app_assoc. reflexivity. }
  assert (Htruthy : truthy (image_url req ("images/" ++ fn)%string) = true).
  { unfold image_url, truthy. destruct (protocol req); reflexivity. }
  rewrite Htruthy, Hshape.
  apply (split_1_once "/" "images/").
  - now apply image_url_index.
  - now apply index_none.
Qed.

(** ** Paths: what [fs.unlink] is called on *)

Lemma split_char_plain (c : ascii) (s : string) :
  contains_char c s = false -> split_char c s = [s].
Proof.
  induction s as [|x s IH]; intros H; [reflexivity|].
  simpl in H. apply orb_false_iff in H. destruct H as [Hx Hs].
  simpl. rewrite (IH Hs), Hx. reflexivity.
Qed.

Lemma ends_with_plain (c : ascii) (s : string) :
  contains_char c s = false -> ends_with c s = false.
Proof.
  induction s as [|x s IH]; intros H; [reflexivity|].
  simpl in H. apply orb_false_iff in H. destruct H as [Hx Hs].
  simpl. destruct s; [exact Hx|now apply IH].
Qed.

(** A last segment that is a plain name stays where it is. *)
Lemma normalize_plain_last (x : string) (segments kept : list string) :
  x <> "" -> x <> "." -> x <> ".." ->
  normalize kept (segments ++ [x]) = normalize kept segments ++ [x].
Proof.
  intros H0 H1 H2. revert kept.
  induction segments as [|seg tl IH]; intros kept; simpl.
  - apply String.eqb_neq in H0, H1, H2. rewrite H0, H1, H2. reflexivity.
  - destruct ((seg =? "") || (seg =? ".")); [apply IH|].
    destruct (seg =? ".."); apply IH.
Qed.

Lemma strip_prefix_app (l r : list string) : strip_prefix l (l ++ r) = Some r.
Proof.
  induction l as [|x l IH]; simpl; [reflexivity|].
  now rewrite String.eqb_refl.
Qed.

(** A plain name designates the file of that name in the images
    directory. *)
Lemma unlink_target_plain (env : Env) (fn : string) :
  contains_char "/" fn = false -> fn <> "" -> fn <> "." -> fn <> ".." ->
  unlink_target env fn = InImages fn.
Proof.
  intros Hs H0 H1 H2. unfold unlink_target, path_join_images, images_directory.
  rewrite (ends_with_plain _ _ Hs), (split_char_plain _ _ Hs).
  rewrite app_assoc, (normalize_plain_last fn _ _ H0 H1 H2), strip_prefix_app.
  reflexivity.
Qed.

(** The name an upload is stored under is a plain name. *)
Lemma upload_filename_plain (env : Env) (f : File) :
  upload_filename env f <> "" /\ upload_filename env f <> "."
  /\ upload_filename env f <> "..".
Proof.
  assert (H : contains_char "-" (upload_filename env f) = true).
  { unfold upload_filename. rewrite !contains_char_app. simpl.
    now rewrite orb_true_r. }
  repeat split; intros E; rewrite E in H; discriminate.
Qed.

Lemma fs_unlink_effect env f w :
  match unlink_fails env with
  | None =>
      forall name, unlink_target env f = InImages name ->
        ~ In name (images (fs_unlink env f w))
        /\ (forall x, x <> name ->
              (In x (images (fs_unlink env f w)) <-> In x (images w)))
  | Some _ =>
      images (fs_unlink env f w) = images w
      /\ console (fs_unlink env f w) = console w ++ [unlink_error_line]
  end.
Proof.
  unfold fs_unlink. destruct (unlink_fails env); [split; reflexivity|].
  intros name ->.
  destruct (existsb (String.eqb name) (images w)) eqn:E; simpl.
  - split.
    + intros Hin. apply filter_In in Hin. destruct Hin as [_ Hneq].
      now rewrite String.eqb_refl in Hneq.
    + intros x Hx. rewrite filter_In. split; [tauto|].
      intros Hin. split; [exact Hin|].
      apply String.eqb_neq in Hx. now rewrite Hx.
  - split; [|tauto].
    intros Hin.
    assert (Hex : existsb (String.eqb name) (images w) = true).
    { apply existsb_exists. exists name. split; [assumption|apply String.eqb_refl]. }
    rewrite Hex in E. discriminate.
Qed.

(** The delete handler on a book whose image URL is the one an upload of
    the plain name [fn] builds. *)
Lemma unlink_image_of_upload env (req : BookRequest) (fn : string) (book : Book.t) w :
  contains_char "/" (protocol req) = false ->
  contains_char "/" (host req) = false ->
  host req <> "images" ->
  contains_char "/" fn = false -> fn <> "" -> fn <> "." -> fn <> ".." ->
  Book.imageUrl book = image_url req ("images/" ++ fn)%string ->
  match unlink_fails env with
  | None =>
      ~ In fn (images (unlink_image env (image_filename book) w))
      /\ (forall x, x <> fn ->
            (In x (images (unlink_image env (image_filename book) w))
             <-> In x (images w)))
  | Some _ =>
      images (unlink_image env (image_filename book) w) = images w
      /\ console (unlink_image env (image_filename book) w)
         = console w ++ [unlink_error_line]
  end.
Proof.
  intros Hp Hh Hne Hs H0 H1 H2 Hurl.
  rewrite (image_filename_of_upload req fn book Hp Hh Hne Hs Hurl).
  unfold unlink_image, truthy.
  apply String.eqb_neq in H0 as H0'. rewrite H0'. simpl negb. cbv iota.
  pose proof (fs_unlink_effect env fn w) as H.
  destruct (unlink_fails env); [exact H|].
  apply H. now apply unlink_target_plain.
Qed.

Lemma delete_book_owner_success env w book :
  startSession_rejects env = None -> startTransaction_throws env = None ->
  find_rejects env = None -> deleteOne_rejects env = None ->
  commitTransaction_rejects env = None ->
  unique_ids w -> In book (books w) ->
  delete_book env (Book.userId book) (Book._id book) w
  = (with_books (remove_first (by_id (Book._id book)) (books w))
       (unlink_image env (image_filename book) w),
     Some deleted).
Proof.
  intros H1 H2 H3 H4 H5 Hu Hin.
  unfold delete_book, Book_findOne, Book_deleteOne.
  rewrite H1, H2, H3, H4, H5, (find_owned_unique w book Hu Hin).
  simpl. now rewrite unlink_image_books.
Qed.

(** A rejected lookup or a rejected removal is answered 500 by the catch
    block: the transaction is in progress and its abort goes through. *)
Lemma delete_book_owner_failure env w book :
  startSession_rejects env = None -> startTransaction_throws env = None ->
  unique_ids w -> In book (books w) ->
  find_rejects env <> None \/ deleteOne_rejects env <> None ->
  exists w' error,
    delete_book env (Book.userId book) (Book._id book) w
    = (w', Some (res_status_json 500 (ErrorBody error)))
    /\ books w' = books w.
Proof.
  intros H1 H2 Hu Hin Hfault.
  unfold delete_book, Book_findOne, Book_deleteOne, delete_catch.
  rewrite H1, H2.
  destruct (find_rejects env) as [e2|]; [simpl; eauto|].
  rewrite (find_owned_unique w book Hu Hin).
  destruct (deleteOne_rejects env) as [e3|].
  { simpl. eexists. eexists. split; [reflexivity|]. simpl. apply unlink_image_books. }
  exfalso. intuition congruence.
Qed.

(** When [startTransaction] throws, or when the commit is rejected, the
    abort of the catch block throws in its turn: no response is sent. *)
Lemma delete_book_owner_unanswered env w book :
  startSession_rejects env = None ->
  unique_ids w -> In book (books w) ->
  startTransaction_throws env <> None
  \/ (find_rejects env = None /\ deleteOne_rejects env = None
      /\ commitTransaction_rejects env <> None) ->
  exists w',
    delete_book env (Book.userId book) (Book._id book) w = (w', None)
    /\ books w' = books w.
Proof.
  intros H1 Hu Hin Hfault.
  unfold delete_book, Book_findOne, Book_deleteOne, delete_catch. rewrite H1.
  destruct (startTransaction_throws env) as [e1|]; [simpl; eauto|].
  destruct Hfault as [Hf|[Hf [Hd Hc]]]; [congruence|].
  rewrite Hf, Hd, (find_owned_unique w book Hu Hin).
  destruct (commitTransaction_rejects env) as [e4|]; [|congruence].
  simpl. eexists. split; [reflexivity|]. apply unlink_image_books.
Qed.

(** C8.  For a stored book and a delete by its owner.  When the calls of
    the transaction go through, the answer is 200 and the record is
    removed, so that a later get of the identifier is answered 404; if the
    image URL of the book is the one built for an upload stored under a
    plain file name, a successful unlink leaves no file of that name and
    keeps every other file, and a failed unlink is only logged: the images
    are left as they were, one line goes to the console and the record is
    removed all the same.  When the lookup or the removal of the
    transaction is rejected, the answer is 500 and the collection is
    unchanged.  When [startTransaction] throws or the commit is rejected,
    the collection is unchanged too, but no response is sent at all: the
    catch block awaits [abortTransaction], which throws in these two
    states, before it reaches the line that answers 500. *)
Theorem C8_owner_delete (env : Env) (w : World) (book : Book.t)
  (Hsession : startSession_rejects env = None)
  (Hu : unique_ids w) (Hin : In book (books w)) :
  (startTransaction_throws env = None -> find_rejects env = None ->
   deleteOne_rejects env = None -> commitTransaction_rejects env = None ->
   exists w',
     delete_book env (Book.userId book) (Book._id book) w = (w', Some deleted)
     /\ status deleted = 200
     /\ books w' = remove_first (by_id (Book._id book)) (books w)
     /\ ~ book_exists w' (Book._id book)
     /\ (forall env', find_rejects env' = None ->
                      get_book env' (Book._id book) w' = book_not_found)
     /\ error_class (status book_not_found) = Some NotFoundError
     /\ (forall (req : BookRequest) (fn : string),
           contains_char "/" (protocol req) = false ->
           contains_char "/" (host req) = false ->
           host req <> "images" ->
           contains_char "/" fn = false -> fn <> "" -> fn <> "." -> fn <> ".." ->
           Book.imageUrl book = image_url req ("images/" ++ fn)%string ->
           match unlink_fails env with
           | None =>
               ~ In fn (images w')
               /\ (forall x, x <> fn -> (In x (images w') <-> In x (images w)))
           | Some _ =>
               images w' = images w
               /\ console w' = console w ++ [unlink_error_line]
           end))
  /\ (startTransaction_throws env = None ->
      find_rejects env <> None \/ deleteOne_rejects env <> None ->
      exists w' error,
        delete_book env (Book.userId book) (Book._id book) w
        = (w', Some (res_status_json 500 (ErrorBody error)))
        /\ error_class 500 = Some IOError
        /\ books w' = books w)
  /\ (startTransaction_throws env <> None
      \/ (find_rejects env = None /\ deleteOne_rejects env = None
          /\ commitTransaction_rejects env <> None) ->
      exists w',
        delete_book env (Book.userId book) (Book._id book) w = (w', None)
        /\ books w' = books w).
Proof.
  split; [|split].
  - intros H2 H3 H4 H5.
    eexists. split;
      [now apply delete_book_owner_success|].
    simpl.
    assert (Hgone : find (by_id (Book._id book))
                      (remove_first (by_id (Book._id book)) (books w)) = None)
      by (now apply remove_first_by_id_gone).
    split; [reflexivity|].
    split; [reflexivity|]. split; [now apply not_exists_find|].
    split; [|split; [reflexivity|]].
    + intros env' Hq. unfold get_book, Book_findOne. rewrite Hq. simpl.
      now rewrite Hgone.
    + intros req fn Hp Hh Hne Hs H0 H1 H2' Hurl.
      now apply (unlink_image_of_upload env req fn book w).
  - intros H2 Hfault.
    destruct (delete_book_owner_failure env w book Hsession H2 Hu Hin Hfault)
      as [w' [error [E Hb]]].
    exists w', error. split; [exact E|]. split; [reflexivity|exact Hb].
  - now apply delete_book_owner_unanswered.
Qed.

Lemma C8_owner_delete_witness :
  (exists w',
      delete_book Sample.env_ok "u1" "A" Sample.world0 = (w', Some deleted)
      /\ books w' = []
      /\ get_book Sample.env_ok "A" w' = book_not_found
      /\ ~ In "1609459200000-lepetitprince.jpg" (images w'))
  /\ (exists w',
         delete_book Sample.env_unlink_fails "u1" "A" Sample.world0
         = (w', Some deleted)
         /\ books w' = []
         /\ images w' = images Sample.world0
         /\ console w' = [unlink_error_line])
  /\ (exists w' error,
         delete_book Sample.env_delete_fails "u1" "A" Sample.world0
         = (w', Some (res_status_json 500 (ErrorBody error)))
         /\ books w' = books Sample.world0)
  /\ (exists w',
         delete_book Sample.env_commit_fails "u1" "A" Sample.world0 = (w', None)
         /\ books w' = books Sample.world0).
Proof.
  assert (Hu : unique_ids Sample.world0).
  { unfold unique_ids. simpl. constructor; [simpl; tauto|constructor]. }
  assert (Hin : In Sample.bookA (books Sample.world0)).
  { simpl. left. reflexivity. }
  split; [|split; [|split]].
  - destruct (C8_owner_delete Sample.env_ok Sample.world0 Sample.bookA
                eq_refl Hu Hin) as [H _].
    destruct (H eq_refl eq_refl eq_refl eq_refl)
      as [w' [E [_ [Hb [_ [Hget [_ Himg]]]]]]].
    destruct (Himg (Sample.req_json Sample.empty_doc)
                "1609459200000-lepetitprince.jpg"
                eq_refl eq_refl) as [Hgone _];
      try discriminate; try reflexivity.
    exists w'. split; [exact E|]. split; [exact Hb|].
    split; [exact (Hget Sample.env_ok eq_refl)|exact Hgone].
  - destruct (C8_owner_delete Sample.env_unlink_fails Sample.world0 Sample.bookA
                eq_refl Hu Hin) as [H _].
    destruct (H eq_refl eq_refl eq_refl eq_refl)
      as [w' [E [_ [Hb [_ [_ [_ Himg]]]]]]].
    destruct (Himg (Sample.req_json Sample.empty_doc)
                "1609459200000-lepetitprince.jpg"
                eq_refl eq_refl) as [Hi Hc];
      try discriminate; try reflexivity.
    exists w'. split; [exact E|]. split; [exact Hb|]. split; [exact Hi|exact Hc].
  - destruct (C8_owner_delete Sample.env_delete_fails Sample.world0 Sample.bookA
                eq_refl Hu Hin) as [_ [H _]].
    destruct (H eq_refl) as [w' [error [E [_ Hb]]]]; [right; discriminate|].
    exists w', error. split; [exact E|exact Hb].
  - destruct (C8_owner_delete Sample.env_commit_fails Sample.world0 Sample.bookA
                eq_refl Hu Hin) as [_ [_ H]].
    apply H. right. repeat split; discriminate.
Defined.

(** C8, the failing input: the owner deletes book A and the commit of the
    transaction is rejected.  The handler sends no response (the claim
    says 500); the record stays and the image file is gone. *)
Lemma C8_commit_failure_unanswered :
  delete_book Sample.env_commit_fails "u1" "A" Sample.world0
  = ({| books := [Sample.bookA]; users := [Sample.user1]; images := [];
        console := [] |}, None).
Proof. reflexivity. Qed.

(** C10.  An update request without a file whose book field does not parse
    is not answered with the validation message: the update document is the
    request body itself and the handler goes on to the store update, whose
    result alone decides the answer; when the store call goes through the
    answer is not 400, and the owner's update that changes the book is
    answered 200 with the body's fields stored. *)
Theorem C10_unparseable_book_falls_back (env : Env) (uid : string)
  (req : BookRequest) (w : World)
  (Hfile : file req = None) (Hparse : body_book req = None) :
  put_book_data env req w = (w, inr (body req))
  /\ put_book env uid req w
     = match Book_updateOne env (by_id_and_user (params_id req) uid) (body req) w with
       | Resolved (w2, result) =>
           if (nModified result =? 0)%nat
           then (w2, forbidden_update)
           else (w2, res_status_json 200 (Message "Livre mis à jour avec succès !"))
       | Rejected error => (w, res_status_json 400 (ErrorBody error))
       end
  /\ json (snd (put_book env uid req w)) <> invalid_json
  /\ (updateOne_rejects env = None -> status (snd (put_book env uid req w)) <> 400)
  /\ (forall b,
         updateOne_rejects env = None ->
         find (by_id_and_user (params_id req) uid) (books w) = Some b ->
         Book_eqb b (apply_update (body req) b) = false ->
         put_book env uid req w
         = (with_books
              (replace_first (by_id_and_user (params_id req) uid)
                 (apply_update (body req) b) (books w)) w,
            res_status_json 200 (Message "Livre mis à jour avec succès !"))).
Proof.
  assert (Hdata : put_book_data env req w = (w, inr (body req))).
  { unfold put_book_data. now rewrite Hfile, Hparse. }
  split; [exact Hdata|].
  unfold put_book. rewrite Hdata. split; [reflexivity|].
  unfold Book_updateOne.
  destruct (updateOne_rejects env) as [e|]; simpl.
  - split; [discriminate|]. split; [intros H; discriminate|].
    intros b H; discriminate.
  - destruct (find (by_id_and_user (params_id req) uid) (books w)) as [b|]; simpl.
    + destruct (Book_eqb b (apply_update (body req) b)) eqn:E; simpl.
      * split; [discriminate|]. split; [discriminate|].
        intros b0 _ Hb Hne. inversion Hb; subst. rewrite E in Hne. discriminate.
      * split; [discriminate|]. split; [discriminate|].
        intros b0 _ Hb _. inversion Hb; subst. reflexivity.
    + split; [discriminate|]. split; [discriminate|].
      intros b _ Hb; discriminate.
Qed.

Lemma C10_unparseable_book_falls_back_witness :
  file (Sample.req_json Sample.doc_title) = None
  /\ body_book (Sample.req_json Sample.doc_title) = None
  /\ status (snd (put_book Sample.env_ok "u1" (Sample.req_json Sample.doc_title)
                    Sample.world0)) <> 400
  /\ json (snd (put_book Sample.env_ok "u1" (Sample.req_json Sample.doc_title)
                  Sample.world0)) <> invalid_json.
Proof.
  split; [reflexivity|]. split; [reflexivity|].
  destruct (C10_unparseable_book_falls_back Sample.env_ok "u1"
              (Sample.req_json Sample.doc_title) Sample.world0 eq_refl eq_refl)
    as [_ [_ [Hjson [Hstatus _]]]].
  split; [apply Hstatus; reflexivity|exact Hjson].
Defined.

(** ** The example scenarios *)

(** Book A has no rating and average 0; u2 rates 4, the average is 4; u3
    rates 5, the average is 9/2; u2 rates again and is refused, the average
    stays 9/2. *)
Example scenario_ratings :
  let w1 := fst (post_rating Sample.env_ok "u2" "A" (JNum (4 # 1)%Q) Sample.world0) in
  let w2 := fst (post_rating Sample.env_ok "u3" "A" (JNum (5 # 1)%Q) w1) in
  let again := post_rating Sample.env_ok "u2" "A" (JNum (3 # 1)%Q) w2 in
  map Book.averageRating (books Sample.world0) = [0%Q]
  /\ map Book.averageRating (books w1) = [(4 # 1)%Q]
  /\ map Book.averageRating (books w2) = [(9 # 2)%Q]
  /\ again = (w2, already_rated).
Proof. vm_compute. repeat split. Qed.

(** A delete of book A by u2 is refused and the book can still be read; a
    delete by u1 goes through, after which the book is not found and its
    image file is gone. *)
Example scenario_delete :
  let refused := delete_book Sample.env_ok "u2" "A" Sample.world0 in
  let done := delete_book Sample.env_ok "u1" "A" Sample.world0 in
  refused = (Sample.world0, Some forbidden_delete)
  /\ get_book Sample.env_ok "A" (fst refused)
     = res_status_json 200 (BookBody Sample.bookA)
  /\ snd done = Some deleted
  /\ get_book Sample.env_ok "A" (fst done) = book_not_found
  /\ images (fst done) = [].
Proof. vm_compute. repeat split. Qed.

(** ** Signup and the middleware *)

(** X1.  After a signup that was answered 201 for an email that no stored
    user had, the stored password is the bcrypt hash, and (bcrypt accepting
    a password against its own hash) a login with the same email and
    password is answered 200 with the identifier of the new user and a
    token that the middleware accepts as that user; the books are left
    alone. *)
Theorem X1_signup_then_login
  (bcrypt_hash : string -> string -> string)
  (bcrypt_compare : string -> string -> bool)
  (env : Env) (salt email password : string) (w w' : World) (r : Response)
  (Hbcrypt : bcrypt_compare password (bcrypt_hash password salt) = true)
  (Hfresh : forall u, In u (users w) -> User.email u <> email)
  (Hsignup : signup bcrypt_hash env salt email password w = (w', r))
  (Hcreated : status r = 201) :
  users w'
  = users w ++ [ {| User._id := new_id env; User.email := email;
                    User.password := bcrypt_hash password salt |} ]
  /\ books w' = books w
  /\ forall later, find_rejects later = None ->
       exists token,
         login bcrypt_compare later email password w'
         = Some (res_status_json 200 (LoginBody (new_id env) token))
         /\ auth later (Some token) = Some (new_id env).
Proof.
  unfold signup, User_insert in Hsignup.
  destruct (save_rejects env);
    [inversion Hsignup; subst; discriminate|].
  destruct (existsb _ (users w));
    inversion Hsignup; subst; [discriminate|].
  simpl. split; [reflexivity|]. split; [reflexivity|].
  intros later Hq. unfold login, User_findOne. rewrite Hq. simpl.
  assert (Hfind : find (fun u => User.email u =? email)
                    (users w ++ [ {| User._id := new_id env; User.email := email;
                                     User.password := bcrypt_hash password salt |} ])
                  = Some {| User._id := new_id env; User.email := email;
                            User.password := bcrypt_hash password salt |}).
  { clear Hsignup. induction (users w) as [|u tl IH]; simpl.
    - now rewrite String.eqb_refl.
    - destruct (User.email u =? email) eqn:E.
      + apply String.eqb_eq in E. exfalso. apply (Hfresh u); [now left|exact E].
      + apply IH. intros x Hx. apply Hfresh. now right. }
  rewrite Hfind. simpl. rewrite Hbcrypt. simpl.
  eexists. split; [reflexivity|].
  unfold auth, jwt_verify, jwt_sign, expiresIn_24h. simpl.
  match goal with
  | |- context [(?a <? ?b)%Z] => destruct (Z.ltb_spec a b)
  end; [reflexivity|lia].
Qed.

Lemma X1_signup_then_login_witness :
  exists token,
    login Sample.toy_compare Sample.env_ok "new@example.com" "s3cret"
      (fst (signup (fun password _ => ("$2a$10$" ++ password)%string)
              Sample.env_ok "salt" "new@example.com" "s3cret" Sample.world0))
    = Some (res_status_json 200 (LoginBody "B" token))
    /\ auth Sample.env_ok (Some token) = Some "B".
Proof.
  assert (Hfresh : forall u, In u (users Sample.world0) ->
                             User.email u <> "new@example.com").
  { intros u [<-|[]]. discriminate. }
  destruct (X1_signup_then_login (fun password _ => ("$2a$10$" ++ password)%string)
              Sample.toy_compare Sample.env_ok "salt" "new@example.com" "s3cret"
              Sample.world0 _ _ eq_refl Hfresh eq_refl eq_refl) as [_ [_ H]].
  exact (H Sample.env_ok eq_refl).
Defined.

(** X2.  The middleware on the header text: without a header, or with a
    header that has no space, the request is refused; with a header of the
    form [scheme token] (or [scheme token more...]) the credential is the
    second word whatever the scheme word is, so that the outcome is the
    verification of that token alone. *)
Theorem X2_auth_header_second_word (jwt_decode : string -> option Token)
  (env : Env) :
  auth_header jwt_decode env None = None
  /\ (forall header, contains_char " " header = false ->
                     auth_header jwt_decode env (Some header) = None)
  /\ (forall scheme text,
         contains_char " " scheme = false -> contains_char " " text = false ->
         auth_header jwt_decode env (Some (scheme ++ " " ++ text)%string)
         = match jwt_decode text with
           | Some token => jwt_verify token RANDOM_TOKEN_SECRET (Date_now env)
           | None => None
           end)
  /\ (forall scheme text more,
         contains_char " " scheme = false -> contains_char " " text = false ->
         auth_header jwt_decode env
           (Some (scheme ++ " " ++ text ++ " " ++ more)%string)
         = auth_header jwt_decode env (Some ("Bearer " ++ text)%string)).
Proof.
  split; [reflexivity|]. split; [|split].
  - intros header H. unfold auth_header, split_1.
    now rewrite (index_none " " "" header H).
  - intros scheme text Hs Ht. unfold auth_header.
    rewrite (split_1_word " " scheme text Hs Ht).
    destruct (jwt_decode text); reflexivity.
  - intros scheme text more Hs Ht. unfold auth_header.
    rewrite (split_1_second_word " " scheme text more Hs Ht).
    change ("Bearer " ++ text)%string with ("Bearer" ++ " " ++ text)%string.
    rewrite (split_1_word " " "Bearer" text eq_refl Ht). reflexivity.
Qed.

Lemma X2_auth_header_second_word_witness :
  auth_header (fun text => if text =? "tok-u2" then Some Sample.token_u2 else None)
    Sample.env_ok (Some "Basic tok-u2") = Some "u2"
  /\ auth_header (fun text => if text =? "tok-u2" then Some Sample.token_u2 else None)
       Sample.env_ok (Some "tok-u2") = None.
Proof.
  destruct (X2_auth_header_second_word
              (fun text => if text =? "tok-u2" then Some Sample.token_u2 else None)
              Sample.env_ok) as [_ [Hnone [Hword _]]].
  split.
  - change "Basic tok-u2" with ("Basic" ++ " " ++ "tok-u2")%string.
    rewrite (Hword "Basic" "tok-u2" eq_refl eq_refl). reflexivity.
  - apply Hnone. reflexivity.
Defined.

(** X3.  Without a token, with a token signed with another secret, or with
    a token presented at or after its expiry, the create, update, delete
    and rating routes answer 401 and leave the world as it was. *)
Theorem X3_protected_routes_refuse (env : Env) (authorization : option Token)
  (w : World)
  (Hbad : authorization = None
          \/ exists token, authorization = Some token
                           /\ (key token <> RANDOM_TOKEN_SECRET
                               \/ (exp token <= Date_now env / 1000)%Z)) :
  (forall req, route_post_book env authorization req w = (w, Some unauthorized))
  /\ (forall req, route_put_book env authorization req w = (w, unauthorized))
  /\ (forall id, route_delete_book env authorization id w = (w, Some unauthorized))
  /\ (forall id rating,
         route_post_rating env authorization id rating w = (w, unauthorized)).
Proof.
  assert (Hauth : auth env authorization = None).
  { destruct Hbad as [->|[token [-> Hbad]]]; [reflexivity|].
    unfold auth, jwt_verify. destruct Hbad as [Hkey|Hexp].
    - apply String.eqb_neq in Hkey. now rewrite Hkey.
    - apply Z.ltb_ge in Hexp. now rewrite Hexp, andb_false_r. }
  unfold route_post_book, route_put_book, route_delete_book, route_post_rating.
  rewrite Hauth. repeat split.
Qed.

Lemma X3_protected_routes_refuse_witness :
  route_delete_book Sample.env_ok
    (Some (jwt_sign "u1" "another secret" expiresIn_24h 1700000000000))
    "A" Sample.world0
  = (Sample.world0, Some unauthorized).
Proof.
  eapply X3_protected_routes_refuse. right. eexists. split; [reflexivity|].
  left. discriminate.
Defined.

(** ** Create and update *)

Lemma compressImage_ok env buf name w :
  sharp_fails env = None ->
  compressImage env buf name w
  = (if existsb (String.eqb name) (images w) then w
     else with_images (images w ++ [name]) w,
     Resolved ("images/" ++ name)%string).
Proof. intros H. unfold compressImage. now rewrite H. Qed.

Lemma compressImage_images env buf name w x :
  In x (images w) -> In x (images (fst (compressImage env buf name w))).
Proof.
  unfold compressImage. destruct (sharp_fails env); simpl; [auto|].
  destruct (existsb (String.eqb name) (images w)); simpl; [auto|].
  intros H. apply in_or_app. now left.
Qed.

Lemma compressImage_written env buf name w :
  sharp_fails env = None -> In name (images (fst (compressImage env buf name w))).
Proof.
  intros H. rewrite (compressImage_ok env buf name w H). simpl.
  destruct (existsb (String.eqb name) (images w)) eqn:E; simpl.
  - apply existsb_exists in E. destruct E as [y [Hy E]].
    apply String.eqb_eq in E. now subst.
  - apply in_or_app. right. now left.
Qed.

Lemma find_app_absent {A : Type} (f : A -> bool) (l : list A) (x : A) :
  existsb f l = false -> f x = true -> find f (l ++ [x]) = Some x.
Proof.
  induction l as [|a tl IH]; simpl; intros H Hx.
  - now rewrite Hx.
  - apply orb_false_iff in H. destruct H as [Ha Htl]. rewrite Ha. now apply IH.
Qed.

Lemma existsb_by_id_false (id : string) (w : World) :
  existsb (by_id id) (books w) = false -> ~ book_exists w id.
Proof.
  intros H [b [Hin Hid]].
  assert (E : existsb (by_id id) (books w) = true).
  { apply existsb_exists. exists b. split; [assumption|now apply by_id_true]. }
  rewrite E in H. discriminate.
Qed.

(** What a create that was answered 201 has done. *)
Lemma post_book_success (env : Env) (uid : string) (req : BookRequest)
  (w w' : World) (r : Response)
  (Hpost : post_book env uid req w = (w', Some r)) (Hcreated : status r = 201) :
  exists d b,
    body_book req = Some d
    /\ books w' = books w ++ [b]
    /\ ~ book_exists w (Book._id b)
    /\ Book._id b = new_id env
    /\ Book.userId b = uid
    /\ Book.title b = set_title d
    /\ Book.author b = set_author d
    /\ Book.genre b = set_genre d
    /\ Book.year b = set_year d
    /\ Book.ratings b = []
    /\ Book.averageRating b = 0%Q
    /\ (file req = None -> Book.imageUrl b = "" /\ images w' = images w)
    /\ (forall f, file req = Some f ->
                  Book.imageUrl b
                  = image_url req ("images/" ++ upload_filename env f)%string
                  /\ In (upload_filename env f) (images w'))
    /\ (forall later, find_rejects later = None ->
                      get_book later (new_id env) w' = res_status_json 200 (BookBody b)).
Proof.
  unfold post_book in Hpost.
  destruct (body_book req) as [d|];
    [|inversion Hpost; subst; discriminate].
  exists d.
  destruct (file req) as [f|].
  - destruct (sharp_fails env) as [e|] eqn:Es.
    { unfold compressImage in Hpost. rewrite Es in Hpost.
      inversion Hpost; subst; discriminate. }
    pose proof (compressImage_books env (buffer f) (upload_filename env f) w) as Hb.
    pose proof (compressImage_written env (buffer f) (upload_filename env f) w Es)
      as Hwr.
    rewrite (compressImage_ok env _ _ w Es) in Hpost, Hb, Hwr.
    simpl fst in Hb, Hwr.
    remember (if existsb (String.eqb (upload_filename env f)) (images w) then w
              else with_images (images w ++ [upload_filename env f]) w) as w1.
    clear Heqw1.
    destruct (book_null req); [inversion Hpost|].
    unfold Book_insert in Hpost.
    destruct (save_rejects env); [inversion Hpost; subst; discriminate|].
    match type of Hpost with
    | context [existsb ?f ?l] => destruct (existsb f l) eqn:E
    end; inversion Hpost; subst; [discriminate|].
    eexists. split; [reflexivity|]. simpl. rewrite Hb in *.
    split; [reflexivity|].
    split; [now apply existsb_by_id_false|].
    repeat (split; [reflexivity|]).
    split; [intros H; discriminate|]. split.
    + intros f' Hf'. inversion Hf'; subst. split; [reflexivity|exact Hwr].
    + intros later Hq. unfold get_book, Book_findOne. rewrite Hq. simpl.
      rewrite find_app_absent; [reflexivity|exact E|].
      now apply by_id_true.
  - destruct (book_null req); [inversion Hpost|].
    unfold Book_insert in Hpost.
    destruct (save_rejects env); [inversion Hpost; subst; discriminate|].
    destruct (existsb _ (books w)) eqn:E; inversion Hpost; subst; [discriminate|].
    eexists. split; [reflexivity|]. simpl.
    split; [reflexivity|].
    split; [now apply existsb_by_id_false|].
    repeat (split; [reflexivity|]).
    split; [auto|]. split.
    + intros f' Hf'. discriminate.
    + intros later Hq. unfold get_book, Book_findOne. rewrite Hq. simpl.
      rewrite find_app_absent; [reflexivity|exact E|].
      now apply by_id_true.
Qed.


(** X4.  A create that was answered 201 has appended one book: its
    identifier is new to the collection, its owner is the authenticated
    user, its descriptive fields are those of the parsed document, it has
    no rating and average 0, its image URL is empty without a file and the
    URL of the stored upload with one; a later get of the identifier is
    answered 200 with that book. *)
Theorem X4_create_then_get (env : Env) (uid : string) (req : BookRequest)
  (w w' : World) (r : Response)
  (Hpost : post_book env uid req w = (w', Some r)) (Hcreated : status r = 201) :
  exists d b,
    body_book req = Some d
    /\ books w' = books w ++ [b]
    /\ ~ book_exists w (Book._id b)
    /\ Book._id b = new_id env
    /\ Book.userId b = uid
    /\ Book.title b = set_title d
    /\ Book.author b = set_author d
    /\ Book.genre b = set_genre d
    /\ Book.year b = set_year d
    /\ Book.ratings b = []
    /\ Book.averageRating b = 0%Q
    /\ (file req = None -> Book.imageUrl b = "" /\ images w' = images w)
    /\ (forall f, file req = Some f ->
                  Book.imageUrl b
                  = image_url req ("images/" ++ upload_filename env f)%string
                  /\ In (upload_filename env f) (images w'))
    /\ (forall later, find_rejects later = None ->
                      get_book later (new_id env) w' = res_status_json 200 (BookBody b)).
Proof.
  unfold post_book in Hpost.
  destruct (body_book req) as [d|];
    [|inversion Hpost; subst; discriminate].
  exists d.
  destruct (file req) as [f|].
  - destruct (sharp_fails env) as [e|] eqn:Es.
    { unfold compressImage in Hpost. rewrite Es in Hpost.
      inversion Hpost; subst; discriminate. }
    pose proof (compressImage_books env (buffer f) (upload_filename env f) w) as Hb.
    pose proof (compressImage_written env (buffer f) (upload_filename env f) w Es)
      as Hwr.
    rewrite (compressImage_ok env _ _ w Es) in Hpost, Hb, Hwr.
    simpl fst in Hb, Hwr.
    remember (if existsb (String.eqb (upload_filename env f)) (images w) then w
              else with_images (images w ++ [upload_filename env f]) w) as w1.
    clear Heqw1.
    destruct (book_null req); [inversion Hpost|].
    unfold Book_insert in Hpost.
    destruct (save_rejects env); [inversion Hpost; subst; discriminate|].
    match type of Hpost with
    | context [existsb ?f ?l] => destruct (existsb f l) eqn:E
    end; inversion Hpost; subst; [discriminate|].
    eexists. split; [reflexivity|]. simpl. rewrite Hb in *.
    split; [reflexivity|].
    split; [now apply existsb_by_id_false|].
    repeat (split; [reflexivity|]).
    split; [intros H; discriminate|]. split.
    + intros f' Hf'. inversion Hf'; subst. split; [reflexivity|exact Hwr].
    + intros later Hq. unfold get_book, Book_findOne. rewrite Hq. simpl.
      rewrite find_app_absent; [reflexivity|exact E|].
      now apply by_id_true.
  - destruct (book_null req); [inversion Hpost|].
    unfold Book_insert in Hpost.
    destruct (save_rejects env); [inversion Hpost; subst; discriminate|].
    destruct (existsb _ (books w)) eqn:E; inversion Hpost; subst; [discriminate|].
    eexists. split; [reflexivity|]. simpl.
    split; [reflexivity|].
    split; [now apply existsb_by_id_false|].
    repeat (split; [reflexivity|]).
    split; [auto|]. split.
    + intros f' Hf'. discriminate.
    + intros later Hq. unfold get_book, Book_findOne. rewrite Hq. simpl.
      rewrite find_app_absent; [reflexivity|exact E|].
      now apply by_id_true.
Qed.

Lemma X4_create_then_get_witness :
  exists b,
    Book.userId b = "u2"
    /\ get_book Sample.env_ok "B"
         (fst (post_book Sample.env_ok "u2"
                 {| params_id := ""; protocol := "http"; host := "localhost:3000";
                    file := Some Sample.cover; body_book := Some Sample.doc_title;
                    book_null := false; body := Sample.empty_doc |} Sample.world0))
       = res_status_json 200 (BookBody b)
    /\ Book.imageUrl b = "http://localhost:3000/images/1700000000000-cover.png".
Proof.
  destruct (X4_create_then_get Sample.env_ok "u2"
              {| params_id := ""; protocol := "http"; host := "localhost:3000";
                 file := Some Sample.cover; body_book := Some Sample.doc_title;
                 book_null := false; body := Sample.empty_doc |} Sample.world0 _ _ eq_refl eq_refl)
    as (d & b & _ & _ & _ & _ & Hu & _ & _ & _ & _ & _ & _ & _ & Himg & Hget).
  exists b. split; [exact Hu|]. split; [exact (Hget Sample.env_ok eq_refl)|].
  destruct (Himg Sample.cover eq_refl) as [Hurl _]. exact Hurl.
Defined.

(** X5.  A create is answered 201 or 400, or not at all: no response is
    sent exactly when the book field parses to [null] and the image, if
    any, was processed (reading the title of [null] throws outside every
    [try] of the handler); the upload is stored all the same.  Whenever the
    create is not answered 201 the collection of books is unchanged.  With
    a book field that does not parse nothing at all happens: the answer is
    the validation message and not even a supplied image is stored.  When
    sharp refuses the image, the answer is 400 with that error and no file
    is written. *)
Theorem X5_create_failures (env : Env) (uid : string) (req : BookRequest)
  (w : World) :
  (forall r, snd (post_book env uid req w) = Some r ->
             status r = 201 \/ status r = 400)
  /\ (snd (post_book env uid req w) = None
      <-> book_null req = true /\ body_book req <> None
          /\ (file req = None \/ sharp_fails env = None))
  /\ ((forall r, snd (post_book env uid req w) = Some r -> status r <> 201) ->
      books (fst (post_book env uid req w)) = books w)
  /\ (body_book req = None ->
      post_book env uid req w = (w, Some (res_status_json 400 invalid_json)))
  /\ (forall d f e,
         body_book req = Some d -> file req = Some f -> sharp_fails env = Some e ->
         snd (post_book env uid req w) = Some (res_status_json 400 (ErrorBody e))
         /\ images (fst (post_book env uid req w)) = images w
         /\ books (fst (post_book env uid req w)) = books w)
  /\ (forall d f,
         body_book req = Some d -> file req = Some f -> sharp_fails env = None ->
         book_null req = true ->
         snd (post_book env uid req w) = None
         /\ In (upload_filename env f) (images (fst (post_book env uid req w)))
         /\ books (fst (post_book env uid req w)) = books w).
Proof.
  unfold post_book.
  destruct (body_book req) as [d|].
  2:{ simpl. split; [intros r H; inversion H; subst; now right|].
      split; [split; [discriminate|intros [_ [H _]]; congruence]|].
      repeat split; auto; intros; discriminate. }
  destruct (file req) as [f|].
  - pose proof (compressImage_books env (buffer f) (upload_filename env f) w) as Hb.
    pose proof (compressImage_written env (buffer f) (upload_filename env f) w) as Hwr.
    unfold compressImage in *.
    destruct (sharp_fails env) as [e|]; simpl in *.
    + split; [intros r H; inversion H; subst; now right|].
      split; [split; [discriminate|intros [_ [_ [H|H]]]; discriminate]|].
      split; [reflexivity|]. split; [intros; discriminate|].
      split; [|intros; discriminate].
      intros d0 f0 e0 _ _ He. inversion He; subst. repeat split.
    + specialize (Hwr eq_refl).
      destruct (book_null req); simpl.
      { split; [intros r H; discriminate|].
        split; [split; [intros _; repeat split; [discriminate|now right]|reflexivity]|].
        split; [intros _; exact Hb|]. split; [intros; discriminate|].
        split; [intros; discriminate|].
        intros d0 f0 _ Hf _ _. inversion Hf; subst. repeat split; assumption. }
      unfold Book_insert. destruct (save_rejects env); simpl.
      * split; [intros r H; inversion H; subst; now right|].
        split; [split; [discriminate|intros [H _]; discriminate]|].
        split; [intros; exact Hb|].
        repeat split; intros; discriminate.
      * match goal with
        | |- context [existsb ?f ?l] => destruct (existsb f l)
        end; simpl.
        -- split; [intros r H; inversion H; subst; now right|].
           split; [split; [discriminate|intros [H _]; discriminate]|].
           split; [intros; exact Hb|].
           repeat split; intros; discriminate.
        -- split; [intros r H; inversion H; subst; now left|].
           split; [split; [discriminate|intros [H _]; discriminate]|].
           split; [intros H; exfalso; now apply (H _ eq_refl)|].
           repeat split; intros; discriminate.
  - destruct (book_null req); simpl.
    { split; [intros r H; discriminate|].
      split; [split; [intros _; repeat split; [discriminate|now left]|reflexivity]|].
      split; [reflexivity|].
      repeat split; intros; discriminate. }
    unfold Book_insert. destruct (save_rejects env); simpl.
    + split; [intros r H; inversion H; subst; now right|].
      split; [split; [discriminate|intros [H _]; discriminate]|].
      split; [reflexivity|]. repeat split; intros; discriminate.
    + destruct (existsb _ (books w)); simpl.
      * split; [intros r H; inversion H; subst; now right|].
        split; [split; [discriminate|intros [H _]; discriminate]|].
        split; [reflexivity|]. repeat split; intros; discriminate.
      * split; [intros r H; inversion H; subst; now left|].
        split; [split; [discriminate|intros [H _]; discriminate]|].
        split; [intros H; exfalso; now apply (H _ eq_refl)|].
        repeat split; intros; discriminate.
Qed.

Lemma X5_create_failures_witness :
  post_book Sample.env_ok "u2" Sample.req_file_bad_json Sample.world0
  = (Sample.world0, Some (res_status_json 400 invalid_json))
  /\ snd (post_book Sample.env_ok "u2" Sample.req_null Sample.world0) = None.
Proof.
  split.
  - destruct (X5_create_failures Sample.env_ok "u2" Sample.req_file_bad_json
                Sample.world0) as [_ [_ [_ [H _]]]].
    apply H. reflexivity.
  - destruct (X5_create_failures Sample.env_ok "u2" Sample.req_null
                Sample.world0) as [_ [H _]].
    apply H. repeat split; [discriminate|now left].
Defined.

Lemma option_eqb_refl {A : Type} (eqb : A -> A -> bool) (x : option A) :
  (forall a, eqb a a = true) -> option_eqb eqb x x = true.
Proof. intros H. destruct x; simpl; auto. Qed.

Lemma Q_eqb_refl (q : Q) : Qeq_bool q q = true.
Proof. apply Qeq_bool_iff. reflexivity. Qed.

Lemma Rating_eqb_refl (r : Rating.t) : Rating_eqb r r = true.
Proof. unfold Rating_eqb. now rewrite String.eqb_refl, Q_eqb_refl. Qed.

Lemma list_eqb_refl {A : Type} (eqb : A -> A -> bool) (l : list A) :
  (forall a, eqb a a = true) -> list_eqb eqb l l = true.
Proof. intros H. induction l as [|a tl IH]; simpl; [reflexivity|now rewrite H, IH]. Qed.

Lemma Book_eqb_refl (b : Book.t) : Book_eqb b b = true.
Proof.
  unfold Book_eqb.
  rewrite !String.eqb_refl, !(option_eqb_refl String.eqb) by apply String.eqb_refl.
  rewrite (option_eqb_refl Qeq_bool) by apply Q_eqb_refl.
  rewrite Q_eqb_refl, (list_eqb_refl Rating_eqb) by apply Rating_eqb_refl.
  reflexivity.
Qed.

Lemma apply_update_idempotent (d : UpdateDoc) (b : Book.t) :
  apply_update d (apply_update d b) = apply_update d b.
Proof.
  unfold apply_update. simpl.
  destruct (set_userId d), (set_title d), (set_author d), (set_genre d),
    (set_year d), (set_imageUrl d), (set_averageRating d), (set_ratings d);
    reflexivity.
Qed.

Lemma replace_first_In f b' l b :
  find f l = Some b -> In b' (replace_first f b' l).
Proof.
  induction l as [|a tl IH]; simpl; [discriminate|].
  destruct (f a); simpl; [now left|]. intros H. right. now apply IH.
Qed.

(** With unique identifiers and a filter that selects on one identifier,
    replacing the match by a document that the filter refuses leaves no
    match. *)
Lemma replace_first_unmatch f b' l b id :
  NoDup (map Book._id l) -> (forall x, f x = true -> Book._id x = id) ->
  find f l = Some b -> f b' = false ->
  find f (replace_first f b' l) = None.
Proof.
  intros Hnd Hid. induction l as [|a tl IH]; simpl; [discriminate|].
  inversion Hnd as [|? ? Hnotin Hnd']; subst.
  destruct (f a) eqn:Ea; intros Hb Hb'.
  - simpl. rewrite Hb'. apply find_none_iff. intros x Hx.
    destruct (f x) eqn:Ex; [|reflexivity].
    exfalso. apply Hnotin. rewrite (Hid a Ea), <- (Hid x Ex). now apply in_map.
  - simpl. rewrite Ea. now apply IH.
Qed.

Lemma put_book_data_no_file env req w :
  file req = None ->
  put_book_data env req w
  = (w, inr (match body_book req with Some d => d | None => body req end)).
Proof. intros H. unfold put_book_data. rewrite H. now destruct (body_book req). Qed.

(** X6.  An update without a file that was answered 200, sent again as it
    is, is answered 403 and changes nothing (the store call going through):
    either the stored book already has every value of the document, or the
    first update gave the book to another user. *)
Theorem X6_repeated_update_refused (env again : Env) (uid : string)
  (req : BookRequest) (w : World)
  (Hu : unique_ids w) (Hfile : file req = None)
  (Hstore : updateOne_rejects again = None)
  (Hfirst : status (snd (put_book env uid req w)) = 200) :
  put_book again uid req (fst (put_book env uid req w))
  = (fst (put_book env uid req w), forbidden_update).
Proof.
  unfold put_book in *. rewrite !put_book_data_no_file in * by assumption.
  remember (match body_book req with Some d => d | None => body req end) as d.
  clear Heqd. unfold Book_updateOne in *. rewrite Hstore.
  destruct (updateOne_rejects env); [discriminate|].
  destruct (find (by_id_and_user (params_id req) uid) (books w)) as [b|] eqn:Hf;
    [|discriminate].
  destruct (Book_eqb b (apply_update d b)) eqn:Eq; [discriminate|].
  simpl fst. simpl books.
  destruct (by_id_and_user (params_id req) uid (apply_update d b)) eqn:Eown.
  - rewrite (replace_first_find _ _ _ _ Hf Eown).
    now rewrite apply_update_idempotent, Book_eqb_refl.
  - rewrite (replace_first_unmatch _ _ _ b (params_id req) Hu); try assumption.
    + reflexivity.
    + intros x Hx. now apply by_id_and_user_true in Hx.
Qed.

Lemma X6_repeated_update_refused_witness :
  put_book Sample.env_ok "u1" (Sample.req_json Sample.doc_title)
    (fst (put_book Sample.env_ok "u1" (Sample.req_json Sample.doc_title) Sample.world0))
  = (fst (put_book Sample.env_ok "u1" (Sample.req_json Sample.doc_title) Sample.world0),
     forbidden_update).
Proof.
  apply X6_repeated_update_refused; try reflexivity.
  unfold unique_ids. simpl. constructor; [simpl; tauto|constructor].
Defined.

(** X7.  The update document may carry [userId].  When the owner's update
    sets it to another user, the answer is 200 and the book changes hands:
    afterwards the former owner owns no book of that identifier, the other
    user does, and a delete by the former owner is refused with 403. *)
Theorem X7_update_transfers_ownership (env : Env) (req : BookRequest)
  (w w1 : World) (b : Book.t) (d : UpdateDoc) (other : string)
  (Hu : unique_ids w) (Hin : In b (books w))
  (Hid : params_id req = Book._id b)
  (Hdata : put_book_data env req w = (w1, inr d))
  (Hset : set_userId d = Some other) (Hother : other <> Book.userId b)
  (Hstore : updateOne_rejects env = None) :
  exists w',
    put_book env (Book.userId b) req w
    = (w', res_status_json 200 (Message "Livre mis à jour avec succès !"))
    /\ ~ owns w' (Book.userId b) (Book._id b)
    /\ owns w' other (Book._id b)
    /\ (forall later,
           startSession_rejects later = None -> startTransaction_throws later = None ->
           find_rejects later = None ->
           delete_book later (Book.userId b) (Book._id b) w'
           = (w', Some forbidden_delete)).
Proof.
  pose proof (put_book_data_books env req w) as Hb. rewrite Hdata in Hb.
  simpl in Hb.
  assert (Hf : find (by_id_and_user (Book._id b) (Book.userId b)) (books w1) = Some b).
  { rewrite Hb. now apply find_owned_unique. }
  assert (Hneq : Book_eqb b (apply_update d b) = false).
  { unfold Book_eqb, apply_update. simpl. rewrite Hset. simpl.
    apply String.eqb_neq in Hother. rewrite String.eqb_sym in Hother.
    rewrite Hother, andb_false_r. reflexivity. }
  assert (Hlost : by_id_and_user (Book._id b) (Book.userId b) (apply_update d b) = false).
  { unfold by_id_and_user, apply_update. simpl. rewrite Hset. simpl.
    apply String.eqb_neq in Hother. rewrite Hother. apply andb_false_r. }
  unfold put_book. rewrite Hdata, Hid. unfold Book_updateOne.
  rewrite Hstore, Hf, Hneq. simpl.
  eexists. split; [reflexivity|].
  assert (Hno : ~ owns (with_books
                          (replace_first (by_id_and_user (Book._id b) (Book.userId b))
                             (apply_update d b) (books w1)) w1)
                  (Book.userId b) (Book._id b)).
  { apply not_owns_find. simpl.
    apply (replace_first_unmatch _ _ _ b (Book._id b)); try assumption.
    - unfold unique_ids in Hu. now rewrite Hb.
    - intros x Hx. now apply by_id_and_user_true in Hx. }
  split; [exact Hno|]. split.
  - exists (apply_update d b). simpl. split.
    + now apply replace_first_In with (b := b).
    + unfold apply_update. simpl. rewrite Hset. auto.
  - intros later H1 H2 H3.
    now apply (delete_book_not_owner later _ _ _ Hno).
Qed.

Lemma X7_update_transfers_ownership_witness :
  exists w',
    put_book Sample.env_ok "u1"
      (Sample.req_json
         {| set_userId := Some "u2"; set_title := None; set_author := None;
            set_genre := None; set_year := None; set_imageUrl := None;
            set_averageRating := None; set_ratings := None |})
      Sample.world0
    = (w', res_status_json 200 (Message "Livre mis à jour avec succès !"))
    /\ delete_book Sample.env_ok "u1" "A" w' = (w', Some forbidden_delete).
Proof.
  assert (Hu : unique_ids Sample.world0).
  { unfold unique_ids. simpl. constructor; [simpl; tauto|constructor]. }
  destruct (X7_update_transfers_ownership Sample.env_ok
              (Sample.req_json
                 {| set_userId := Some "u2"; set_title := None; set_author := None;
                    set_genre := None; set_year := None; set_imageUrl := None;
                    set_averageRating := None; set_ratings := None |})
              Sample.world0 Sample.world0 Sample.bookA _ "u2" Hu
              (or_introl eq_refl) eq_refl eq_refl eq_refl
              ltac:(discriminate) eq_refl) as [w' [E [_ [_ Hdel]]]].
  exists w'. split; [exact E|]. apply Hdel; reflexivity.
Defined.

Lemma put_book_data_images env req w x :
  In x (images w) -> In x (images (fst (put_book_data env req w))).
Proof.
  intros H. unfold put_book_data.
  destruct (file req) as [f|], (body_book req) as [d|]; simpl; try assumption.
  pose proof (compressImage_images env (buffer f) (upload_filename env f) w x H) as Hc.
  destruct (compressImage env (buffer f) (upload_filename env f) w) as [w1 [p|e]];
    simpl in *; assumption.
Qed.

Lemma updateOne_images env f d w w' r :
  Book_updateOne env f d w = Resolved (w', r) -> images w' = images w.
Proof.
  unfold Book_updateOne. destruct (updateOne_rejects env); [discriminate|].
  destruct (find f (books w)) as [b|]; [|intros H; now inversion H].
  destruct (Book_eqb b (apply_update d b)); intros H; now inversion H.
Qed.

(** X8.  Create, update and rating never remove a file from the images
    directory: every file that was there is still there afterwards (an
    update with a new image keeps the old one), and a rating leaves the
    directory exactly as it was. *)
Theorem X8_images_are_kept (env : Env) (uid : string) (w : World) (x : string)
  (Hx : In x (images w)) :
  (forall req, In x (images (fst (post_book env uid req w))))
  /\ (forall req, In x (images (fst (put_book env uid req w))))
  /\ (forall id rating, images (fst (post_rating env uid id rating w)) = images w).
Proof.
  split; [|split].
  - intros req. unfold post_book.
    destruct (body_book req) as [d|]; [|exact Hx].
    destruct (file req) as [f|].
    + pose proof (compressImage_images env (buffer f) (upload_filename env f) w x Hx)
        as Hc.
      destruct (compressImage env (buffer f) (upload_filename env f) w) as [w1 [p|e]];
        simpl in Hc; destruct (book_null req); try exact Hc.
      unfold Book_insert. destruct (save_rejects env); [exact Hc|].
      destruct (existsb _ (books w1)); exact Hc.
    + destruct (book_null req); [exact Hx|].
      unfold Book_insert. destruct (save_rejects env); [exact Hx|].
      destruct (existsb _ (books w)); exact Hx.
  - intros req. unfold put_book.
    pose proof (put_book_data_images env req w x Hx) as Hd.
    destruct (put_book_data env req w) as [w1 [early|d]]; simpl in Hd; [exact Hd|].
    destruct (Book_updateOne env _ d w1) as [[w2 r]|e] eqn:E; [|exact Hd].
    apply updateOne_images in E.
    destruct (nModified r =? 0)%nat; simpl; now rewrite E.
  - intros id rating. unfold post_rating.
    destruct rating as [|r]; [reflexivity|].
    destruct (num_ltb r 0 || num_ltb 5 r); [reflexivity|].
    unfold Book_findOne. destruct (find_rejects env); [reflexivity|].
    destruct (find (by_id id) (books w)) as [b|]; [|reflexivity].
    destruct (find _ (Book.ratings b)); [reflexivity|].
    unfold Book_save. destruct (save_rejects env); reflexivity.
Qed.

Lemma X8_images_are_kept_witness :
  In "1609459200000-lepetitprince.jpg"
    (images (fst (put_book Sample.env_ok "u1"
                    {| params_id := "A"; protocol := "http"; host := "localhost:3000";
                       file := Some Sample.cover; body_book := Some Sample.doc_title;
                       book_null := false; body := Sample.empty_doc |} Sample.world0))).
Proof.
  apply X8_images_are_kept. simpl. left. reflexivity.
Defined.

(** X9.  The image of an update is processed before the ownership filter
    is applied: an update by a requester who is not the owner, with a
    parseable book field and an image that sharp accepts, is answered 403
    and changes no book, and yet the uploaded file has been written to the
    images directory. *)
Theorem X9_refused_update_keeps_upload (env : Env) (uid : string)
  (req : BookRequest) (w : World) (f : File) (d : UpdateDoc)
  (Hno : ~ owns w uid (params_id req))
  (Hfile : file req = Some f) (Hparse : body_book req = Some d)
  (Hsharp : sharp_fails env = None) (Hstore : updateOne_rejects env = None) :
  snd (put_book env uid req w) = forbidden_update
  /\ books (fst (put_book env uid req w)) = books w
  /\ In (upload_filename env f) (images (fst (put_book env uid req w))).
Proof.
  destruct (put_book_not_owner env uid req w Hno) as [Hb [_ H403]].
  split; [apply H403; [right; split; [congruence|assumption]|assumption]|].
  split; [exact Hb|].
  apply not_owns_find in Hno.
  unfold put_book, put_book_data. rewrite Hfile, Hparse.
  pose proof (compressImage_written env (buffer f) (upload_filename env f) w Hsharp)
    as Hwr.
  pose proof (compressImage_books env (buffer f) (upload_filename env f) w) as Hbk.
  rewrite (compressImage_ok env _ _ w Hsharp) in *. simpl fst in Hwr, Hbk.
  remember (if existsb (String.eqb (upload_filename env f)) (images w) then w
            else with_images (images w ++ [upload_filename env f]) w) as w1.
  rewrite updateOne_no_match by (now rewrite Hbk).
  rewrite Hstore. simpl. exact Hwr.
Qed.

Lemma X9_refused_update_keeps_upload_witness :
  snd (put_book Sample.env_ok "u2"
         {| params_id := "A"; protocol := "http"; host := "localhost:3000";
            file := Some Sample.cover; body_book := Some Sample.doc_title;
            book_null := false; body := Sample.empty_doc |} Sample.world0) = forbidden_update
  /\ In "1700000000000-cover.png"
       (images (fst (put_book Sample.env_ok "u2"
                       {| params_id := "A"; protocol := "http"; host := "localhost:3000";
                          file := Some Sample.cover; body_book := Some Sample.doc_title;
                          book_null := false; body := Sample.empty_doc |} Sample.world0))).
Proof.
  assert (Hno : ~ owns Sample.world0 "u2" "A") by (apply not_owns_find; reflexivity).
  destruct (X9_refused_update_keeps_upload Sample.env_ok "u2"
              {| params_id := "A"; protocol := "http"; host := "localhost:3000";
                 file := Some Sample.cover; body_book := Some Sample.doc_title;
                 book_null := false; body := Sample.empty_doc |} Sample.world0 Sample.cover Sample.doc_title
              Hno eq_refl eq_refl eq_refl eq_refl) as [H1 [_ H3]].
  split; [exact H1|exact H3].
Defined.

(** ** Delete *)

Lemma remove_first_split f l b :
  find f l = Some b ->
  exists l1 l2, l = l1 ++ b :: l2 /\ remove_first f l = l1 ++ l2
                /\ (forall x, In x l1 -> f x = false).
Proof.
  induction l as [|a tl IH]; simpl; [discriminate|].
  destruct (f a) eqn:E.
  - intros H. inversion H; subst. exists [], tl. simpl. repeat split. intros x [].
  - intros H. destruct (IH H) as [l1 [l2 [H1 [H2 H3]]]].
    exists (a :: l1), l2. simpl. rewrite H1 at 1. rewrite H2. repeat split.
    intros x [<-|Hx]; auto.
Qed.

Lemma image_filename_empty (b : Book.t) :
  Book.imageUrl b = "" -> image_filename b = None.
Proof. intros H. unfold image_filename. now rewrite H. Qed.

Lemma fs_unlink_keeps env f w x :
  In x (images w) -> unlink_target env f <> InImages x ->
  In x (images (fs_unlink env f w)).
Proof.
  intros Hx Hne. unfold fs_unlink.
  destruct (unlink_fails env); [exact Hx|].
  destruct (unlink_target env f) as [name| |]; try exact Hx.
  destruct (existsb _ (images w)); [|exact Hx].
  simpl. apply filter_In. split; [exact Hx|].
  apply negb_true_iff. apply String.eqb_neq. congruence.
Qed.

(** X10.  A delete by the owner that goes through removes that one book
    and nothing else: the collection is the old one with the book taken out
    at its place, the users are untouched, and every image file is still
    there except the one that the file name read from the book's URL
    designates once [path.join] has normalised it; when that name is a
    plain one (no slash, not a dot segment) every image file of another
    name is still there and, the unlink going through, the file of that
    name is gone. *)
Theorem X10_delete_removes_one_book (env : Env) (w : World) (book : Book.t)
  (Hsession : startSession_rejects env = None)
  (Htx : startTransaction_throws env = None) (Hfind : find_rejects env = None)
  (Hdel : deleteOne_rejects env = None) (Hcommit : commitTransaction_rejects env = None)
  (Hu : unique_ids w) (Hin : In book (books w)) :
  exists w' before after,
    delete_book env (Book.userId book) (Book._id book) w = (w', Some deleted)
    /\ books w = before ++ book :: after
    /\ books w' = before ++ after
    /\ users w' = users w
    /\ (forall x, In x (images w) ->
          (forall fn, image_filename book = Some fn ->
                      unlink_target env fn <> InImages x) ->
          In x (images w'))
    /\ (forall fn name,
          image_filename book = Some fn -> fn <> "" ->
          unlink_target env fn = InImages name -> unlink_fails env = None ->
          ~ In name (images w'))
    /\ (forall fn,
          image_filename book = Some fn ->
          contains_char "/" fn = false -> fn <> "" -> fn <> "." -> fn <> ".." ->
          (forall x, In x (images w) -> x <> fn -> In x (images w'))
          /\ (unlink_fails env = None -> ~ In fn (images w'))).
Proof.
  rewrite (delete_book_owner_success env w book) by assumption.
  pose proof (find_by_id_unique w book Hu Hin) as Hf.
  destruct (remove_first_split _ _ _ Hf) as [l1 [l2 [H1 [H2 _]]]].
  eexists. exists l1, l2. split; [reflexivity|]. simpl.
  split; [exact H1|]. split; [exact H2|].
  split; [apply unlink_image_users|].
  assert (Hkeep : forall x, In x (images w) ->
            (forall fn, image_filename book = Some fn ->
                        unlink_target env fn <> InImages x) ->
            In x (images (unlink_image env (image_filename book) w))).
  { intros x Hx Hneq. unfold unlink_image.
    destruct (image_filename book) as [fn|]; [|exact Hx].
    destruct (truthy fn); [|exact Hx].
    apply fs_unlink_keeps; [exact Hx|]. now apply Hneq. }
  assert (Hgone : forall fn name,
            image_filename book = Some fn -> fn <> "" ->
            unlink_target env fn = InImages name -> unlink_fails env = None ->
            ~ In name (images (unlink_image env (image_filename book) w))).
  { intros fn name Hfn Hne Ht Hunlink. rewrite Hfn. unfold unlink_image, truthy.
    apply String.eqb_neq in Hne. rewrite Hne. simpl negb. cbv iota.
    pose proof (fs_unlink_effect env fn w) as Heff. rewrite Hunlink in Heff.
    now apply Heff. }
  split; [exact Hkeep|]. split; [exact Hgone|].
  intros fn Hfn Hs H0 Hd Hdd.
  pose proof (unlink_target_plain env fn Hs H0 Hd Hdd) as Ht. split.
  - intros x Hx Hne. apply Hkeep; [exact Hx|].
    intros fn' Hfn'. rewrite Hfn in Hfn'. inversion Hfn'; subst fn'.
    rewrite Ht. congruence.
  - intros Hunlink. now apply (Hgone fn fn).
Qed.

Lemma X10_delete_removes_one_book_witness :
  (exists w',
      delete_book Sample.env_ok "u1" "A" Sample.world0 = (w', Some deleted)
      /\ books w' = [] /\ users w' = users Sample.world0
      /\ ~ In "1609459200000-lepetitprince.jpg" (images w'))
  /\ (exists w',
         delete_book Sample.env_ok "u1" "A" Sample.world_dot = (w', Some deleted)
         /\ image_filename Sample.bookA_dot
            = Some "./1609459200000-lepetitprince.jpg"
         /\ ~ In "1609459200000-lepetitprince.jpg" (images w')).
Proof.
  split.
  - assert (Hu : unique_ids Sample.world0).
    { unfold unique_ids. simpl. constructor; [simpl; tauto|constructor]. }
    destruct (X10_delete_removes_one_book Sample.env_ok Sample.world0 Sample.bookA
                eq_refl eq_refl eq_refl eq_refl eq_refl Hu (or_introl eq_refl))
      as [w' [l1 [l2 [E [H1 [H2 [H3 [_ [_ H4]]]]]]]]].
    exists w'. split; [exact E|]. split; [|split; [exact H3|]].
    + rewrite H2. destruct l1 as [|a l1].
      * simpl in H1. inversion H1. reflexivity.
      * simpl in H1. inversion H1 as [[Ha Hl]]. destruct l1; discriminate.
    + destruct (H4 "1609459200000-lepetitprince.jpg" eq_refl eq_refl) as [_ Hgone];
        try discriminate.
      now apply Hgone.
  - assert (Hu : unique_ids Sample.world_dot).
    { unfold unique_ids. simpl. constructor; [simpl; tauto|constructor]. }
    destruct (X10_delete_removes_one_book Sample.env_ok Sample.world_dot
                Sample.bookA_dot
                eq_refl eq_refl eq_refl eq_refl eq_refl Hu (or_introl eq_refl))
      as [w' [l1 [l2 [E [_ [_ [_ [_ [Hgone _]]]]]]]]].
    exists w'. split; [exact E|]. split; [reflexivity|].
    apply (Hgone "./1609459200000-lepetitprince.jpg"); try reflexivity.
    discriminate.
Defined.

(** X11.  The image is unlinked before the record is deleted and outside
    the transaction.  When the unlink goes through and the removal of the
    record is then rejected, the answer is 500, the book is still stored,
    and its image file is gone.  When the removal goes through and the
    commit is rejected, the book is still stored and its image file is
    gone as well, and the request is left without a response: the abort of
    the catch block throws after a commit was attempted. *)
Theorem X11_failed_delete_loses_image (env : Env) (w : World) (book : Book.t)
  (fn name : string)
  (Hsession : startSession_rejects env = None)
  (Htx : startTransaction_throws env = None) (Hfind : find_rejects env = None)
  (Hunlink : unlink_fails env = None)
  (Hu : unique_ids w) (Hin : In book (books w))
  (Hfn : image_filename book = Some fn) (Hne : fn <> "")
  (Htarget : unlink_target env fn = InImages name) :
  (forall e, deleteOne_rejects env = Some e ->
     exists w',
       delete_book env (Book.userId book) (Book._id book) w
       = (w', Some (res_status_json 500 (ErrorBody e)))
       /\ books w' = books w
       /\ ~ In name (images w'))
  /\ (deleteOne_rejects env = None -> commitTransaction_rejects env <> None ->
      exists w',
        delete_book env (Book.userId book) (Book._id book) w = (w', None)
        /\ books w' = books w
        /\ ~ In name (images w')).
Proof.
  assert (Ht : truthy fn = true).
  { unfold truthy. apply negb_true_iff. now apply String.eqb_neq. }
  pose proof (fs_unlink_effect env fn w) as Heff. rewrite Hunlink in Heff.
  destruct (Heff name Htarget) as [Hgone _].
  unfold delete_book, Book_findOne, Book_deleteOne, delete_catch.
  rewrite Hsession, Htx, Hfind, (find_owned_unique w book Hu Hin), Hfn.
  unfold unlink_image. rewrite Ht. split.
  - intros e ->. simpl. eexists. split; [reflexivity|]. simpl.
    split; [apply fs_unlink_books|exact Hgone].
  - intros -> Hc.
    destruct (commitTransaction_rejects env) as [e|]; [|congruence].
    simpl. eexists. split; [reflexivity|].
    split; [apply fs_unlink_books|exact Hgone].
Qed.

Lemma X11_failed_delete_loses_image_witness :
  (exists w',
      delete_book Sample.env_delete_fails "u1" "A" Sample.world0
      = (w', Some (res_status_json 500 (ErrorBody "MongoNetworkError")))
      /\ books w' = books Sample.world0
      /\ ~ In "1609459200000-lepetitprince.jpg" (images w'))
  /\ (exists w',
         delete_book Sample.env_commit_fails "u1" "A" Sample.world0 = (w', None)
         /\ books w' = books Sample.world0
         /\ ~ In "1609459200000-lepetitprince.jpg" (images w')).
Proof.
  assert (Hu : unique_ids Sample.world0).
  { unfold unique_ids. simpl. constructor; [simpl; tauto|constructor]. }
  assert (Hin : In Sample.bookA (books Sample.world0)).
  { simpl. left. reflexivity. }
  split.
  - destruct (X11_failed_delete_loses_image Sample.env_delete_fails Sample.world0
                Sample.bookA "1609459200000-lepetitprince.jpg"
                "1609459200000-lepetitprince.jpg"
                eq_refl eq_refl eq_refl eq_refl Hu Hin eq_refl
                ltac:(discriminate) eq_refl) as [H _].
    apply H. reflexivity.
  - destruct (X11_failed_delete_loses_image Sample.env_commit_fails Sample.world0
                Sample.bookA "1609459200000-lepetitprince.jpg"
                "1609459200000-lepetitprince.jpg"
                eq_refl eq_refl eq_refl eq_refl Hu Hin eq_refl
                ltac:(discriminate) eq_refl) as [_ H].
    apply H; [reflexivity|discriminate].
Defined.

(** X12.  A book stored without an image URL (the create without a file)
    is deleted without any file operation: the images directory and the
    console are exactly as before. *)
Theorem X12_delete_without_image (env : Env) (w : World) (book : Book.t)
  (Hsession : startSession_rejects env = None)
  (Htx : startTransaction_throws env = None) (Hfind : find_rejects env = None)
  (Hdel : deleteOne_rejects env = None) (Hcommit : commitTransaction_rejects env = None)
  (Hu : unique_ids w) (Hin : In book (books w))
  (Hurl : Book.imageUrl book = "") :
  exists w',
    delete_book env (Book.userId book) (Book._id book) w = (w', Some deleted)
    /\ images w' = images w /\ console w' = console w.
Proof.
  rewrite (delete_book_owner_success env w book) by assumption.
  rewrite (image_filename_empty book Hurl). eexists. split; [reflexivity|].
  split; reflexivity.
Qed.

Lemma X12_delete_without_image_witness :
  exists w',
    delete_book Sample.env_unlink_fails "u2" "B"
      (fst (post_book Sample.env_ok "u2"
              {| params_id := ""; protocol := "http"; host := "localhost:3000";
                 file := None; body_book := Some Sample.doc_title;
                 book_null := false; body := Sample.empty_doc |} Sample.world0))
    = (w', Some deleted)
    /\ images w' = images Sample.world0 /\ console w' = [].
Proof.
  assert (Hu : unique_ids
                 (fst (post_book Sample.env_ok "u2"
                         {| params_id := ""; protocol := "http";
                            host := "localhost:3000"; file := None;
                            body_book := Some Sample.doc_title;
                            book_null := false; body := Sample.empty_doc |} Sample.world0))).
  { unfold unique_ids. simpl.
    constructor; [simpl; intros [H|[]]; discriminate|].
    constructor; [simpl; tauto|constructor]. }
  destruct (X12_delete_without_image Sample.env_unlink_fails _
              {| Book._id := "B"; Book.userId := "u2"; Book.title := Some "Vol de nuit";
                 Book.author := None; Book.genre := None; Book.year := None;
                 Book.imageUrl := ""; Book.averageRating := 0%Q; Book.ratings := [] |}
              eq_refl eq_refl eq_refl eq_refl eq_refl Hu
              (or_intror (or_introl eq_refl)) eq_refl) as [w' [E [Hi Hc]]].
  exists w'. split; [exact E|]. split; [exact Hi|exact Hc].
Defined.

Lemma remove_first_app_absent f l b :
  existsb f l = false -> f b = true -> remove_first f (l ++ [b]) = l.
Proof.
  induction l as [|a tl IH]; simpl; intros H Hb.
  - now rewrite Hb.
  - apply orb_false_iff in H. destruct H as [Ha Htl]. rewrite Ha.
    now rewrite IH.
Qed.

Lemma existsb_owned_false (id uid : string) (l : list Book.t) :
  existsb (by_id id) l = false -> existsb (by_id_and_user id uid) l = false.
Proof.
  induction l as [|a tl IH]; simpl; [reflexivity|].
  intros H. apply orb_false_iff in H. destruct H as [Ha Htl].
  unfold by_id in Ha. unfold by_id_and_user at 1. rewrite Ha. simpl. now apply IH.
Qed.

(** X13.  The file name that the delete handler reads back from
    [imageUrl] is the name under which the create handler stored the
    upload, provided the protocol, the host and the original file name
    contain no slash and the host is not ["images"].  So a create with an
    image that was answered 201, followed by a delete by the same user that
    goes through, restores the collection of books and leaves no file of
    the upload's name, while every other image file is kept. *)
Theorem X13_upload_then_delete (env later : Env) (uid : string)
  (req : BookRequest) (f : File) (w w1 : World) (r : Response)
  (Hpost : post_book env uid req w = (w1, Some r)) (Hcreated : status r = 201)
  (Hfile : file req = Some f)
  (Hproto : contains_char "/" (protocol req) = false)
  (Hhost : contains_char "/" (host req) = false)
  (Hhostne : host req <> "images")
  (Hname : contains_char "/" (originalname f) = false)
  (Hsession : startSession_rejects later = None)
  (Htx : startTransaction_throws later = None) (Hfind : find_rejects later = None)
  (Hdel : deleteOne_rejects later = None)
  (Hcommit : commitTransaction_rejects later = None)
  (Hunlink : unlink_fails later = None) :
  exists b w2,
    In b (books w1)
    /\ image_filename b = Some (upload_filename env f)
    /\ In (upload_filename env f) (images w1)
    /\ delete_book later uid (new_id env) w1 = (w2, Some deleted)
    /\ books w2 = books w
    /\ ~ In (upload_filename env f) (images w2)
    /\ (forall x, In x (images w) -> x <> upload_filename env f -> In x (images w2)).
Proof.
  destruct (post_book_success env uid req w w1 r Hpost Hcreated)
    as (d & b & _ & Hbooks & Hnew & Hid & Huid & _ & _ & _ & _ & _ & _ & _ & Himg & _).
  destruct (Himg f Hfile) as [Hurl Hwritten].
  assert (Hfn : image_filename b = Some (upload_filename env f)).
  { apply (image_filename_of_upload req); try assumption.
    now apply upload_filename_no_slash. }
  assert (Habsent : existsb (by_id (new_id env)) (books w) = false).
  { destruct (existsb (by_id (new_id env)) (books w)) eqn:E; [|reflexivity].
    exfalso. apply Hnew. apply existsb_exists in E. destruct E as [x [Hx E]].
    exists x. split; [assumption|]. apply by_id_true in E. congruence. }
  assert (Hfound : find (by_id_and_user (new_id env) uid) (books w1) = Some b).
  { rewrite Hbooks. apply find_app_absent.
    - now apply existsb_owned_false.
    - apply by_id_and_user_true. auto. }
  exists b. eexists. split; [rewrite Hbooks; apply in_or_app; right; now left|].
  split; [exact Hfn|]. split; [exact Hwritten|].
  unfold delete_book, Book_findOne, Book_deleteOne.
  rewrite Hsession, Htx, Hfind, Hfound, Hdel, Hcommit, Hfn.
  unfold unlink_image. rewrite upload_filename_truthy.
  split; [reflexivity|]. simpl.
  pose proof (fs_unlink_effect later (upload_filename env f) w1) as Heff.
  rewrite Hunlink in Heff.
  destruct (upload_filename_plain env f) as [Hp0 [Hp1 Hp2]].
  destruct (Heff (upload_filename env f)) as [Hgone Hothers].
  { apply unlink_target_plain; try assumption.
    now apply upload_filename_no_slash. }
  split; [|split; [exact Hgone|]].
  - rewrite fs_unlink_books, Hbooks.
    apply remove_first_app_absent; [exact Habsent|].
    now apply by_id_true.
  - intros x Hx Hne.
    assert (Hx1 : In x (images w1)).
    { pose proof (X := compressImage_images env (buffer f) (upload_filename env f) w x Hx).
      unfold post_book in Hpost.
      destruct (body_book req); [|inversion Hpost; subst; discriminate].
      rewrite Hfile in Hpost.
      destruct (compressImage env (buffer f) (upload_filename env f) w) as [w0 [p|e]];
        simpl in X; [|inversion Hpost; subst; discriminate].
      destruct (book_null req); [inversion Hpost|].
      unfold Book_insert in Hpost.
      destruct (save_rejects env); [inversion Hpost; subst; discriminate|].
      destruct (existsb _ (books w0)); inversion Hpost; subst; [discriminate|].
      exact X. }
    now apply Hothers.
Qed.

Lemma X13_upload_then_delete_witness :
  exists w2,
    delete_book Sample.env_ok "u2" "B"
      (fst (post_book Sample.env_ok "u2"
              {| params_id := ""; protocol := "http"; host := "localhost:3000";
                 file := Some Sample.cover; body_book := Some Sample.doc_title;
                 book_null := false; body := Sample.empty_doc |} Sample.world0))
    = (w2, Some deleted)
    /\ books w2 = books Sample.world0
    /\ ~ In "1700000000000-cover.png" (images w2).
Proof.
  destruct (X13_upload_then_delete Sample.env_ok Sample.env_ok "u2"
              {| params_id := ""; protocol := "http"; host := "localhost:3000";
                 file := Some Sample.cover; body_book := Some Sample.doc_title;
                 book_null := false; body := Sample.empty_doc |} Sample.cover Sample.world0 _ _
              eq_refl eq_refl eq_refl eq_refl eq_refl ltac:(discriminate) eq_refl
              eq_refl eq_refl eq_refl eq_refl eq_refl eq_refl)
    as (b & w2 & _ & _ & _ & E & Hb & Hgone & _).
  exists w2. split; [exact E|]. split; [exact Hb|exact Hgone].
Defined.

(** ** Ratings *)

Lemma number_of_nat_succ (k : nat) :
  (number_of_nat (S k) == number_of_nat k + 1)%Q.
Proof.
  unfold number_of_nat. rewrite Nat2Z.inj_succ, <- Z.add_1_r, inject_Z_plus.
  reflexivity.
Qed.

Lemma number_of_nat_pos (k : nat) : (0 < number_of_nat (S k))%Q.
Proof. unfold number_of_nat, Qlt. simpl. lia. Qed.

Lemma sum_grades_bounds (l : list number) :
  Forall (fun g => (0 <= g)%Q /\ (g <= 5)%Q) l ->
  (0 <= sum_grades l)%Q /\ (sum_grades l <= 5 * number_of_nat (List.length l))%Q.
Proof.
  induction 1 as [|g tl [Hg0 Hg5] _ [IH0 IH5]]; simpl sum_grades; simpl List.length.
  - split; [apply Qle_refl|]. unfold number_of_nat, Qle. simpl. lia.
  - split.
    + rewrite <- (Qplus_0_l 0). now apply Qplus_le_compat.
    + rewrite number_of_nat_succ.
      setoid_replace (5 * (number_of_nat (List.length tl) + 1))%Q
        with (5 + 5 * number_of_nat (List.length tl))%Q by ring.
      now apply Qplus_le_compat.
Qed.

Lemma mean_bounds (l : list number) :
  Forall (fun g => (0 <= g)%Q /\ (g <= 5)%Q) l ->
  (0 <= mean l)%Q /\ (mean l <= 5)%Q.
Proof.
  intros H. destruct (sum_grades_bounds l H) as [H0 H5].
  destruct l as [|g tl]; [split; [apply Qle_refl|discriminate]|].
  unfold mean. split.
  - apply Qle_shift_div_l; [apply number_of_nat_pos|].
    now rewrite Qmult_0_l.
  - apply Qle_shift_div_r; [apply number_of_nat_pos|exact H5].
Qed.

(** *** Rounding keeps a value between 0 and an integer below [2^53] *)

Lemma pow2_pos (e : Z) : (0 < pow2 e)%Q.
Proof.
  destruct e as [|p|p]; simpl; [reflexivity| |reflexivity].
  unfold Qlt. simpl. rewrite Z.mul_1_r.
  change (Z.pow_pos 2 p) with (2 ^ Zpos p)%Z. apply Z.pow_pos_nonneg; lia.
Qed.

Lemma round_half_even_nonneg (x : Q) : (0 <= x)%Q -> (0 <= round_half_even x)%Z.
Proof.
  intros H. unfold round_half_even.
  assert (Hf : (0 <= Qfloor x)%Z).
  { change 0%Z with (Qfloor 0). now apply Qfloor_resp_le. }
  destruct (Qcompare _ _); [destruct (Z.even _)| |]; lia.
Qed.

Lemma round_half_even_le (x : Q) (k : Z) :
  (x <= inject_Z k)%Q -> (round_half_even x <= k)%Z.
Proof.
  intros H. unfold round_half_even.
  assert (Hf : (Qfloor x <= k)%Z).
  { rewrite <- (Qfloor_Z k). now apply Qfloor_resp_le. }
  destruct (Z.eq_dec (Qfloor x) k) as [E|N].
  - assert (Hx : (x == inject_Z k)%Q).
    { apply Qle_antisym; [exact H|]. rewrite <- E. apply Qfloor_le. }
    assert (Hc : Qcompare (x - inject_Z (Qfloor x)) (1 # 2) = Lt).
    { rewrite E, Hx. apply Qlt_alt. 
      setoid_replace (inject_Z k - inject_Z k)%Q with 0%Q by ring. reflexivity. }
    rewrite Hc. exact Hf.
  - destruct (Qcompare _ _); [destruct (Z.even _)| |]; lia.
Qed.

Lemma binade_small (c : Q) (z : Z) :
  (0 < Qnum c)%Z -> (c <= inject_Z z)%Q -> (z < 2 ^ 53)%Z -> (binade c <= 52)%Z.
Proof.
  intros Hpos Hle Hz. unfold binade.
  set (e0 := (Z.log2 (Qnum c) - Z.log2 (Zpos (Qden c)))%Z).
  assert (He0 : (e0 <= 53)%Z).
  { unfold Qle in Hle. simpl in Hle. rewrite Z.mul_1_r in Hle.
    assert (Hn : (Qnum c < 2 ^ (53 + Z.log2 (Zpos (Qden c)) + 1))%Z).
    { eapply Z.le_lt_trans; [exact Hle|].
      pose proof (Z.log2_nonneg (Zpos (Qden c))) as Hl.
      replace (53 + Z.log2 (Z.pos (Qden c)) + 1)%Z
        with (53 + (Z.log2 (Z.pos (Qden c)) + 1))%Z by lia.
      rewrite Z.pow_add_r by lia.
      pose proof (Z.log2_spec (Zpos (Qden c)) ltac:(lia)) as [_ Hd].
      rewrite <- Z.add_1_r in Hd.
      apply Z.mul_lt_mono_nonneg; lia. }
    apply Z.log2_lt_pow2 in Hn; [|exact Hpos]. unfold e0. lia. }
  destruct (Qle_bool (pow2 e0) c) eqn:E; [|lia].
  apply Qle_bool_iff in E.
  destruct (Z_le_gt_dec e0 52) as [|Hgt]; [assumption|exfalso].
  assert (e0 = 53%Z) by lia. 
  assert (H53 : (pow2 e0 <= inject_Z z)%Q) by (eapply Qle_trans; eassumption).
  rewrite H in H53. unfold pow2 in H53. rewrite <- Zle_Qle in H53. lia.
Qed.

Lemma round53_le (c : Q) (z : Z) :
  (0 < Qnum c)%Z -> (c <= inject_Z z)%Q -> (z < 2 ^ 53)%Z ->
  (round53 c <= inject_Z z)%Q.
Proof.
  intros Hpos Hle Hz. unfold round53.
  pose proof (binade_small c z Hpos Hle Hz) as Hb.
  set (e := Z.max (binade c - 52) (-1074)).
  assert (He : (e <= 0)%Z) by (unfold e; lia).
  pose proof (pow2_pos e) as Hp.
  assert (Hk : (inject_Z z / pow2 e == inject_Z (z * 2 ^ (- e)))%Q).
  { destruct e as [|p|p]; [|lia|].
    - simpl. rewrite Z.mul_1_r. field.
    - simpl. unfold Qdiv, Qinv. simpl. rewrite inject_Z_mult.
      change (Z.pow_pos 2 p) with (2 ^ Zpos p)%Z.
      rewrite Pos2Z.inj_pow. reflexivity. }
  apply Qle_trans with (inject_Z (z * 2 ^ (- e)) * pow2 e)%Q.
  - apply Qmult_le_compat_r; [|now apply Qlt_le_weak].
    rewrite <- Zle_Qle. apply round_half_even_le. rewrite <- Hk.
    apply Qmult_le_compat_r; [exact Hle|].
    apply Qlt_le_weak. now apply Qinv_lt_0_compat.
  - rewrite <- Hk. apply Qle_lteq. right. field.
    intros E. rewrite E in Hp. discriminate.
Qed.

Lemma Qred_sign (x : Q) : (0 <= x)%Q -> (0 <= Qnum (Qred x))%Z.
Proof.
  intros H. rewrite <- (Qred_correct x) in H.
  unfold Qle in H. simpl in H. lia.
Qed.

Lemma fl_nonneg (x : Q) : (0 <= x)%Q -> (0 <= fl x)%Q.
Proof.
  intros H. apply Qred_sign in H. unfold fl.
  destruct (Qnum (Qred x)) as [|p|p] eqn:E; [apply Qle_refl| |lia].
  rewrite Qred_correct. unfold round53.
  apply Qmult_le_0_compat; [|apply Qlt_le_weak, pow2_pos].
  change 0%Q with (inject_Z 0). rewrite <- Zle_Qle.
  apply round_half_even_nonneg.
  apply Qle_shift_div_l; [apply pow2_pos|]. rewrite Qmult_0_l.
  unfold Qle. simpl. lia.
Qed.

Lemma fl_le_int (x : Q) (z : Z) :
  (0 <= x)%Q -> (x <= inject_Z z)%Q -> (z < 2 ^ 53)%Z -> (fl x <= inject_Z z)%Q.
Proof.
  intros H0 Hle Hz.
  assert (Hz0 : (0 <= inject_Z z)%Q) by (eapply Qle_trans; eassumption).
  pose proof (Qred_sign x H0) as Hs. unfold fl.
  destruct (Qnum (Qred x)) as [|p|p] eqn:E; [exact Hz0| |lia].
  rewrite Qred_correct. apply round53_le; [lia| |exact Hz].
  now rewrite Qred_correct.
Qed.

Lemma fold_fl_bounds (l : list Q) (acc : Q) (k : Z) :
  Forall (fun g => (0 <= g)%Q /\ (g <= 5)%Q) l ->
  (0 <= k)%Z -> (5 * (k + Z.of_nat (List.length l)) < 2 ^ 53)%Z ->
  (0 <= acc)%Q -> (acc <= inject_Z (5 * k))%Q ->
  (0 <= fold_left (fun a g => fl (a + g)) l acc)%Q
  /\ (fold_left (fun a g => fl (a + g)) l acc
      <= inject_Z (5 * (k + Z.of_nat (List.length l))))%Q.
Proof.
  intros Hl. revert acc k.
  induction Hl as [|g tl [Hg0 Hg5] _ IH]; intros acc k Hk Hfit Ha0 Ha5.
  - simpl. rewrite Z.add_0_r. split; assumption.
  - simpl fold_left. simpl List.length in *. rewrite Nat2Z.inj_succ in *.
    replace (k + Z.succ (Z.of_nat (List.length tl)))%Z
      with ((k + 1) + Z.of_nat (List.length tl))%Z in * by lia.
    assert (Hs0 : (0 <= acc + g)%Q).
    { rewrite <- (Qplus_0_l 0). now apply Qplus_le_compat. }
    assert (Hs5 : (acc + g <= inject_Z (5 * (k + 1)))%Q).
    { replace (5 * (k + 1))%Z with (5 * k + 5)%Z by lia.
      rewrite inject_Z_plus. now apply Qplus_le_compat. }
    apply IH; [lia|exact Hfit|now apply fl_nonneg|].
    apply fl_le_int; [exact Hs0|exact Hs5|lia].
Qed.

Lemma double_mean_bounds (l : list Q) :
  Forall (fun g => (0 <= g)%Q /\ (g <= 5)%Q) l ->
  (Z.of_nat (List.length l) < 2 ^ 32)%Z ->
  (0 <= double_mean l)%Q /\ (double_mean l <= 5)%Q.
Proof.
  intros Hl Hfit.
  destruct (fold_fl_bounds l 0%Q 0%Z Hl) as [H0 H5];
    [lia|lia|apply Qle_refl|apply Qle_refl|].
  destruct l as [|g tl]; [split; [apply Qle_refl|discriminate]|].
  unfold double_mean. fold (double_sum (g :: tl)) in H0, H5.
  set (n := Z.of_nat (List.length (g :: tl))) in *.
  assert (Hn : (0 < inject_Z n)%Q).
  { change 0%Q with (inject_Z 0). rewrite <- Zlt_Qlt. unfold n. simpl. lia. }
  assert (Hq0 : (0 <= double_sum (g :: tl) / inject_Z n)%Q).
  { apply Qle_shift_div_l; [exact Hn|]. now rewrite Qmult_0_l. }
  assert (Hq5 : (double_sum (g :: tl) / inject_Z n <= inject_Z 5)%Q).
  { apply Qle_shift_div_r; [exact Hn|].
    rewrite <- inject_Z_mult. exact H5. }
  split; [now apply fl_nonneg|].
  change 5%Q with (inject_Z 5). apply fl_le_int; [exact Hq0|exact Hq5|lia].
Qed.

Lemma grades_in_range_map (b : Book.t) :
  grades_in_range b -> Forall (fun g => (0 <= g)%Q /\ (g <= 5)%Q) (grades b).
Proof.
  unfold grades_in_range, grades. intros H.
  induction H as [|r tl Hr _ IH]; simpl; constructor; assumption.
Qed.

Lemma in_range_bounds (r : number) :
  num_ltb r 0 || num_ltb 5 r = false -> (0 <= r)%Q /\ (r <= 5)%Q.
Proof.
  unfold num_ltb. intros H. apply orb_false_iff in H. destruct H as [H0 H5].
  apply negb_false_iff in H0, H5. split; now apply Qle_bool_iff.
Qed.

(** The shape of a rating that goes through. *)
Lemma post_rating_success env uid id rating w w' resp :
  post_rating env uid id rating w = (w', resp) -> status resp = 200 ->
  exists r book,
    rating = JNum r
    /\ (0 <= r)%Q /\ (r <= 5)%Q
    /\ find (by_id id) (books w) = Some book
    /\ find (fun x => Rating.userId x =? uid) (Book.ratings book) = None
    /\ let ratings :=
         Book.ratings book ++ [ {| Rating.userId := uid; Rating.grade := r |} ] in
       let book' :=
         {| Book._id := Book._id book;
            Book.userId := Book.userId book;
            Book.title := Book.title book;
            Book.author := Book.author book;
            Book.genre := Book.genre book;
            Book.year := Book.year book;
            Book.imageUrl := Book.imageUrl book;
            Book.averageRating :=
              fl (reduce_grades ratings / number_of_nat (List.length ratings));
            Book.ratings := ratings |} in
       resp = res_status_json 200 (BookBody book')
       /\ w' = with_books (replace_first (by_id (Book._id book)) book' (books w)) w.
Proof.
  unfold post_rating.
  destruct rating as [|r]; [intros H; inversion H; subst; discriminate|].
  destruct (num_ltb r 0 || num_ltb 5 r) eqn:Er;
    [intros H; inversion H; subst; discriminate|].
  apply in_range_bounds in Er. destruct Er as [H0 H5].
  unfold Book_findOne. destruct (find_rejects env);
    [intros H; inversion H; subst; discriminate|].
  destruct (find (by_id id) (books w)) as [b|] eqn:Hf;
    [|intros H; inversion H; subst; discriminate].
  destruct (find _ (Book.ratings b)) eqn:Hr;
    [intros H; inversion H; subst; discriminate|].
  unfold Book_save. destruct (save_rejects env);
    [intros H; inversion H; subst; discriminate|].
  intros H _. inversion H; subst. exists r, b. repeat split; assumption.
Qed.

Lemma find_none_not_in_map (uid : string) (l : list Rating.t) :
  find (fun x => Rating.userId x =? uid) l = None -> ~ In uid (map Rating.userId l).
Proof.
  intros H Hin. apply in_map_iff in Hin. destruct Hin as [x [Hx Hin]].
  apply find_none with (x := x) in H; [|assumption].
  apply String.eqb_neq in H. contradiction.
Qed.

Lemma rated_ratings_unique (b : Book.t) (uid : string) (r : number) :
  ratings_unique b ->
  find (fun x => Rating.userId x =? uid) (Book.ratings b) = None ->
  NoDup (map Rating.userId
           (Book.ratings b ++ [ {| Rating.userId := uid; Rating.grade := r |} ])).
Proof.
  intros Hb Hnone. rewrite map_app. simpl.
  apply find_none_not_in_map in Hnone.
  apply NoDup_app; [exact Hb|constructor; [intros []|constructor]|].
  intros x Hx [<-|[]]. contradiction.
Qed.

Lemma post_rating_ratings_unique env uid id rating w :
  Forall ratings_unique (books w) ->
  Forall ratings_unique (books (fst (post_rating env uid id rating w))).
Proof.
  intros Hw. unfold post_rating.
  destruct rating as [|r]; [exact Hw|].
  destruct (num_ltb r 0 || num_ltb 5 r); [exact Hw|].
  unfold Book_findOne. destruct (find_rejects env); [exact Hw|].
  destruct (find (by_id id) (books w)) as [b|] eqn:Hf; [|exact Hw].
  destruct (find _ (Book.ratings b)) eqn:Hr; [exact Hw|].
  unfold Book_save. destruct (save_rejects env); [exact Hw|].
  simpl. apply replace_first_Forall; [exact Hw|].
  unfold ratings_unique. simpl. apply rated_ratings_unique; [|exact Hr].
  apply find_some in Hf. destruct Hf as [Hin _].
  rewrite Forall_forall in Hw. now apply Hw.
Qed.

Lemma post_rating_grades_in_range env uid id rating w :
  Forall grades_in_range (books w) ->
  Forall grades_in_range (books (fst (post_rating env uid id rating w))).
Proof.
  intros Hw. unfold post_rating.
  destruct rating as [|r]; [exact Hw|].
  destruct (num_ltb r 0 || num_ltb 5 r) eqn:Er; [exact Hw|].
  apply in_range_bounds in Er.
  unfold Book_findOne. destruct (find_rejects env); [exact Hw|].
  destruct (find (by_id id) (books w)) as [b|] eqn:Hf; [|exact Hw].
  destruct (find _ (Book.ratings b)) eqn:Hr; [exact Hw|].
  unfold Book_save. destruct (save_rejects env); [exact Hw|].
  simpl. apply replace_first_Forall; [exact Hw|].
  unfold grades_in_range. simpl. apply Forall_app. split.
  - apply find_some in Hf. destruct Hf as [Hin _].
    rewrite Forall_forall in Hw. now apply Hw.
  - constructor; [exact Er|constructor].
Qed.

(** X14.  One rating per user: if no stored book has two ratings of the
    same user, a rating request never makes it so; after a rating that was
    answered 200 the returned book has exactly one entry of the requester,
    the last one, and one entry more than before. *)
Theorem X14_one_rating_per_user (env : Env) (uid id : string) (rating : jsval)
  (w : World) (Hw : Forall ratings_unique (books w)) :
  Forall ratings_unique (books (fst (post_rating env uid id rating w)))
  /\ (forall w' resp,
         post_rating env uid id rating w = (w', resp) -> status resp = 200 ->
         exists old new r,
           find (by_id id) (books w) = Some old
           /\ resp = res_status_json 200 (BookBody new)
           /\ Book.ratings new
              = Book.ratings old ++ [ {| Rating.userId := uid; Rating.grade := r |} ]
           /\ ~ has_rated uid old
           /\ ratings_unique new).
Proof.
  split; [now apply post_rating_ratings_unique|].
  intros w' resp E Hs.
  destruct (post_rating_success env uid id rating w w' resp E Hs)
    as (r & book & _ & _ & _ & Hf & Hnone & Hresp & _).
  eexists book, _, r. split; [exact Hf|]. split; [exact Hresp|]. simpl.
  split; [reflexivity|]. split.
  - intros Hr. apply has_rated_find in Hr. destruct Hr as [x Hx].
    rewrite Hx in Hnone. discriminate.
  - unfold ratings_unique. simpl. apply rated_ratings_unique; [|exact Hnone].
    apply find_some in Hf. destruct Hf as [Hin _].
    rewrite Forall_forall in Hw. now apply Hw.
Qed.

Lemma X14_one_rating_per_user_witness :
  Forall ratings_unique
    (books (fst (post_rating Sample.env_ok "u3" "A" (JNum (5 # 1)%Q)
                   Sample.world_rated))).
Proof.
  apply X14_one_rating_per_user.
  constructor; [|constructor]. unfold ratings_unique. simpl.
  constructor; [simpl; tauto|constructor].
Defined.

(** X15.  Grades and averages stay in [0,5]: if every stored grade lies in
    [0,5], so does every stored grade after a rating request, and the
    average that a rating answered 200 stores and returns lies in [0,5];
    more generally a book whose average is the mean of grades in [0,5],
    be it the arithmetic mean or the mean in double arithmetic, has its
    average in [0,5].  For the averages computed in double arithmetic the
    array of ratings is taken shorter than [2^32], as every JavaScript array
    is: the running sum then stays below [2^53], where the multiples of 5
    are doubles and no rounding can carry a sum beyond 5 times the number
    of grades added. *)
Theorem X15_average_within_bounds (env : Env) (uid id : string) (rating : jsval)
  (w : World) (Hw : Forall grades_in_range (books w)) :
  Forall grades_in_range (books (fst (post_rating env uid id rating w)))
  /\ (forall w' resp,
         post_rating env uid id rating w = (w', resp) -> status resp = 200 ->
         exists new,
           resp = res_status_json 200 (BookBody new)
           /\ grades_in_range new
           /\ (ratings_fit new ->
               (0 <= Book.averageRating new)%Q /\ (Book.averageRating new <= 5)%Q))
  /\ (forall b, In b (books w) -> average_ok b ->
                (0 <= Book.averageRating b)%Q /\ (Book.averageRating b <= 5)%Q)
  /\ (forall b, In b (books w) -> average_computed b -> ratings_fit b ->
                (0 <= Book.averageRating b)%Q /\ (Book.averageRating b <= 5)%Q).
Proof.
  split; [now apply post_rating_grades_in_range|]. split; [|split].
  - intros w' resp E Hs.
    destruct (post_rating_success env uid id rating w w' resp E Hs)
      as (r & book & _ & H0 & H5 & Hf & Hnone & Hresp & _).
    eexists. split; [exact Hresp|].
    assert (Hg : Forall (fun x => (0 <= Rating.grade x)%Q /\ (Rating.grade x <= 5)%Q)
                   (Book.ratings book
                    ++ [ {| Rating.userId := uid; Rating.grade := r |} ])).
    { apply Forall_app. split.
      - apply find_some in Hf. destruct Hf as [Hin _].
        rewrite Forall_forall in Hw. now apply Hw.
      - constructor; [now split|constructor]. }
    split; [exact Hg|].
    unfold ratings_fit. simpl. intros Hfit.
    rewrite handler_mean by (destruct (Book.ratings book); discriminate).
    apply double_mean_bounds.
    + apply Forall_map. exact Hg.
    + now rewrite length_map.
  - intros b Hin Hok. rewrite Forall_forall in Hw.
    pose proof (mean_bounds _ (grades_in_range_map b (Hw b Hin))) as Hm.
    unfold average_ok in Hok. rewrite Hok. exact Hm.
  - intros b Hin Hok Hfit. rewrite Forall_forall in Hw.
    unfold average_computed in Hok. rewrite Hok.
    apply double_mean_bounds; [exact (grades_in_range_map b (Hw b Hin))|].
    unfold grades. now rewrite length_map.
Qed.

Lemma X15_average_within_bounds_witness :
  Forall grades_in_range
    (books (fst (post_rating Sample.env_ok "u3" "A" (JNum (5 # 1)%Q)
                   Sample.world_rated)))
  /\ exists new,
       snd (post_rating Sample.env_ok "u3" "A" (JNum (5 # 1)%Q) Sample.world_rated)
       = res_status_json 200 (BookBody new)
       /\ (0 <= Book.averageRating new)%Q /\ (Book.averageRating new <= 5)%Q.
Proof.
  assert (Hw : Forall grades_in_range (books Sample.world_rated)).
  { constructor; [|constructor]. unfold grades_in_range. simpl.
    constructor; [|constructor]. split; unfold Qle; simpl; lia. }
  destruct (X15_average_within_bounds Sample.env_ok "u3" "A" (JNum (5 # 1)%Q)
              Sample.world_rated Hw) as [H1 [H2 _]].
  split; [exact H1|].
  destruct (H2 _ _ eq_refl eq_refl) as [new [E [_ Hb]]].
  exists new. split; [exact E|]. apply Hb.
  inversion E. unfold ratings_fit. simpl. lia.
Defined.

(** ** Sequences of requests *)

Lemma put_book_data_no_rating env req w w1 d :
  no_rating_fields (body req) ->
  (forall d0, body_book req = Some d0 -> no_rating_fields d0) ->
  put_book_data env req w = (w1, inr d) -> no_rating_fields d.
Proof.
  intros Hbody Hbook. unfold put_book_data.
  destruct (file req) as [f|], (body_book req) as [d0|].
  - destruct (compressImage env (buffer f) (upload_filename env f) w) as [w0 [p|e]];
      intros E; inversion E; subst.
    destruct (Hbook d0 eq_refl) as [Ha Hr]. split; assumption.
  - intros E; inversion E.
  - intros E; inversion E; subst. now apply Hbook.
  - intros E; inversion E; subst. exact Hbody.
Qed.

Lemma put_book_keeps (P : Book.t -> Prop) env uid req w :
  rating_paths_only P ->
  (forall w1 d, put_book_data env req w = (w1, inr d) -> no_rating_fields d) ->
  Forall P (books w) -> Forall P (books (fst (put_book env uid req w))).
Proof.
  intros HP Hd Hw. unfold put_book.
  pose proof (put_book_data_books env req w) as Hb.
  destruct (put_book_data env req w) as [w1 [early|d]]; simpl in Hb.
  - simpl. now rewrite Hb.
  - destruct (Hd w1 d eq_refl) as [Ha Hr].
    unfold Book_updateOne. destruct (updateOne_rejects env); [simpl; now rewrite Hb|].
    destruct (find _ (books w1)) as [b|] eqn:Hf; [|simpl; now rewrite Hb].
    destruct (Book_eqb b (apply_update d b)); [simpl; now rewrite Hb|].
    simpl. apply replace_first_Forall; [now rewrite Hb|].
    apply (HP b).
    + unfold apply_update. simpl. now rewrite Hr.
    + unfold apply_update. simpl. now rewrite Ha.
    + apply find_some in Hf. destruct Hf as [Hin _]. rewrite Hb in Hin.
      rewrite Forall_forall in Hw. now apply Hw.
Qed.

Lemma delete_book_keeps (P : Book.t -> Prop) env uid id w :
  Forall P (books w) -> Forall P (books (fst (delete_book env uid id w))).
Proof.
  intros Hw. unfold delete_book, delete_catch, Book_findOne, Book_deleteOne.
  destruct (startSession_rejects env); [exact Hw|].
  destruct (startTransaction_throws env); [exact Hw|].
  destruct (find_rejects env); [exact Hw|].
  destruct (find _ (books w)) as [b|]; [|exact Hw].
  destruct (deleteOne_rejects env); [simpl; now rewrite unlink_image_books|].
  destruct (commitTransaction_rejects env); [simpl; now rewrite unlink_image_books|].
  simpl. rewrite unlink_image_books. now apply remove_first_Forall.
Qed.

Lemma post_book_not_created env uid req w :
  (forall r, snd (post_book env uid req w) = Some r -> status r <> 201) ->
  books (fst (post_book env uid req w)) = books w.
Proof.
  unfold post_book.
  destruct (body_book req) as [d|]; [|reflexivity].
  destruct (file req) as [f|].
  - pose proof (compressImage_books env (buffer f) (upload_filename env f) w) as Hb.
    destruct (compressImage env (buffer f) (upload_filename env f) w) as [w1 [p|e]];
      simpl in Hb; [|intros _; exact Hb].
    destruct (book_null req); [intros _; exact Hb|].
    unfold Book_insert. destruct (save_rejects env); [intros _; exact Hb|].
    destruct (existsb _ (books w1)); [intros _; exact Hb|].
    simpl. intros H. exfalso. now apply (H _ eq_refl).
  - destruct (book_null req); [reflexivity|].
    unfold Book_insert. destruct (save_rejects env); [reflexivity|].
    destruct (existsb _ (books w)); [reflexivity|].
    simpl. intros H. exfalso. now apply (H _ eq_refl).
Qed.

Lemma post_book_keeps (P : Book.t -> Prop) env uid req w :
  (forall b, Book.ratings b = [] -> Book.averageRating b = 0%Q -> P b) ->
  Forall P (books w) -> Forall P (books (fst (post_book env uid req w))).
Proof.
  intros Hnew Hw.
  pose proof (post_book_not_created env uid req w) as Hnot.
  destruct (post_book env uid req w) as [w' [r|]] eqn:E; simpl in *.
  - destruct (Nat.eq_dec (status r) 201) as [Hs|Hs].
    + destruct (post_book_created env uid req w w' r E Hs) as [b [Hb [_ [Hr Ha]]]].
      rewrite Hb. apply Forall_app. split; [exact Hw|].
      constructor; [now apply Hnew|constructor].
    + rewrite Hnot; [exact Hw|]. intros r0 Hr0. now inversion Hr0; subst.
  - rewrite Hnot; [exact Hw|]. intros r0 Hr0. discriminate.
Qed.

Lemma signup_books hash env salt email password w :
  books (fst (signup hash env salt email password w)) = books w.
Proof.
  unfold signup, User_insert. destruct (save_rejects env); [reflexivity|].
  destruct (existsb _ (users w)); reflexivity.
Qed.

Lemma average_computed_paths : rating_paths_only average_computed.
Proof.
  intros b b' Hr Ha H. unfold average_computed, grades in *. now rewrite Hr, Ha.
Qed.

Lemma ratings_unique_paths : rating_paths_only ratings_unique.
Proof. intros b b' Hr _ H. unfold ratings_unique in *. now rewrite Hr. Qed.

Lemma grades_in_range_paths : rating_paths_only grades_in_range.
Proof. intros b b' Hr _ H. unfold grades_in_range in *. now rewrite Hr. Qed.

Lemma serve_unique_ids hash env r w :
  unique_ids w -> unique_ids (serve hash env r w).
Proof.
  intros Hw. destruct r; simpl; try exact Hw.
  - unfold unique_ids. now rewrite signup_books.
  - unfold route_post_book. destruct (auth env authorization); [|exact Hw].
    now apply post_book_unique_ids.
  - unfold route_put_book. destruct (auth env authorization); [|exact Hw].
    now apply put_book_unique_ids.
  - unfold route_delete_book. destruct (auth env authorization); [|exact Hw].
    now apply delete_book_unique_ids.
  - unfold route_post_rating. destruct (auth env authorization); [|exact Hw].
    now apply post_rating_unique_ids.
Qed.

Lemma serve_ratings_consistent hash env r w :
  no_rating_update r -> ratings_consistent w ->
  ratings_consistent (serve hash env r w).
Proof.
  intros Hr [Ha [Hu Hg]]. unfold ratings_consistent, all_average_computed in *.
  destruct r; simpl; try (now repeat split).
  - rewrite signup_books. now repeat split.
  - unfold route_post_book. destruct (auth env authorization);
      [|now repeat split].
    repeat split; apply post_book_keeps; try assumption.
    + intros b H1 H2. unfold average_computed, grades. rewrite H1, H2. reflexivity.
    + intros b H1 _. unfold ratings_unique. rewrite H1. constructor.
    + intros b H1 _. unfold grades_in_range. rewrite H1. constructor.
  - unfold route_put_book. destruct (auth env authorization);
      [|now repeat split].
    destruct Hr as [Hbody Hbook].
    assert (Hd : forall w1 d, put_book_data env req w = (w1, inr d) ->
                              no_rating_fields d).
    { intros w1 d. now apply put_book_data_no_rating. }
    repeat split; apply put_book_keeps; try assumption.
    + apply average_computed_paths.
    + apply ratings_unique_paths.
    + apply grades_in_range_paths.
  - unfold route_delete_book. destruct (auth env authorization);
      [|now repeat split].
    repeat split; now apply delete_book_keeps.
  - unfold route_post_rating. destruct (auth env authorization);
      [|now repeat split].
    repeat split.
    + now apply post_rating_average_computed.
    + now apply post_rating_ratings_unique.
    + now apply post_rating_grades_in_range.
Qed.

(** X16.  Along every sequence of requests, whatever the external calls
    do: identifiers stay unique in the collection of books; and when no
    update in the sequence carries [averageRating] or [ratings], every
    stored book keeps its average equal to the mean of its grades in
    double arithmetic (the arithmetic mean whenever neither the sum nor
    the quotient rounds), at most one rating per user and all grades in
    [0,5], hence, for an array of ratings shorter than [2^32], its average
    in [0,5]. *)
Theorem X16_invariants_along_requests
  (bcrypt_hash : string -> string -> string)
  (l : list (Env * Request)) (w : World) :
  (unique_ids w -> unique_ids (serve_all bcrypt_hash l w))
  /\ (Forall (fun er => no_rating_update (snd er)) l ->
      ratings_consistent w ->
      ratings_consistent (serve_all bcrypt_hash l w)
      /\ (forall b, In b (books (serve_all bcrypt_hash l w)) ->
                    computed_exactly (grades b) -> average_ok b)
      /\ (forall b, In b (books (serve_all bcrypt_hash l w)) -> ratings_fit b ->
                    (0 <= Book.averageRating b)%Q /\ (Book.averageRating b <= 5)%Q)).
Proof.
  split.
  - revert w. induction l as [|[env r] tl IH]; intros w Hw; simpl; [exact Hw|].
    apply IH. now apply serve_unique_ids.
  - intros Hl Hw.
    assert (Hend : ratings_consistent (serve_all bcrypt_hash l w)).
    { revert w Hw. induction Hl as [|[env r] tl Hr _ IH]; intros w Hw; simpl;
        [exact Hw|].
      apply IH. now apply serve_ratings_consistent. }
    split; [exact Hend|].
    destruct Hend as [Ha [_ Hg]].
    unfold all_average_computed in Ha. rewrite Forall_forall in Ha, Hg. split.
    + intros b Hin Hex. pose proof (Ha b Hin) as Hok.
      unfold average_ok. unfold average_computed in Hok. rewrite Hok.
      now apply exact_double_mean.
    + intros b Hin Hfit. pose proof (Ha b Hin) as Hok.
      unfold average_computed in Hok. rewrite Hok.
      apply double_mean_bounds; [exact (grades_in_range_map b (Hg b Hin))|].
      unfold grades. now rewrite length_map.
Qed.

Lemma X16_invariants_along_requests_witness :
  ratings_consistent
    (serve_all (fun password _ => ("$2a$10$" ++ password)%string)
       [ (Sample.env_ok, PostRating (Some Sample.token_u2) "A" (JNum (4 # 1)%Q));
         (Sample.env_ok, PutBook (Some Sample.token_u2) (Sample.req_json Sample.doc_title));
         (Sample.env_ok, DeleteBook None "A") ]
       Sample.world0).
Proof.
  apply X16_invariants_along_requests.
  - apply Forall_cons; [exact I|].
    apply Forall_cons;
      [split; [split; reflexivity|intros d H; discriminate]|].
    apply Forall_cons; [exact I|apply Forall_nil].
  - repeat split; repeat constructor.
Defined.

(** ** The two list queries *)

(** X17.  The best-rating query returns exactly min(3, n) of the n stored
    books; with at most three books it returns them all, reordered, and it
    is then a rearrangement of what GET /api/books returns. *)
Theorem X17_bestrating_size (env : Env) (w : World)
  (Hq : find_rejects env = None) :
  exists l,
    get_bestrating env w = res_status_json 200 (BooksBody l)
    /\ get_books env w = res_status_json 200 (BooksBody (books w))
    /\ List.length l = Nat.min 3 (List.length (books w))
    /\ (List.length (books w) <= 3 -> Permutation l (books w)).
Proof.
  unfold get_bestrating, get_books, Book_find. rewrite Hq.
  eexists. split; [reflexivity|]. split; [reflexivity|].
  unfold limit. split.
  - rewrite length_firstn.
    now rewrite (Permutation_length (sort_desc_perm (books w))).
  - intros Hle. rewrite firstn_all2.
    + apply sort_desc_perm.
    + now rewrite (Permutation_length (sort_desc_perm (books w))).
Qed.

Lemma X17_bestrating_size_witness :
  exists l,
    get_bestrating Sample.env_ok Sample.world_rated
    = res_status_json 200 (BooksBody l)
    /\ List.length l = 1.
Proof.
  destruct (X17_bestrating_size Sample.env_ok Sample.world_rated eq_refl)
    as [l [E [_ [Hlen _]]]].
  exists l. split; [exact E|exact Hlen].
Defined.

(** ** Users *)

Lemma compressImage_users env buf name w :
  users (fst (compressImage env buf name w)) = users w.
Proof.
  unfold compressImage. destruct (sharp_fails env); simpl; [reflexivity|].
  destruct (existsb (String.eqb name) (images w)); reflexivity.
Qed.

Lemma post_book_users env uid req w :
  users (fst (post_book env uid req w)) = users w.
Proof.
  unfold post_book. destruct (body_book req) as [d|]; [|reflexivity].
  destruct (file req) as [f|].
  - pose proof (compressImage_users env (buffer f) (upload_filename env f) w) as Hc.
    destruct (compressImage env (buffer f) (upload_filename env f) w) as [w1 [p|e]];
      simpl in Hc; [|exact Hc].
    destruct (book_null req); [exact Hc|].
    unfold Book_insert. destruct (save_rejects env); [exact Hc|].
    destruct (existsb _ (books w1)); exact Hc.
  - destruct (book_null req); [reflexivity|].
    unfold Book_insert. destruct (save_rejects env); [reflexivity|].
    destruct (existsb _ (books w)); reflexivity.
Qed.

Lemma put_book_users env uid req w :
  users (fst (put_book env uid req w)) = users w.
Proof.
  unfold put_book.
  assert (Hd : users (fst (put_book_data env req w)) = users w).
  { unfold put_book_data.
    destruct (file req) as [f|], (body_book req) as [d|]; try reflexivity.
    pose proof (compressImage_users env (buffer f) (upload_filename env f) w) as Hc.
    destruct (compressImage env (buffer f) (upload_filename env f) w) as [w1 [p|e]];
      simpl in *; exact Hc. }
  destruct (put_book_data env req w) as [w1 [early|d]]; simpl in Hd; [exact Hd|].
  unfold Book_updateOne. destruct (updateOne_rejects env); [exact Hd|].
  destruct (find _ (books w1)) as [b|]; [|exact Hd].
  destruct (Book_eqb b (apply_update d b)); exact Hd.
Qed.

Lemma delete_book_users env uid id w :
  users (fst (delete_book env uid id w)) = users w.
Proof.
  assert (Hu : forall fn, users (unlink_image env fn w) = users w).
  { intros fn. apply unlink_image_users. }
  unfold delete_book, delete_catch, Book_findOne, Book_deleteOne.
  destruct (startSession_rejects env); [reflexivity|].
  destruct (startTransaction_throws env); [reflexivity|].
  destruct (find_rejects env); [reflexivity|].
  destruct (find _ (books w)) as [b|]; [|reflexivity].
  destruct (deleteOne_rejects env); [simpl; apply Hu|].
  destruct (commitTransaction_rejects env); simpl; apply Hu.
Qed.

Lemma post_rating_users env uid id rating w :
  users (fst (post_rating env uid id rating w)) = users w.
Proof.
  unfold post_rating.
  destruct rating as [|r]; [reflexivity|].
  destruct (num_ltb r 0 || num_ltb 5 r); [reflexivity|].
  unfold Book_findOne. destruct (find_rejects env); [reflexivity|].
  destruct (find (by_id id) (books w)) as [b|]; [|reflexivity].
  destruct (find _ (Book.ratings b)); [reflexivity|].
  unfold Book_save. destruct (save_rejects env); reflexivity.
Qed.

Lemma serve_users hash env r w :
  match r with
  | Signup salt email password =>
      users (serve hash env r w) = users w
      \/ users (serve hash env r w)
         = users w ++ [ {| User._id := new_id env; User.email := email;
                           User.password := hash password salt |} ]
  | _ => users (serve hash env r w) = users w
  end.
Proof.
  destruct r; simpl; try reflexivity.
  - unfold signup, User_insert. destruct (save_rejects env); [now left|].
    destruct (existsb _ (users w)); [now left|now right].
  - unfold route_post_book. destruct (auth env authorization); [|reflexivity].
    apply post_book_users.
  - unfold route_put_book. destruct (auth env authorization); [|reflexivity].
    apply put_book_users.
  - unfold route_delete_book. destruct (auth env authorization); [|reflexivity].
    apply delete_book_users.
  - unfold route_post_rating. destruct (auth env authorization); [|reflexivity].
    apply post_rating_users.
Qed.

Lemma signups_cons (env : Env) (r : Request) (tl : list (Env * Request)) :
  signups ((env, r) :: tl) = (if is_signup r then 1 else 0) + signups tl.
Proof. unfold signups. simpl. destruct (is_signup r); reflexivity. Qed.

(** X18.  Users are only ever added: no request other than a signup
    touches the users, a signup at most appends one user (with the hashed
    password), and along every sequence of requests the users stored at the
    start stay, in order, at the head of the collection, followed by at
    most as many new users as the sequence has signups. *)
Theorem X18_users_only_grow (bcrypt_hash : string -> string -> string)
  (l : list (Env * Request)) (w : World) :
  (exists added,
      users (serve_all bcrypt_hash l w) = users w ++ added
      /\ List.length added <= signups l)
  /\ (Forall (fun er => match snd er with Signup _ _ _ => False | _ => True end) l ->
      users (serve_all bcrypt_hash l w) = users w)
  /\ (forall env r,
         match r with
         | Signup salt email password =>
             users (serve bcrypt_hash env r w) = users w
             \/ users (serve bcrypt_hash env r w)
                = users w ++ [ {| User._id := new_id env; User.email := email;
                                  User.password := bcrypt_hash password salt |} ]
         | _ => users (serve bcrypt_hash env r w) = users w
         end).
Proof.
  split; [|split].
  - revert w. induction l as [|[env r] tl IH]; intros w.
    + exists []. simpl. rewrite app_nil_r. split; [reflexivity|lia].
    + simpl serve_all. rewrite signups_cons.
      destruct (IH (serve bcrypt_hash env r w)) as [added [Ha Hlen]].
      pose proof (serve_users bcrypt_hash env r w) as Hs.
      destruct r; try (rewrite Hs in Ha; exists added; split; [exact Ha|lia]).
      destruct Hs as [Hs|Hs]; rewrite Hs in Ha.
      * exists added. split; [exact Ha|lia].
      * rewrite <- app_assoc in Ha. eexists. split; [exact Ha|].
        rewrite length_app. simpl is_signup. cbv iota. simpl List.length. lia.
  - intros Hl. revert w. induction Hl as [|[env r] tl Hr _ IH]; intros w; simpl;
      [reflexivity|].
    rewrite IH. pose proof (serve_users bcrypt_hash env r w) as Hs.
    destruct r; try exact Hs. simpl in Hr. contradiction.
  - intros env r. apply serve_users.
Qed.

Lemma X18_users_only_grow_witness :
  users
    (serve_all (fun password _ => ("$2a$10$" ++ password)%string)
       [ (Sample.env_ok, DeleteBook (Some Sample.token_u2) "A");
         (Sample.env_ok, PostRating (Some Sample.token_u2) "A" (JNum (4 # 1)%Q)) ]
       Sample.world0)
  = users Sample.world0.
Proof.
  apply X18_users_only_grow.
  apply Forall_cons; [exact I|]. apply Forall_cons; [exact I|apply Forall_nil].
Defined.

(** ** The effect of an update *)

Lemma find_replace_first_other (id other : string) f b' l :
  (forall x, f x = true -> Book._id x = id) -> Book._id b' = id -> other <> id ->
  find (by_id other) (replace_first f b' l) = find (by_id other) l.
Proof.
  intros Hf Hb' Hne. induction l as [|a tl IH]; simpl; [reflexivity|].
  destruct (f a) eqn:Ea; simpl.
  - assert (Ha : by_id other a = false).
    { unfold by_id. apply String.eqb_neq. rewrite (Hf a Ea). congruence. }
    assert (Hb : by_id other b' = false).
    { unfold by_id. apply String.eqb_neq. congruence. }
    now rewrite Ha, Hb.
  - destruct (by_id other a); [reflexivity|exact IH].
Qed.

(** X19.  An update is a merge: after the owner's update that was answered
    200, a get of the book returns the stored book with the supplied paths
    replaced and every other path as it was: the identifier is the old
    one, and each of the owner, the title, the author, the genre, the
    year, the image URL, the average and the ratings is the value of the
    update document where it supplies one and the stored value where it
    does not; a get of any other identifier is answered as before the
    update. *)
Theorem X19_update_merges (env later : Env) (req : BookRequest)
  (w w1 : World) (b : Book.t) (d : UpdateDoc)
  (Hu : unique_ids w) (Hin : In b (books w))
  (Hid : params_id req = Book._id b)
  (Hdata : put_book_data env req w = (w1, inr d))
  (Hok : status (snd (put_book env (Book.userId b) req w)) = 200)
  (Hq : find_rejects later = None) :
  let w' := fst (put_book env (Book.userId b) req w) in
  exists new,
    get_book later (Book._id b) w' = res_status_json 200 (BookBody new)
    /\ new = apply_update d b
    /\ Book._id new = Book._id b
    /\ Book.userId new
       = match set_userId d with Some u => u | None => Book.userId b end
    /\ Book.title new
       = match set_title d with Some t => Some t | None => Book.title b end
    /\ Book.author new
       = match set_author d with Some a => Some a | None => Book.author b end
    /\ Book.genre new
       = match set_genre d with Some g => Some g | None => Book.genre b end
    /\ Book.year new
       = match set_year d with Some y => Some y | None => Book.year b end
    /\ Book.imageUrl new
       = match set_imageUrl d with Some u => u | None => Book.imageUrl b end
    /\ Book.averageRating new
       = match set_averageRating d with
         | Some a => a
         | None => Book.averageRating b
         end
    /\ Book.ratings new
       = match set_ratings d with Some l => l | None => Book.ratings b end
    /\ (forall other, other <> Book._id b ->
                      get_book later other w' = get_book later other w).
Proof.
  intros w'. subst w'.
  pose proof (put_book_data_books env req w) as Hb. rewrite Hdata in Hb.
  simpl in Hb.
  assert (Hf : find (by_id_and_user (Book._id b) (Book.userId b)) (books w1) = Some b).
  { rewrite Hb. now apply find_owned_unique. }
  unfold put_book in *. rewrite Hdata, Hid in *. unfold Book_updateOne in *.
  destruct (updateOne_rejects env); [discriminate|].
  rewrite Hf in *.
  destruct (Book_eqb b (apply_update d b)); [discriminate|].
  simpl. unfold get_book, Book_findOne. rewrite Hq. simpl.
  assert (Hsel : forall x, by_id_and_user (Book._id b) (Book.userId b) x = true ->
                           Book._id x = Book._id b).
  { intros x Hx. now apply by_id_and_user_true in Hx. }
  exists (apply_update d b).
  split; [|split; [reflexivity|split; [reflexivity|]]].
  - assert (Hfind : find (by_id (Book._id b))
                      (replace_first (by_id_and_user (Book._id b) (Book.userId b))
                         (apply_update d b) (books w1)) = Some (apply_update d b)).
    { apply find_unique.
      - rewrite replace_first_ids; [now rewrite Hb|].
        intros x _ Hx. now apply Hsel.
      - now apply replace_first_In with (b := b).
      - now apply by_id_true.
      - intros x Hx. now apply by_id_true in Hx. }
    now rewrite Hfind.
  - unfold apply_update, or_else, or_keep. simpl.
    repeat (split; [reflexivity|]).
    intros other Hne.
    rewrite (find_replace_first_other (Book._id b) other); try assumption;
      [now rewrite Hb|reflexivity].
Qed.

Lemma X19_update_merges_witness :
  exists new,
    get_book Sample.env_ok "A"
      (fst (put_book Sample.env_ok "u1" (Sample.req_json Sample.doc_title)
              Sample.world0))
    = res_status_json 200 (BookBody new)
    /\ Book.title new = Some "Vol de nuit"
    /\ Book.author new = Some "Antoine de Saint-Exupery"
    /\ Book.userId new = "u1".
Proof.
  assert (Hu : unique_ids Sample.world0).
  { unfold unique_ids. simpl. constructor; [simpl; tauto|constructor]. }
  destruct (X19_update_merges Sample.env_ok Sample.env_ok
              (Sample.req_json Sample.doc_title) Sample.world0 Sample.world0
              Sample.bookA Sample.doc_title Hu (or_introl eq_refl)
              eq_refl eq_refl eq_refl eq_refl)
    as (new & Hget & _ & _ & Huid & Ht & Ha & _).
  exists new. split; [exact Hget|].
  split; [exact Ht|]. split; [exact Ha|exact Huid].
Defined.
